(** * Sentio: vector store, embedding provider and ingestion pipeline

    A shallow embedding of
    - [src/core/vector_store/qdrant_store.py]   (module [QdrantStore]),
    - [src/core/embeddings/providers/jina.py]   (module [JinaEmbedder]),
    - [src/core/ingest/ingest.py]               (module [DocumentIngestor]),
    - the [/embed] endpoint of [src/api/app.py]  (module [App]),
    followed by the properties of the design document that are about them
    and by further properties of the same code.

    Python objects that are mutated in place (the Qdrant client, the embedder
    with its cache, the ingestor with its statistics) are threaded through the
    functions explicitly; a Python exception is the [Raise] outcome of a
    computation, and the state reached when it was raised is kept, as in
    Python. *)

From Stdlib Require Import ZArith String Ascii List PrimFloat Lia.
From stdpp Require Import base option list gmap strings pretty.

Set Warnings "-register-all".
Local Open Scope string_scope.

(* ===================================================================== *)
(** * Python preliminaries *)
(* ===================================================================== *)

Module Py.

(** The exception classes the three modules raise or let through.
    [ClientError] stands for whatever the Qdrant client raises (transport
    errors, rejected requests), [HTTPError] for what [httpx] raises in the
    embedding provider, [OSError] for a failure to read a file (this
    includes a reader library that cannot be imported), and
    [ValidationError] for what a pydantic model raises on a field value of
    the wrong type. *)
Inductive http_failure :=
| Timeout
| Status (code : Z).

Inductive exn :=
| ValueError (msg : string)
| KeyError (key : string)
| IndexError
| NotImplementedError (msg : string)
| EmbeddingError (msg : string) (cause : option exn)
| HTTPError (f : http_failure)
| ClientError (msg : string)
| OSError (msg : string)
| ValidationError (msg : string).

Inductive result (A : Type) :=
| Ok (a : A)
| Raise (e : exn).
Arguments Ok {A} a.
Arguments Raise {A} e.

Definition is_ok {A} (r : result A) : bool :=
  match r with Ok _ => true | Raise _ => false end.

(** Computations over a mutable object of type [S]. *)
Definition M (S A : Type) : Type := S -> S * result A.

Definition ret {S A} (a : A) : M S A := fun s => (s, Ok a).
Definition raise {S A} (e : exn) : M S A := fun s => (s, Raise e).
Definition lift {S A} (r : result A) : M S A := fun s => (s, r).
Definition bind {S A B} (m : M S A) (k : A -> M S B) : M S B :=
  fun s => match m s with
           | (s', Ok a) => k a s'
           | (s', Raise e) => (s', Raise e)
           end.

(** Values of type [Any] that occur in payloads and filters. A [dict] keeps
    its insertion order. *)
Inductive value :=
| VNone
| VBool (b : bool)
| VInt (z : Z)
| VFloat (f : float)
| VStr (s : string)
| VList (l : list value)
| VDict (d : list (string * value)).

Definition dict : Type := list (string * value).

(** [d[k] = v]: overwrite in place, or append a new key. *)
Fixpoint dict_set {V} (d : list (string * V)) (k : string) (v : V)
    : list (string * V) :=
  match d with
  | [] => [(k, v)]
  | (k', v') :: d' =>
      if String.eqb k k' then (k', v) :: d' else (k', v') :: dict_set d' k v
  end.

(** A dict display [{k1: v1, ..., kn: vn}]. *)
Definition dict_display {V} (items : list (string * V)) : list (string * V) :=
  fold_left (fun d kv => dict_set d (fst kv) (snd kv)) items [].

(** [d.get(k, default)] *)
Fixpoint dict_get {V} (d : list (string * V)) (k : string) (default : V) : V :=
  match d with
  | [] => default
  | (k', v') :: d' => if String.eqb k k' then v' else dict_get d' k default
  end.

(** [str(i)] for a non-negative [int]. *)
Definition str_of_nat (i : nat) : string := pretty i.

(** [str.upper], on the ASCII letters. *)
Definition upper_ascii (c : ascii) : ascii :=
  let n := nat_of_ascii c in
  if (97 <=? n)%nat && (n <=? 122)%nat then ascii_of_nat (n - 32) else c.

Fixpoint upper (s : string) : string :=
  match s with
  | EmptyString => EmptyString
  | String c s' => String (upper_ascii c) (upper s')
  end.

(** [str.lower], on the ASCII letters. *)
Definition lower_ascii (c : ascii) : ascii :=
  let n := nat_of_ascii c in
  if (65 <=? n)%nat && (n <=? 90)%nat then ascii_of_nat (n + 32) else c.

Fixpoint lower (s : string) : string :=
  match s with
  | EmptyString => EmptyString
  | String c s' => String (lower_ascii c) (lower s')
  end.

(** The two-character separator written ["\n\n"] in the source. *)
Definition blank_line : string :=
  String (ascii_of_nat 10) (String (ascii_of_nat 10) EmptyString).

(** [sep.join(parts)] *)
Fixpoint join (sep : string) (parts : list string) : string :=
  match parts with
  | [] => ""
  | [p] => p
  | p :: ps => p ++ sep ++ join sep ps
  end.

(** [for x in xs: acc = body(x, acc)], stopping at the first exception. *)
Fixpoint for_each {S A B} (xs : list A) (body : A -> B -> M S B) (acc : B)
    : M S B :=
  match xs with
  | [] => ret acc
  | x :: xs' => bind (body x acc) (fun acc' => for_each xs' body acc')
  end.

(** [s.startswith(prefix)] *)
Fixpoint startswith (s prefix : string) : bool :=
  match prefix, s with
  | EmptyString, _ => true
  | String a prefix', String b s' => Ascii.eqb a b && startswith s' prefix'
  | String _ _, EmptyString => false
  end.

(** [sub in s] *)
Fixpoint contains (sub s : string) : bool :=
  startswith s sub
  || match s with
     | EmptyString => false
     | String _ s' => contains sub s'
     end.

(** [s.removeprefix(prefix)] *)
Fixpoint strip_prefix (s prefix : string) : option string :=
  match prefix, s with
  | EmptyString, _ => Some s
  | String a prefix', String b s' =>
      if Ascii.eqb a b then strip_prefix s' prefix' else None
  | String _ _, EmptyString => None
  end.

Definition removeprefix (s prefix : string) : string :=
  match strip_prefix s prefix with
  | Some rest => rest
  | None => s
  end.

(** [a or b] on [Optional[str]]: [None] and the empty string are falsy. *)
Definition or_ (a b : option string) : option string :=
  match a with
  | Some s => if String.eqb s "" then b else Some s
  | None => b
  end.

End Py.

Abbreviation Ok := Py.Ok.
Abbreviation Raise := Py.Raise.

Declare Scope py_scope.
Delimit Scope py_scope with py.
Notation "'let*' x := m 'in' k" := (Py.bind m (fun x => k))
  (at level 10, x name, m at level 100, k at level 200) : py_scope.
Notation "'do' m 'then' k" := (Py.bind m (fun _ => k))
  (at level 10, m at level 100, k at level 200) : py_scope.

(* ===================================================================== *)
(** * The Qdrant client ([qdrant_client]) *)
(* ===================================================================== *)

(** The models of [qdrant_client.http.models] the repository builds and
    hands to the client, with the validation of their constructors where the
    repository passes them a value of any type. *)
Module Rest.

Inductive Distance := COSINE | EUCLID | DOT | MANHATTAN.

(** [Distance[name]]: lookup of an enumeration member by its name. *)
Definition Distance_getitem (name : string) : Py.result Distance :=
  if String.eqb name "COSINE" then Ok COSINE
  else if String.eqb name "EUCLID" then Ok EUCLID
  else if String.eqb name "DOT" then Ok DOT
  else if String.eqb name "MANHATTAN" then Ok MANHATTAN
  else Raise (Py.KeyError name).

Record VectorParams := { size : Z; distance : Distance }.

Record PointStruct := {
  id : string;
  vector : list float;
  payload : Py.dict
}.

Inductive Match := MatchValue (value : Py.value).

(** [rest.MatchValue(value=value)]: the field takes a [bool], an [int] or a
    [str], strictly; the model rejects every other value. *)
Definition match_value_ok (value : Py.value) : bool :=
  match value with
  | Py.VBool _ | Py.VInt _ | Py.VStr _ => true
  | _ => false
  end.

Definition MatchValue_init (value : Py.value) : Py.result Match :=
  if match_value_ok value then Ok (MatchValue value)
  else Raise (Py.ValidationError "MatchValue.value").

Record FieldCondition := { key : string; match_ : Match }.

(** What [_convert_filter] returns: a bare condition or a [Filter] whose
    [must] list is a conjunction. *)
Inductive query_filter :=
| Condition (c : FieldCondition)
| Filter (must : list FieldCondition).

End Rest.

(** The remote index as the client sees it: the collections with their
    configuration and points, and [fault], the exception the service raises
    on a request when it cannot be reached ([None] when it is reachable). *)
Module QdrantClient.

Record Collection := {
  config : Rest.VectorParams;
  points : gmap string Rest.PointStruct
}.

Record t := {
  fault : option Py.exn;
  collections : gmap string Collection
}.

Definition get_collections : Py.M t (list string) := fun c =>
  match fault c with
  | Some e => (c, Raise e)
  | None => (c, Ok (map fst (map_to_list (collections c))))
  end.

Definition create_collection (collection_name : string)
    (vectors_config : Rest.VectorParams) : Py.M t unit := fun c =>
  match fault c with
  | Some e => (c, Raise e)
  | None =>
      match collections c !! collection_name with
      | Some _ => (c, Raise (Py.ClientError "collection already exists"))
      | None =>
          ({| fault := fault c;
              collections := <[collection_name :=
                                 {| config := vectors_config; points := ∅ |}]>
                               (collections c) |}, Ok tt)
      end
  end.

(** ** Point ids

    A point id is an unsigned integer or a UUID. Every id the repository
    sends is a [str], so that only the second kind occurs here: the id has to
    be one of the spellings of a UUID that Qdrant reads, the simple one (32
    hexadecimal digits), the hyphenated one (8-4-4-4-12), the URN
    ([urn:uuid:] before the hyphenated one) or the braced one (the hyphenated
    one in curly brackets). Two spellings of one UUID name the same point. *)

Definition is_hex (c : ascii) : bool :=
  let n := nat_of_ascii c in
  ((48 <=? n)%nat && (n <=? 57)%nat)
  || ((65 <=? n)%nat && (n <=? 70)%nat)
  || ((97 <=? n)%nat && (n <=? 102)%nat).

Fixpoint all_hex (s : string) : bool :=
  match s with
  | EmptyString => true
  | String c s' => is_hex c && all_hex s'
  end.

Definition simple_uuid (s : string) : option string :=
  if (String.length s =? 32)%nat && all_hex s then Some (Py.lower s) else None.

Definition hyphenated_uuid (s : string) : option string :=
  let hyphen_at (i : nat) :=
    match String.get i s with
    | Some c => Ascii.eqb c "-"
    | None => false
    end in
  let digits :=
    substring 0 8 s ++ substring 9 4 s ++ substring 14 4 s
    ++ substring 19 4 s ++ substring 24 12 s in
  if (String.length s =? 36)%nat
     && hyphen_at 8 && hyphen_at 13 && hyphen_at 18 && hyphen_at 23
  then simple_uuid digits
  else None.

Definition urn_uuid (s : string) : option string :=
  match Py.strip_prefix s "urn:uuid:" with
  | Some rest => hyphenated_uuid rest
  | None => None
  end.

Definition braced_uuid (s : string) : option string :=
  match Py.strip_prefix s "{" with
  | Some rest =>
      let closed :=
        match String.get 36 rest with
        | Some c => Ascii.eqb c "}"
        | None => false
        end in
      if (String.length rest =? 37)%nat && closed
      then hyphenated_uuid (substring 0 36 rest)
      else None
  | None => None
  end.

(** The UUID a [str] id spells, by its 32 digits in lower case; [None] when
    the service rejects the id. *)
Definition point_key (id : string) : option string :=
  match simple_uuid id with
  | Some k => Some k
  | None =>
      match hyphenated_uuid id with
      | Some k => Some k
      | None =>
          match urn_uuid id with
          | Some k => Some k
          | None => braced_uuid id
          end
      end
  end.

(** A point the collection takes: its id is a point id and its vector has
    the dimension of the collection. *)
Definition accepts (col : Collection) (p : Rest.PointStruct) : bool :=
  match point_key (Rest.id p) with
  | Some _ => (Z.of_nat (length (Rest.vector p)) =? Rest.size (config col))%Z
  | None => false
  end.

(** Insert-or-overwrite keyed by point id, in the order of the request. *)
Definition upsert_points (ps : list Rest.PointStruct)
    (m : gmap string Rest.PointStruct) : gmap string Rest.PointStruct :=
  fold_left
    (fun m p =>
       match point_key (Rest.id p) with
       | Some k => <[k := p]> m
       | None => m
       end) ps m.

(** [upsert]: a request with a point that the collection does not take is
    rejected as a whole. *)
Definition upsert (collection_name : string) (ps : list Rest.PointStruct)
    : Py.M t unit := fun c =>
  match fault c with
  | Some e => (c, Raise e)
  | None =>
      match collections c !! collection_name with
      | None => (c, Raise (Py.ClientError "collection not found"))
      | Some col =>
          if forallb (accepts col) ps
          then
            ({| fault := fault c;
                collections := <[collection_name :=
                                   {| config := config col;
                                      points := upsert_points ps (points col) |}]>
                                 (collections c) |}, Ok tt)
          else (c, Raise (Py.ClientError "point rejected"))
      end
  end.

End QdrantClient.

(* ===================================================================== *)
(** * [QdrantStore] *)
(* ===================================================================== *)

Module QdrantStore.

(** The fields of the dataclass the modelled methods read. *)
Record t := {
  collection_name : string;
  vector_size : Z;
  distance : string;
  content_payload_key : string;
  metadata_payload_key : string
}.

(** [health_check] *)
Definition health_check (self : t) : Py.M QdrantClient.t bool := fun c =>
  match QdrantClient.get_collections c with
  | (c', Ok _) => (c', Ok true)
  | (c', Raise _) => (c', Ok false)
  end.

(** [_bootstrap_collection] *)
Definition _bootstrap_collection (self : t) : Py.M QdrantClient.t unit :=
  (let* names := QdrantClient.get_collections in
   if bool_decide (collection_name self ∈ names)
   then Py.ret tt
   else
     let* d := Py.lift (Rest.Distance_getitem (Py.upper (distance self))) in
     QdrantClient.create_collection (collection_name self)
       {| Rest.size := vector_size self; Rest.distance := d |})%py.

(** The id of the point at position [i]. *)
Definition point_id (ids : option (list string)) (i : nat) : string :=
  match ids with
  | Some l => match l !! i with Some s => s | None => Py.str_of_nat i end
  | None => Py.str_of_nat i
  end.

Definition make_point (self : t) (ids : option (list string)) (i : nat)
    (text : string) (embedding : list float) (metadata : Py.dict)
    : Rest.PointStruct :=
  {| Rest.id := point_id ids i;
     Rest.vector := embedding;
     Rest.payload :=
       Py.dict_display [(content_payload_key self, Py.VStr text);
                        (metadata_payload_key self, Py.VDict metadata)] |}.

(** The loop over [enumerate(zip(texts_list, embeddings, metadatas))]. *)
Fixpoint make_points (self : t) (ids : option (list string)) (i : nat)
    (texts : list string) (embeddings : list (list float))
    (metadatas : list Py.dict) : list Rest.PointStruct :=
  match texts, embeddings, metadatas with
  | text :: texts', embedding :: embeddings', metadata :: metadatas' =>
      make_point self ids i text embedding metadata
        :: make_points self ids (S i) texts' embeddings' metadatas'
  | _, _, _ => []
  end.

(** [add_embeddings] *)
Definition add_embeddings (self : t) (texts : list string)
    (embeddings : list (list float)) (metadatas : option (list Py.dict))
    (ids : option (list string)) : Py.M QdrantClient.t (list string) :=
  (if negb (length texts =? length embeddings)%nat
   then Py.raise (Py.ValueError "Number of texts and embeddings must be the same.")
   else
     let metadatas :=
       match metadatas with
       | Some (m :: ms) => m :: ms
       | _ => replicate (length texts) []
       end in
     if negb (length metadatas =? length texts)%nat
     then Py.raise (Py.ValueError "Number of texts and metadatas must be the same.")
     else
       let points := make_points self ids 0 texts embeddings metadatas in
       do QdrantClient.upsert (collection_name self) points then
       Py.ret (map Rest.id points))%py.

(** The loop of [_convert_filter], which stops at the first value that
    [rest.MatchValue] rejects. *)
Fixpoint filter_clauses (self : t) (items : Py.dict)
    : Py.result (list Rest.FieldCondition) :=
  match items with
  | [] => Ok []
  | (key, value) :: items' =>
      match Rest.MatchValue_init value with
      | Raise e => Raise e
      | Ok m =>
          match filter_clauses self items' with
          | Raise e => Raise e
          | Ok clauses =>
              Ok ({| Rest.key := metadata_payload_key self ++ "." ++ key;
                     Rest.match_ := m |} :: clauses)
          end
      end
  end.

(** [_convert_filter] *)
Definition _convert_filter (self : t) (filter_dict : Py.dict)
    : Py.result Rest.query_filter :=
  match filter_clauses self filter_dict with
  | Raise e => Raise e
  | Ok [c] => Ok (Rest.Condition c)
  | Ok filter_clauses => Ok (Rest.Filter filter_clauses)
  end.

(** The [Embeddings] object of LangChain, by the two methods the store
    calls. *)
Record Embeddings := {
  embed_query : string -> Py.result (list float);
  embed_documents : list string -> Py.result (list (list float))
}.

(** In [__post_init__]: a Qdrant cloud URL is made an HTTPS one. *)
Definition cloud_url (resolved_url : string) : string :=
  if Py.contains ".cloud.qdrant.io" resolved_url
  then
    if negb (Py.startswith resolved_url "https://")
    then "https://" ++ Py.removeprefix resolved_url "http://"
    else resolved_url
  else resolved_url.

(** [__post_init__], with the [url] and [api_key] arguments and the two
    settings it falls back on; it returns the URL and the key the client is
    constructed with, after the bootstrap of the collection. *)
Definition __post_init__ (self : t) (url api_key : option string)
    (settings_qdrant_url settings_qdrant_api_key : option string)
    : Py.M QdrantClient.t (string * string) :=
  match Py.or_ url settings_qdrant_url with
  | None =>
      Py.raise
        (Py.ValueError "QDRANT_URL env var or 'url' argument must be provided.")
  | Some resolved_url =>
      match Py.or_ api_key settings_qdrant_api_key with
      | None =>
          Py.raise
            (Py.ValueError
               "QDRANT_API_KEY env var or 'api_key' argument must be provided.")
      | Some resolved_key =>
          (do _bootstrap_collection self then
           Py.ret (cloud_url resolved_url, resolved_key))%py
      end
  end.

(** [add_texts]; [embedding] is the field of that name. *)
Definition add_texts (self : t) (embedding : option Embeddings)
    (texts : list string) (metadatas : option (list Py.dict))
    (ids : option (list string)) : Py.M QdrantClient.t (list string) :=
  match embedding with
  | None => Py.raise (Py.ValueError "Embeddings must be provided for adding texts.")
  | Some e =>
      (let* embeddings := Py.lift (embed_documents e texts) in
       add_embeddings self texts embeddings metadatas ids)%py
  end.

(** A hit of [client.search]. *)
Record ScoredPoint := { hit_payload : Py.dict; score : float }.

(** The [Document] of LangChain, a validated model: [page_content] is a
    [str] and [metadata] a [dict]; the constructor raises [ValidationError]
    on any other value. *)
Record Document := { page_content : string; metadata : Py.dict }.

Definition Document_init (page_content metadata : Py.value)
    : Py.result Document :=
  match page_content with
  | Py.VStr text =>
      match metadata with
      | Py.VDict d => Ok {| page_content := text; metadata := d |}
      | _ => Raise (Py.ValidationError "Document.metadata")
      end
  | _ => Raise (Py.ValidationError "Document.page_content")
  end.

(** The body of the loop of [similarity_search_with_score]. *)
Definition scored_document (self : t) (result : ScoredPoint)
    : Py.result (Document * float) :=
  let payload := hit_payload result in
  let text := Py.dict_get payload (content_payload_key self) (Py.VStr "") in
  let metadata := Py.dict_get payload (metadata_payload_key self) (Py.VDict []) in
  match Document_init text metadata with
  | Ok doc => Ok (doc, score result)
  | Raise e => Raise e
  end.

(** The loop of [similarity_search_with_score]: the hits in order, up to the
    first one whose document is not built. *)
Fixpoint scored_documents (self : t) (results : list ScoredPoint)
    : Py.result (list (Document * float)) :=
  match results with
  | [] => Ok []
  | result :: rest =>
      match scored_document self result with
      | Raise e => Raise e
      | Ok document =>
          match scored_documents self rest with
          | Ok documents => Ok (document :: documents)
          | Raise e => Raise e
          end
      end
  end.

Section Search.

(** [client.search], which is not part of the repository: the hits for a
    query vector, a limit and a filter, best first. *)
Variable search :
  string -> list float -> Z -> option Rest.query_filter ->
  Py.M QdrantClient.t (list ScoredPoint).

(** [similarity_search_with_score]; an empty filter dict is falsy. *)
Definition similarity_search_with_score (self : t) (embedding : option Embeddings)
    (query : string) (k : Z) (filter : option Py.dict)
    : Py.M QdrantClient.t (list (Document * float)) :=
  match embedding with
  | None =>
      Py.raise (Py.ValueError "Embeddings must be provided for similarity search.")
  | Some e =>
      (let* embedding := Py.lift (embed_query e query) in
       let* query_filter :=
         Py.lift
           match filter with
           | Some (kv :: kvs) =>
               match _convert_filter self (kv :: kvs) with
               | Ok q => Ok (Some q)
               | Raise exc => Raise exc
               end
           | _ => Ok None
           end in
       let* results := search (collection_name self) embedding k query_filter in
       Py.lift (scored_documents self results))%py
  end.

(** [similarity_search] *)
Definition similarity_search (self : t) (embedding : option Embeddings)
    (query : string) (k : Z) (filter : option Py.dict)
    : Py.M QdrantClient.t (list Document) :=
  (let* docs_and_scores := similarity_search_with_score self embedding query k filter in
   Py.ret (map fst docs_and_scores))%py.

End Search.

(** [from_texts]; the fields of the dataclass that [kwargs] may set are
    given one by one, with the two settings [__post_init__] falls back on. *)
Definition from_texts (texts : list string) (embedding : Embeddings)
    (metadatas : option (list Py.dict)) (ids : option (list string))
    (collection_name : string) (vector_size : option Z)
    (distance content_payload_key metadata_payload_key : string)
    (url api_key settings_qdrant_url settings_qdrant_api_key : option string)
    : Py.M QdrantClient.t t :=
  (let* vector_size :=
     Py.lift
       match vector_size with
       | Some n => Ok n
       | None =>
           match texts with
           | text :: _ =>
               match embed_query embedding text with
               | Ok v => Ok (Z.of_nat (length v))
               | Raise e => Raise e
               end
           | [] => Ok 1024%Z
           end
       end in
   let instance :=
     {| collection_name := collection_name;
        vector_size := vector_size;
        distance := distance;
        content_payload_key := content_payload_key;
        metadata_payload_key := metadata_payload_key |} in
   do __post_init__ instance url api_key settings_qdrant_url
        settings_qdrant_api_key then
   do match texts with
      | [] => Py.ret []
      | _ => add_texts instance (Some embedding) texts metadatas ids
      end then
   Py.ret instance)%py.

End QdrantStore.

(* ===================================================================== *)
(** * [JinaEmbedder] *)
(* ===================================================================== *)

Module JinaEmbedder.

Definition vec : Type := list float.

(** [KNOWN_MODEL_DIMENSIONS]: the display repeats one key five times, so the
    dict holds the last value. *)
Definition KNOWN_MODEL_DIMENSIONS : list (string * nat) :=
  Py.dict_display
    [("jina-embeddings-v3", 768%nat);
     ("jina-embeddings-v3", 512%nat);
     ("jina-embeddings-v3", 768%nat);
     ("jina-embeddings-v3", 512%nat);
     ("jina-embeddings-v3", 1024%nat)].

(** The JSON body of a request. *)
Record payload := { input : list string; model : string }.

(** What lies outside the repository:
    - [hash]: the builtin [hash] on strings, fixed for the process;
    - [uniform_vector seed n]: the list
      [[random.uniform(-0.1, 0.1) for _ in range(n)]] after [random.seed(seed)];
    - [post earlier p]: the outcome of POSTing [p] to the service after the
      requests [earlier] (oldest first): an exception, or the items of the
      ["data"] field of the response;
    - [normalize]: the normalisation of a text in a cache key. *)

(** An item of the ["data"] field of a response: a JSON object, given by what
    it holds under ["embedding"], if anything. *)
Definition item : Type := option vec.

Record env := {
  hash : string -> Z;
  uniform_vector : Z -> nat -> vec;
  post : list payload -> payload -> Py.result (list item);
  normalize : string -> string
}.

(** [item["embedding"]] *)
Definition item_embedding (i : item) : Py.result vec :=
  match i with
  | Some v => Ok v
  | None => Raise (Py.KeyError "embedding")
  end.

(** [[item["embedding"] for item in results]] *)
Fixpoint embeddings_of (results : list item) : Py.result (list vec) :=
  match results with
  | [] => Ok []
  | i :: rest =>
      match item_embedding i with
      | Raise e => Raise e
      | Ok v =>
          match embeddings_of rest with
          | Ok vs => Ok (v :: vs)
          | Raise e => Raise e
          end
      end
  end.

(** The attributes of an embedder that the methods read: the five that
    [__init__] assigns, and [model_name], which [__init__] hands to
    [BaseEmbedder.__init__]. No method of the class reassigns them. *)
Record t := {
  model_name : string;
  api_key : option string;
  max_retries : Z;
  timeout : Z;
  batch_size : Z;
  allow_empty_api_key : bool
}.

(** One call of [_update_stats], by its two flags; the duration it is given
    is a difference of two readings of the clock. *)
Record stats_update := { hit : bool; error : bool }.

(** What changes while the embedder is used: the cache, and three ledgers:
    [sent], the requests POSTed so far (oldest first), [slept], the back-off
    waits, each by the exponent [k] of its delay [base * 2^k], and [stats],
    the calls of [_update_stats] so far (oldest first). *)
Record state := {
  cache : gmap (string * string * string) vec;
  sent : list payload;
  slept : list nat;
  stats : list stats_update
}.

Definition set_cache (c : gmap (string * string * string) vec) (s : state)
    : state :=
  {| cache := c; sent := sent s; slept := slept s; stats := stats s |}.

Definition set_sent (l : list payload) (s : state) : state :=
  {| cache := cache s; sent := l; slept := slept s; stats := stats s |}.

Definition set_slept (l : list nat) (s : state) : state :=
  {| cache := cache s; sent := sent s; slept := l; stats := stats s |}.

Definition set_stats (l : list stats_update) (s : state) : state :=
  {| cache := cache s; sent := sent s; slept := slept s; stats := l |}.

(** [not self.api_key]: [None] and the empty string are falsy. *)
Definition no_api_key (self : t) : bool :=
  match api_key self with
  | None => true
  | Some k => String.eqb k ""
  end.

(** Modelled from the spec: the embedding cache of [BaseEmbedder]
    (src/core/embeddings/base.py, not among the sources). A cache entry is
    [(provider, model, normalized_text) -> vector], with no expiry. *)
Definition cache_key (E : env) (self : t) (text : string)
    : string * string * string :=
  ("jina", model_name self, normalize E text).

(** Modelled from the spec: [BaseEmbedder._check_cache], the lookup of a text
    in the cache ([None] on a miss). *)
Definition _check_cache (E : env) (self : t) (text : string) (s : state)
    : option vec :=
  cache s !! cache_key E self text.

(** Modelled from the spec: [BaseEmbedder._store_cache], which writes a
    (text, vector) pair into the cache. *)
Definition _store_cache (E : env) (self : t) (text : string) (emb : vec)
    : Py.M state unit :=
  fun s => (set_cache (<[cache_key E self text := emb]> (cache s)) s, Ok tt).

(** Modelled from the spec: [BaseEmbedder._update_stats], the hit and miss
    accounting of the embedder (src/core/embeddings/base.py, not among the
    sources). What the call does with its arguments is not known here; the
    call itself is entered in the ledger [stats]. *)
Definition _update_stats (hit error : bool) : Py.M state unit :=
  fun s => (set_stats (stats s ++ [{| hit := hit; error := error |}]) s, Ok tt).

(** Modelled from the spec: the failures that are retried are timeouts, rate
    limiting and 5xx-class responses. *)
Definition transient (e : Py.exn) : bool :=
  match e with
  | Py.HTTPError Py.Timeout => true
  | Py.HTTPError (Py.Status code) =>
      (code =? 429)%Z || ((500 <=? code)%Z && (code <? 600)%Z)
  | _ => false
  end.

(** Modelled from the spec: the decorator [_retry] of
    src/core/embeddings/base.py (not among the sources). The call is attempted
    at most [attempts] times; after a transient failure it is attempted again
    after a back-off wait that doubles each time; a failure that is not
    transient is not retried; when the attempts are used up the failure is
    escalated to [EmbeddingError]. [k] is the number of attempts made so
    far. *)
Fixpoint _retry_from {A} (k attempts : nat) (f : Py.M state A)
    : Py.M state A :=
  match attempts with
  | O => Py.raise (Py.EmbeddingError "no attempt left" None)
  | S attempts' => fun s =>
      match f s with
      | (s', Ok a) => (s', Ok a)
      | (s', Raise e) =>
          if transient e then
            match attempts' with
            | O => (s', Raise (Py.EmbeddingError "retries exhausted" (Some e)))
            | S _ =>
                _retry_from (S k) attempts' f
                  (set_slept (slept s' ++ [k]) s')
            end
          else (s', Raise e)
      end
  end.

Definition _retry {A} (attempts : nat) (f : Py.M state A) : Py.M state A :=
  _retry_from 0 attempts f.

(** The mock vector of a text (offline mode). *)
Definition mock_vector (E : env) (self : t) (text : string) : vec :=
  let dimension := Py.dict_get KNOWN_MODEL_DIMENSIONS (model_name self) 1024%nat in
  let seed := (Z.abs (hash E text) mod 10000)%Z in
  uniform_vector E seed dimension.

(** The body of [_execute_async_request], one attempt. *)
Definition _execute_async_request_once (E : env) (self : t) (p : payload)
    : Py.M state (list item) := fun s =>
  if no_api_key self && negb (allow_empty_api_key self)
  then (s, Raise (Py.EmbeddingError "Jina API key not provided" None))
  else if no_api_key self && allow_empty_api_key self
  then (s, Ok (map (fun text => Some (mock_vector E self text)) (input p)))
  else (set_sent (sent s ++ [p]) s, post E (sent s) p).

(** [_execute_async_request], decorated with [@_retry(3)]. *)
Definition _execute_async_request (E : env) (self : t) (p : payload)
    : Py.M state (list item) :=
  _retry 3 (_execute_async_request_once E self p).

(** [_get_embeddings]: the request and the reading of the items are both
    inside the [try]. *)
Definition _get_embeddings (E : env) (self : t) (texts : list string)
    : Py.M state (list vec) :=
  match texts with
  | [] => Py.ret []
  | _ => fun s =>
      match _execute_async_request E self
              {| input := texts; model := model_name self |} s with
      | (s', Ok results) =>
          match embeddings_of results with
          | Ok embeddings => (s', Ok embeddings)
          | Raise e =>
              (s', Raise (Py.EmbeddingError "Jina embedding failed" (Some e)))
          end
      | (s', Raise e) =>
          (s', Raise (Py.EmbeddingError "Jina embedding failed" (Some e)))
      end
  end.

(** [range(0, stop, step)] for [stop >= 0]. *)
Definition range_from_zero (stop : nat) (step : Z) : Py.result (list nat) :=
  if (step =? 0)%Z then Raise (Py.ValueError "range() arg 3 must not be zero")
  else if (step <? 0)%Z then Ok []
  else
    let st := Z.to_nat step in
    Ok (map (fun k => k * st) (seq 0 ((stop + st - 1) / st))).

(** [[i for i, c in enumerate(cached_results) if c is None]] *)
Fixpoint uncached_indices_from (i : nat) (cached_results : list (option vec))
    : list nat :=
  match cached_results with
  | [] => []
  | None :: cs => i :: uncached_indices_from (S i) cs
  | Some _ :: cs => uncached_indices_from (S i) cs
  end.

(** The merge loop of [embed_async_many], over
    [enumerate(cached_results)] with [texts[i]] alongside. *)
Fixpoint merge (E : env) (self : t) (items : list (string * option vec))
    (batched_embeddings : list vec) (fresh_idx : nat) (result : list vec)
    : Py.M state (list vec) :=
  match items with
  | [] => Py.ret result
  | (_, Some cached) :: items' =>
      merge E self items' batched_embeddings fresh_idx (result ++ [cached])
  | (text, None) :: items' =>
      match batched_embeddings !! fresh_idx with
      | None => Py.raise Py.IndexError
      | Some emb =>
          (do _store_cache E self text emb then
           merge E self items' batched_embeddings (S fresh_idx)
             (result ++ [emb]))%py
      end
  end.

(** The loop that sends the uncached texts in batches. *)
Definition send_batches (E : env) (self : t) (uncached_texts : list string)
    (starts : list nat) : Py.M state (list vec) :=
  Py.for_each starts
    (fun i acc =>
       let batch := firstn (Z.to_nat (batch_size self))
                      (skipn i uncached_texts) in
       (let* fresh := _get_embeddings E self batch in
        Py.ret (acc ++ fresh)%list)%py) [].

(** [embed_async_many] *)
Definition embed_async_many (E : env) (self : t) (texts : list string)
    : Py.M state (list vec) :=
  match texts with
  | [] => Py.ret []
  | _ => fun s =>
      let cached_results := map (fun text => _check_cache E self text s) texts in
      if forallb (fun c => match c with Some _ => true | None => false end)
           cached_results
      then
        (do _update_stats true false then
         Py.ret (omap id cached_results))%py s
      else
        let uncached_indices := uncached_indices_from 0 cached_results in
        let uncached_texts := map (fun i => nth i texts "") uncached_indices in
        (let* starts := Py.lift (range_from_zero (length uncached_texts)
                                   (batch_size self)) in
         let* batched_embeddings :=
           send_batches E self uncached_texts starts in
         let* result :=
           merge E self (combine texts cached_results) batched_embeddings 0 [] in
         do _update_stats false false then
         Py.ret result)%py s
  end.

(** The attributes that [__init__] assigns before it calls
    [BaseEmbedder.__init__]. *)
Record assigned := {
  assigned_api_key : option string;
  assigned_timeout : Z;
  assigned_max_retries : Z;
  assigned_batch_size : Z;
  assigned_allow_empty_api_key : bool
}.

(** [__init__]. [settings_embedding_model_api_key] is the setting the key
    falls back on. [super_init] is [BaseEmbedder.__init__]
    (src/core/embeddings/base.py, not among the sources): run on the object
    with the attributes assigned so far and on [model_name], it raises or
    leaves the finished embedder. *)
Definition __init__ (model_name : string) (api_key : option string)
    (max_retries timeout batch_size : Z) (allow_empty_api_key : bool)
    (settings_embedding_model_api_key : option string)
    (super_init : assigned -> string -> Py.result t) : Py.result t :=
  let api_key := Py.or_ api_key settings_embedding_model_api_key in
  let not_api_key :=
    match api_key with
    | None => true
    | Some k => String.eqb k ""
    end in
  if not_api_key && negb allow_empty_api_key
  then Raise (Py.EmbeddingError "Jina API key not provided" None)
  else
    super_init
      {| assigned_api_key := api_key;
         assigned_timeout := timeout;
         assigned_max_retries := max_retries;
         assigned_batch_size := batch_size;
         assigned_allow_empty_api_key := allow_empty_api_key |}
      model_name.

(** [embed_async_single]: only the request is inside the [try]; the first
    item and its embedding are read after it. *)
Definition embed_async_single (E : env) (self : t) (text : string)
    : Py.M state vec := fun s =>
  match _check_cache E self text s with
  | Some cached => (do _update_stats true false then Py.ret cached)%py s
  | None =>
      match _execute_async_request E self
              {| input := [text]; model := model_name self |} s with
      | (s', Raise e) =>
          (do _update_stats false true then
           Py.raise (Py.EmbeddingError "Jina embedding failed" (Some e)))%py s'
      | (s', Ok result) =>
          match result with
          | [] => (s', Raise Py.IndexError)
          | i :: _ =>
              match item_embedding i with
              | Raise e => (s', Raise e)
              | Ok embedding =>
                  (do _store_cache E self text embedding then
                   do _update_stats false false then
                   Py.ret embedding)%py s'
              end
          end
      end
  end.

(** [embed_sync]: one POST with [requests], no retry; whatever is raised
    after the cache lookup is counted as an error and wrapped in
    [EmbeddingError]. *)
Definition embed_sync (E : env) (self : t) (text : string)
    : Py.M state vec := fun s =>
  match _check_cache E self text s with
  | Some cached => (do _update_stats true false then Py.ret cached)%py s
  | None =>
      let payload := {| input := [text]; model := model_name self |} in
      let failed (e : Py.exn) : Py.M state vec :=
        (do _update_stats false true then
         Py.raise (Py.EmbeddingError "Failed to embed text" (Some e)))%py in
      let embedded (embedding : vec) : Py.M state vec :=
        (do _store_cache E self text embedding then
         do _update_stats false false then
         Py.ret embedding)%py in
      if no_api_key self && allow_empty_api_key self
      then embedded (mock_vector E self text) s
      else
        let s' := set_sent (sent s ++ [payload]) s in
        match post E (sent s) payload with
        | Raise e => failed e s'
        | Ok [] => failed Py.IndexError s'
        | Ok (i :: _) =>
            match item_embedding i with
            | Raise e => failed e s'
            | Ok embedding => embedded embedding s'
            end
        end
  end.

(** [_get_embedding_dimension] *)
Definition _get_embedding_dimension (E : env) (self : t) : Py.M state nat :=
  if existsb (fun kv => String.eqb (model_name self) (fst kv)) KNOWN_MODEL_DIMENSIONS
  then Py.ret (Py.dict_get KNOWN_MODEL_DIMENSIONS (model_name self) 0%nat)
  else
    (let* test_embedding := embed_async_single E self "test" in
     Py.ret (length test_embedding))%py.

End JinaEmbedder.

(* ===================================================================== *)
(** * [DocumentIngestor] *)
(* ===================================================================== *)

Module DocumentIngestor.

Definition vec : Type := list float.

(** The fields of [Document] (src/core/models/document.py) that the ingestor
    reads and writes. *)
Record Document := { id : string; text : string; metadata : Py.dict }.

(** A path below the data directory, as [pathlib] shows it: [read_text] is
    the outcome of [read_text(errors="replace")], [pdf_pages] the outcome of
    opening the file with [PdfReader] and calling [extract_text] on each page,
    [docx_paragraphs] the outcome of opening it with [docx.Document] and
    reading the text of each paragraph. *)
Record Path := {
  str : string;
  name : string;
  suffix : string;
  is_file : bool;
  st_size : N;
  read_text : Py.result string;
  pdf_pages : Py.result (list (option string));
  docx_paragraphs : Py.result (list string)
}.

(** The data directory: whether it exists, its direct entries ([iterdir])
    and the paths that [glob("**/*")] yields, in order. *)
Record Directory := {
  exists_ : bool;
  iterdir : list Path;
  glob : list Path
}.

Record stats := {
  documents_processed : Z;
  chunks_created : Z;
  embeddings_generated : Z;
  bytes_processed : Z
}.

Definition mem (s : string) (l : list string) : bool := existsb (String.eqb s) l.

(** [_read_file_content] *)
Definition _read_file_content (file_path : Path) : Py.result string :=
  let suffix := Py.lower (suffix file_path) in
  if mem suffix [".txt"; ".md"; ".json"; ".yaml"; ".yml"; ".html"; ".css"; ".js"; ".py"]
  then read_text file_path
  else if String.eqb suffix ".pdf" then
    match pdf_pages file_path with
    | Ok pages =>
        Ok (Py.join Py.blank_line
              (map (fun page => match page with Some s => s | None => "" end) pages))
    | Raise _ => Raise (Py.ValueError "Error reading PDF file")
    end
  else if String.eqb suffix ".docx" then
    match docx_paragraphs file_path with
    | Ok paragraphs => Ok (Py.join Py.blank_line paragraphs)
    | Raise _ => Raise (Py.ValueError "Error reading DOCX file")
    end
  else Raise (Py.ValueError ("Unsupported file format: " ++ suffix)).

Section Ingestor.

(** The collaborators of the ingestor that are not among the sources:
    - [Emb], the embedder object, and [embed_async_many], its method;
    - [split], the method of the [TextChunker];
    - [new_id k], the id the [Document] model generates for the [k]-th
      document the loader creates in a call. *)
Variable Emb : Type.
Variable embed_async_many : list string -> Py.M Emb (list vec).
Variable split : list Document -> Py.result (list Document).
Variable new_id : nat -> string.

(** The ingestor after [initialize]: [client] is [vector_store._client]. *)
Record t := {
  collection_name : string;
  _stats : stats;
  embedder : Emb;
  client : QdrantClient.t
}.

Definition set_stats (st : stats) (self : t) : t :=
  {| collection_name := collection_name self; _stats := st;
     embedder := embedder self; client := client self |}.

Definition set_embedder (e : Emb) (self : t) : t :=
  {| collection_name := collection_name self; _stats := _stats self;
     embedder := e; client := client self |}.

Definition set_client (c : QdrantClient.t) (self : t) : t :=
  {| collection_name := collection_name self; _stats := _stats self;
     embedder := embedder self; client := c |}.

Definition add_bytes (n : Z) (st : stats) : stats :=
  {| documents_processed := documents_processed st;
     chunks_created := chunks_created st;
     embeddings_generated := embeddings_generated st;
     bytes_processed := bytes_processed st + n |}.

Definition add_chunks (n : Z) (st : stats) : stats :=
  {| documents_processed := documents_processed st;
     chunks_created := chunks_created st + n;
     embeddings_generated := embeddings_generated st;
     bytes_processed := bytes_processed st |}.

Definition add_embeddings_generated (n : Z) (st : stats) : stats :=
  {| documents_processed := documents_processed st;
     chunks_created := chunks_created st;
     embeddings_generated := embeddings_generated st + n;
     bytes_processed := bytes_processed st |}.

Definition set_documents_processed (n : Z) (st : stats) : stats :=
  {| documents_processed := n;
     chunks_created := chunks_created st;
     embeddings_generated := embeddings_generated st;
     bytes_processed := bytes_processed st |}.

(** The local variables of the loop of [_load_documents_from_directory]. *)
Record loaded := {
  documents : list Document;
  processed_files : gset string;
  documents_count : nat
}.

(** One iteration of the loop over [data_dir.glob("**/*")]; an exception
    raised while a file is read is logged and the file skipped. *)
Definition load_file (file_path : Path) (acc : loaded) : Py.M t loaded :=
  fun self =>
    if is_file file_path
       && mem (Py.lower (suffix file_path))
            [".txt"; ".md"; ".pdf"; ".docx"; ".html"; ".json"; ".yaml"; ".yml"]
    then
      if bool_decide (str file_path ∈ processed_files acc) then (self, Ok acc)
      else
        match _read_file_content file_path with
        | Raise _ => (self, Ok acc)
        | Ok content =>
            let doc :=
              {| id := new_id (length (documents acc));
                 text := content;
                 metadata :=
                   Py.dict_display
                     [("source", Py.VStr (str file_path));
                      ("filename", Py.VStr (name file_path));
                      ("extension", Py.VStr (Py.lower (suffix file_path)));
                      ("size_bytes", Py.VInt (Z.of_N (st_size file_path)))] |} in
            (set_stats (add_bytes (Z.of_N (st_size file_path)) (_stats self)) self,
             Ok {| documents := (documents acc ++ [doc])%list;
                   processed_files := {[str file_path]} ∪ processed_files acc;
                   documents_count := S (documents_count acc) |})
        end
    else (self, Ok acc).

(** [_load_documents_from_directory] *)
Definition _load_documents_from_directory (data_dir : Directory)
    : Py.M t (list Document) :=
  if negb (exists_ data_dir)
  then Py.raise (Py.ValueError "Directory does not exist")
  else
    match iterdir data_dir with
    | [] => Py.raise (Py.ValueError "No files found in directory")
    | _ =>
        (let* acc := Py.for_each (glob data_dir) load_file
                       {| documents := []; processed_files := ∅;
                          documents_count := 0 |} in
         match documents acc with
         | [] => Py.raise (Py.ValueError "No valid documents loaded")
         | _ => fun self =>
             (set_stats (set_documents_processed
                           (Z.of_nat (documents_count acc)) (_stats self)) self,
              Ok (documents acc))
         end)%py
    end.

(** The dict comprehension
    [{chunks[i].id: embedding for i, embedding in enumerate(embeddings)}]. *)
Fixpoint doc_embeddings_from (chunks : list Document) (embeddings : list vec)
    (acc : gmap string vec) : Py.result (gmap string vec) :=
  match embeddings, chunks with
  | [], _ => Ok acc
  | embedding :: embeddings', chunk :: chunks' =>
      doc_embeddings_from chunks' embeddings' (<[id chunk := embedding]> acc)
  | _ :: _, [] => Raise Py.IndexError
  end.

(** [_generate_embeddings] *)
Definition _generate_embeddings (chunks : list Document)
    : Py.M t (gmap string vec) := fun self =>
  let texts := map text chunks in
  match embed_async_many texts (embedder self) with
  | (emb', Raise e) => (set_embedder emb' self, Raise e)
  | (emb', Ok embeddings) =>
      let self' := set_embedder emb' self in
      match doc_embeddings_from chunks embeddings ∅ with
      | Raise e => (self', Raise e)
      | Ok doc_embeddings =>
          (set_stats (add_embeddings_generated (Z.of_nat (length embeddings))
                        (_stats self')) self',
           Ok doc_embeddings)
      end
  end.

(** The points [_store_chunks_with_embeddings] prepares: a chunk without an
    embedding is skipped. *)
Fixpoint prepare_points (chunks : list Document) (embeddings : gmap string vec)
    : list Rest.PointStruct :=
  match chunks with
  | [] => []
  | chunk :: chunks' =>
      match embeddings !! id chunk with
      | None => prepare_points chunks' embeddings
      | Some v =>
          {| Rest.id := id chunk;
             Rest.vector := v;
             Rest.payload :=
               Py.dict_display (("text", Py.VStr (text chunk)) :: metadata chunk) |}
            :: prepare_points chunks' embeddings
      end
  end.

(** [_store_chunks_with_embeddings], for a vector store that has a [_client]
    (every store [get_vector_store] returns has one). *)
Definition _store_chunks_with_embeddings (chunks : list Document)
    (embeddings : gmap string vec) : Py.M t unit := fun self =>
  let points := prepare_points chunks embeddings in
  match QdrantClient.upsert (collection_name self) points (client self) with
  | (c', r) => (set_client c' self, r)
  end.

(** [ingest_documents], on an initialised ingestor. *)
Definition ingest_documents (data_dir : Directory) : Py.M t stats :=
  fun self =>
    let current_docs_count := documents_processed (_stats self) in
    (let* documents := _load_documents_from_directory data_dir in
     let* _ := (fun self =>
                  if (0 <? length documents)%nat
                     && (documents_processed (_stats self) =? 0)%Z
                  then (set_stats (set_documents_processed current_docs_count
                                     (_stats self)) self, Ok tt)
                  else (self, Ok tt)) in
     let* chunks := Py.lift (split documents) in
     let* _ := (fun self =>
                  (set_stats (add_chunks (Z.of_nat (length chunks))
                                (_stats self)) self, Ok tt)) in
     let* embeddings := _generate_embeddings chunks in
     do _store_chunks_with_embeddings chunks embeddings then
     fun self => (self, Ok (_stats self)))%py self.

End Ingestor.

Arguments collection_name {Emb} self : rename.
Arguments _stats {Emb} self : rename.
Arguments embedder {Emb} self : rename.
Arguments client {Emb} self : rename.
Arguments set_stats {Emb} st self.
Arguments set_embedder {Emb} e self.
Arguments set_client {Emb} c self.
Arguments load_file {Emb} new_id file_path acc self.
Arguments _load_documents_from_directory {Emb} new_id data_dir self.
Arguments _generate_embeddings {Emb} embed_async_many chunks self.
Arguments _store_chunks_with_embeddings {Emb} chunks embeddings self.
Arguments ingest_documents {Emb} embed_async_many split new_id data_dir self.

End DocumentIngestor.

(* ===================================================================== *)
(** * The [/embed] endpoint of [src/api/app.py] *)
(* ===================================================================== *)

Module App.

(** [EmbedRequest.id], an [int] or a [str]. *)
Inductive identifier :=
| IntId (n : Z)
| StrId (s : string).

(** [str(doc_id)] *)
Definition str_of_identifier (i : identifier) : string :=
  match i with
  | IntId n => pretty n
  | StrId s => s
  end.

(** What the endpoint answers: the body of a success, or the
    [HTTPException] every failure is turned into. *)
Inductive response :=
| Success (id : identifier) (chunks_created embeddings_generated : nat)
| HTTPException (status_code : Z) (detail : Py.exn).

Section Endpoint.

Variable Emb : Type.
Variable embed_async_many : list string -> Py.M Emb (list DocumentIngestor.vec).
Variable split :
  list DocumentIngestor.Document -> Py.result (list DocumentIngestor.Document).

(** [embed_document], on the initialised ingestor that [get_ingestor]
    returns; [uuid4] is [str(uuid.uuid4())] and [timestamp] is
    [time.time()]. *)
Definition embed_document (request_id : option identifier) (content : string)
    (request_metadata : option Py.dict) (uuid4 : string) (timestamp : float)
    (ingestor : DocumentIngestor.t Emb) : DocumentIngestor.t Emb * response :=
  let doc_id :=
    match request_id with
    | Some (IntId n) => if (n =? 0)%Z then StrId uuid4 else IntId n
    | Some (StrId s) => if String.eqb s "" then StrId uuid4 else StrId s
    | None => StrId uuid4
    end in
  let doc :=
    {| DocumentIngestor.id := str_of_identifier doc_id;
       DocumentIngestor.text := content;
       DocumentIngestor.metadata :=
         match request_metadata with
         | Some (kv :: kvs) => kv :: kvs
         | _ =>
             Py.dict_display
               [("source", Py.VStr "api_upload");
                ("timestamp", Py.VFloat timestamp)]
         end |} in
  match split [doc] with
  | Raise e => (ingestor, HTTPException 500 e)
  | Ok chunks =>
      match DocumentIngestor._generate_embeddings embed_async_many chunks
              ingestor with
      | (ingestor1, Raise e) => (ingestor1, HTTPException 500 e)
      | (ingestor1, Ok doc_embeddings) =>
          match DocumentIngestor._store_chunks_with_embeddings chunks
                  doc_embeddings ingestor1 with
          | (ingestor2, Raise e) => (ingestor2, HTTPException 500 e)
          | (ingestor2, Ok _) =>
              (ingestor2, Success doc_id (length chunks) (size doc_embeddings))
          end
      end
  end.

End Endpoint.

Arguments embed_document {Emb} embed_async_many split request_id content
  request_metadata uuid4 timestamp ingestor.

End App.

(* ===================================================================== *)
(** * Properties of [QdrantStore] *)
(* ===================================================================== *)

Section QdrantStoreFacts.

Import QdrantClient QdrantStore.

Implicit Types (self : QdrantStore.t) (c : QdrantClient.t).

Lemma get_collections_reachable c :
  fault c = None ->
  get_collections c = (c, Ok (map fst (map_to_list (collections c)))).
Proof. intros H. unfold get_collections. now rewrite H. Qed.

Lemma get_collections_fault c e :
  fault c = Some e -> get_collections c = (c, Raise e).
Proof. intros H. unfold get_collections. now rewrite H. Qed.

Lemma collection_listed c (n : string) :
  n ∈ map fst (map_to_list (collections c)) <-> is_Some (collections c !! n).
Proof.
  rewrite list_elem_of_In, in_map_iff. split.
  - intros [[k col] [Hk Hin]]. simpl in Hk. subst k.
    apply list_elem_of_In, elem_of_map_to_list in Hin. eauto.
  - intros [col Hcol]. exists (n, col). split; [reflexivity|].
    now apply list_elem_of_In, elem_of_map_to_list.
Qed.

Lemma bootstrap_existing self c :
  fault c = None ->
  is_Some (collections c !! collection_name self) ->
  _bootstrap_collection self c = (c, Ok tt).
Proof.
  intros Hf Hsome. unfold _bootstrap_collection, Py.bind.
  rewrite (get_collections_reachable _ Hf).
  rewrite bool_decide_eq_true_2 by now apply collection_listed.
  reflexivity.
Qed.

Lemma bootstrap_absent self c d :
  fault c = None ->
  collections c !! collection_name self = None ->
  Rest.Distance_getitem (Py.upper (distance self)) = Ok d ->
  _bootstrap_collection self c =
    ({| fault := None;
        collections :=
          <[collection_name self :=
              {| config := {| Rest.size := vector_size self; Rest.distance := d |};
                 points := ∅ |}]> (collections c) |}, Ok tt).
Proof.
  intros Hf Hnone Hd. unfold _bootstrap_collection, Py.bind.
  rewrite (get_collections_reachable _ Hf).
  rewrite bool_decide_eq_false_2.
  2:{ rewrite collection_listed, Hnone. intros [? ?]; discriminate. }
  unfold Py.lift. rewrite Hd. unfold create_collection.
  now rewrite Hf, Hnone.
Qed.

Lemma bootstrap_ok_inv self c c' :
  _bootstrap_collection self c = (c', Ok tt) ->
  fault c' = None /\ is_Some (collections c' !! collection_name self).
Proof.
  unfold _bootstrap_collection, Py.bind, get_collections.
  destruct (fault c) as [e|] eqn:Hf; [discriminate|].
  case_bool_decide as Hin.
  - intros [= <-]. split; [assumption|]. now apply collection_listed.
  - unfold Py.lift.
    destruct (Rest.Distance_getitem _) as [d|e]; [|discriminate].
    unfold create_collection. rewrite Hf.
    destruct (collections c !! collection_name self); [discriminate|].
    intros [= <-]. simpl. split; [reflexivity|].
    rewrite lookup_insert_eq. eauto.
Qed.

(** A store configured for 1024-dimensional vectors, and a reachable index
    that already holds its collection with 512-dimensional vectors. *)
Definition store_1024 : QdrantStore.t :=
  {| collection_name := "Sentio_docs"; vector_size := 1024;
     distance := "Cosine"; content_payload_key := "content";
     metadata_payload_key := "metadata" |}.

Definition collection_512 : Collection :=
  {| config := {| Rest.size := 512; Rest.distance := Rest.COSINE |};
     points := ∅ |}.

Definition index_512 : QdrantClient.t :=
  {| fault := None; collections := {["Sentio_docs" := collection_512]} |}.

Definition empty_index : QdrantClient.t :=
  {| fault := None; collections := ∅ |}.

(** C1, as stated, fails: the collection exists with dimension 512, the store
    is configured for dimension 1024, and [_bootstrap_collection] returns
    normally without raising anything. *)
Lemma C1_dimension_mismatch_not_raised :
  collections index_512 !! collection_name store_1024 = Some collection_512
  /\ Rest.size (config collection_512) <> vector_size store_1024
  /\ _bootstrap_collection store_1024 index_512 = (index_512, Ok tt).
Proof.
  split; [|split].
  - unfold index_512. simpl. apply lookup_singleton_eq.
  - simpl. lia.
  - apply bootstrap_existing; [reflexivity|].
    unfold index_512. simpl. rewrite lookup_singleton_eq. eauto.
Qed.

(** C1, amended: on a reachable index, if the collection already exists,
    [_bootstrap_collection] returns without comparing dimensions and without
    writing anything; if it is absent, the collection is created, empty, with
    the configured vector size and distance; and a bootstrap that succeeded
    is a no-op when repeated. *)
Theorem C1_bootstrap_create_if_absent self c :
  fault c = None ->
  (forall col, collections c !! collection_name self = Some col ->
     _bootstrap_collection self c = (c, Ok tt))
  /\ (forall d, collections c !! collection_name self = None ->
       Rest.Distance_getitem (Py.upper (distance self)) = Ok d ->
       _bootstrap_collection self c =
         ({| fault := None;
             collections :=
               <[collection_name self :=
                   {| config := {| Rest.size := vector_size self;
                                   Rest.distance := d |};
                      points := ∅ |}]> (collections c) |}, Ok tt))
  /\ (forall c', _bootstrap_collection self c = (c', Ok tt) ->
       _bootstrap_collection self c' = (c', Ok tt)).
Proof.
  intros Hf. split; [|split].
  - intros col Hcol. apply bootstrap_existing; eauto.
  - intros d Hnone Hd. now apply bootstrap_absent.
  - intros c' Hok. apply bootstrap_ok_inv in Hok as [Hf' Hsome].
    now apply bootstrap_existing.
Qed.

Definition created_index : QdrantClient.t :=
  {| fault := None;
     collections :=
       <["Sentio_docs" :=
           {| config := {| Rest.size := 1024; Rest.distance := Rest.COSINE |};
              points := ∅ |}]> ∅ |}.

Lemma C1_bootstrap_create_if_absent_witness :
  fault empty_index = None
  /\ _bootstrap_collection store_1024 empty_index = (created_index, Ok tt)
  /\ _bootstrap_collection store_1024 created_index = (created_index, Ok tt).
Proof.
  destruct (C1_bootstrap_create_if_absent store_1024 empty_index eq_refl)
    as (_ & Hcreate & Hagain).
  assert (Hc : _bootstrap_collection store_1024 empty_index = (created_index, Ok tt)).
  { apply (Hcreate Rest.COSINE); [apply lookup_empty | reflexivity]. }
  split; [reflexivity|]. split; [exact Hc|]. exact (Hagain _ Hc).
Defined.

(** C9: [health_check] never raises and leaves the index as it was; it
    returns [True] exactly when the probe [get_collections] succeeds and
    [False] when the probe raises. *)
Theorem C9_health_check_captures_failure self c :
  health_check self c = (c, Ok (Py.is_ok (snd (get_collections c)))).
Proof.
  unfold health_check, get_collections.
  destruct (fault c); reflexivity.
Qed.

(** The conjuncts of a translated filter. *)
Definition clauses (q : Rest.query_filter) : list Rest.FieldCondition :=
  match q with
  | Rest.Condition cond => [cond]
  | Rest.Filter must => must
  end.

Definition equality_on (self : QdrantStore.t) (kv : string * Py.value)
    : Rest.FieldCondition :=
  {| Rest.key := metadata_payload_key self ++ "." ++ fst kv;
     Rest.match_ := Rest.MatchValue (snd kv) |}.

(** A range filter and an OR filter in the usual dict notation. *)
Definition range_filter : Py.dict :=
  [("price", Py.VDict [("$gte", Py.VInt 10)])].

Definition or_filter : Py.dict :=
  [("$or", Py.VList [Py.VDict [("lang", Py.VStr "en")];
                     Py.VDict [("lang", Py.VStr "de")]])].

Lemma filter_clauses_scalars self (filter_dict : Py.dict) :
  forallb (fun kv => Rest.match_value_ok (snd kv)) filter_dict = true ->
  filter_clauses self filter_dict = Ok (map (equality_on self) filter_dict).
Proof.
  induction filter_dict as [|[k v] rest IH]; cbn [forallb filter_clauses map];
    [reflexivity|].
  intros Hall. apply andb_prop in Hall as [Hv Hrest]. cbn [snd] in Hv.
  unfold Rest.MatchValue_init. rewrite Hv, (IH Hrest). reflexivity.
Qed.

Lemma filter_clauses_rejects self (filter_dict : Py.dict) :
  forallb (fun kv => Rest.match_value_ok (snd kv)) filter_dict = false ->
  filter_clauses self filter_dict = Raise (Py.ValidationError "MatchValue.value").
Proof.
  induction filter_dict as [|[k v] rest IH]; cbn [forallb filter_clauses];
    [discriminate|].
  cbn [snd]. unfold Rest.MatchValue_init.
  destruct (Rest.match_value_ok v); cbn [andb]; [|reflexivity].
  intros Hrest. now rewrite (IH Hrest).
Qed.

(** The range filter and the OR filter are rejected by [rest.MatchValue]. *)
Lemma range_and_or_filters_rejected :
  _convert_filter store_1024 range_filter
  = Raise (Py.ValidationError "MatchValue.value")
  /\ _convert_filter store_1024 or_filter
     = Raise (Py.ValidationError "MatchValue.value").
Proof. split; reflexivity. Qed.


(** The points ids that a list of [str] ids spells, in order. *)
Fixpoint keys (ids : list string) : list string :=
  match ids with
  | [] => []
  | id :: ids' =>
      match point_key id with
      | Some k => k :: keys ids'
      | None => keys ids'
      end
  end.

Lemma upsert_points_cons (p : Rest.PointStruct) (ps : list Rest.PointStruct)
    (m : gmap string Rest.PointStruct) :
  upsert_points (p :: ps) m
  = upsert_points ps
      match point_key (Rest.id p) with
      | Some k => <[k := p]> m
      | None => m
      end.
Proof. reflexivity. Qed.

Lemma upsert_points_lookup_other (ps : list Rest.PointStruct)
    (m : gmap string Rest.PointStruct) (k : string) :
  k ∉ keys (map Rest.id ps) -> upsert_points ps m !! k = m !! k.
Proof.
  revert m. induction ps as [|p ps IH]; intros m Hk; [reflexivity|].
  rewrite upsert_points_cons. cbn [map keys] in Hk.
  destruct (point_key (Rest.id p)) as [kp|]; [|now apply IH].
  apply not_elem_of_cons in Hk as [Hne Hk].
  rewrite IH by assumption. now rewrite lookup_insert_ne.
Qed.

Lemma upsert_points_lookup_nodup (ps : list Rest.PointStruct)
    (m : gmap string Rest.PointStruct) (i : nat) (p : Rest.PointStruct)
    (k : string) :
  NoDup (keys (map Rest.id ps)) -> ps !! i = Some p ->
  point_key (Rest.id p) = Some k ->
  upsert_points ps m !! k = Some p.
Proof.
  revert m i. induction ps as [|q ps IH]; intros m i Hnd Hi Hk; [discriminate|].
  rewrite upsert_points_cons. cbn [map keys] in Hnd.
  destruct i as [|i]; simpl in Hi.
  - injection Hi as ->. rewrite Hk in Hnd |- *.
    apply NoDup_cons in Hnd as [Hq Hnd].
    rewrite upsert_points_lookup_other by assumption.
    apply lookup_insert_eq.
  - apply (IH _ i); [|assumption|assumption].
    destruct (point_key (Rest.id q)); [|assumption].
    now apply NoDup_cons in Hnd as [_ Hnd].
Qed.

Lemma keys_valid (ids : list string) :
  (forall id, id ∈ ids -> is_Some (point_key id)) ->
  Forall2 (fun id k => point_key id = Some k) ids (keys ids).
Proof.
  induction ids as [|id ids IH]; intros Hvalid; cbn [keys]; [constructor|].
  destruct (Hvalid id) as [k Hk]; [left|]. rewrite Hk.
  constructor; [exact Hk|]. apply IH. intros id' Hin. apply Hvalid. now right.
Qed.

Lemma keys_sublist (ids ids' : list string) :
  ids `sublist_of` ids' -> keys ids `sublist_of` keys ids'.
Proof.
  induction 1 as [|id l1 l2 _ IH|id l1 l2 _ IH]; cbn [keys].
  - constructor.
  - destruct (point_key id); [now constructor|exact IH].
  - destruct (point_key id); [now constructor|exact IH].
Qed.

Lemma keys_elem (ids : list string) (id k : string) :
  id ∈ ids -> point_key id = Some k -> k ∈ keys ids.
Proof.
  induction ids as [|id0 ids IH]; intros Hin Hk; [inversion Hin|].
  cbn [keys]. apply elem_of_cons in Hin as [<-|Hin].
  - rewrite Hk. left.
  - destruct (point_key id0); [right|]; now apply IH.
Qed.

Lemma make_points_ids self ids (k : nat) (texts : list string)
    (embeddings : list (list float)) (metadatas : list Py.dict) :
  length texts = length embeddings -> length metadatas = length texts ->
  map Rest.id (make_points self ids k texts embeddings metadatas) =
  map (point_id ids) (seq k (length texts)).
Proof.
  revert k embeddings metadatas.
  induction texts as [|t texts IH]; intros k [|e es] [|m ms] He Hm;
    simpl in *; try discriminate; [reflexivity|].
  f_equal. apply IH; lia.
Qed.

Lemma make_points_lookup self ids (k i : nat) (texts : list string)
    (embeddings : list (list float)) (metadatas : list Py.dict) t e m :
  texts !! i = Some t -> embeddings !! i = Some e -> metadatas !! i = Some m ->
  make_points self ids k texts embeddings metadatas !! i =
  Some (make_point self ids (k + i) t e m).
Proof.
  revert k i embeddings metadatas.
  induction texts as [|t0 texts IH]; intros k i [|e0 es] [|m0 ms] Ht He Hm;
    try discriminate.
  destruct i as [|i]; simpl in *.
  - injection Ht as ->. injection He as ->. injection Hm as ->.
    now rewrite Nat.add_0_r.
  - rewrite (IH (S k) i es ms) by assumption. f_equal. f_equal. lia.
Qed.

Lemma default_ids_nodup (n : nat) :
  NoDup (map (point_id None) (seq 0 n)).
Proof.
  assert (Hinj : Inj eq eq (point_id None)).
  { intros i j Hij. unfold point_id, Py.str_of_nat in Hij.
    now apply (inj pretty) in Hij. }
  apply (NoDup_fmap_2 (point_id None)), NoDup_seq.
Qed.

End QdrantStoreFacts.

(* ===================================================================== *)
(** * Properties of [DocumentIngestor] *)
(* ===================================================================== *)

Section DocumentIngestorFacts.

Import DocumentIngestor.

Variable Emb : Type.
Variable embed_async_many : list string -> Py.M Emb (list vec).
Variable split : list Document -> Py.result (list Document).
Variable new_id : nat -> string.

Implicit Types (self : DocumentIngestor.t Emb) (st : stats).

(** The three counters that only grow. *)
Definition counters_le st st' : Prop :=
  (chunks_created st <= chunks_created st')%Z
  /\ (embeddings_generated st <= embeddings_generated st')%Z
  /\ (bytes_processed st <= bytes_processed st')%Z.

Lemma counters_le_refl st : counters_le st st.
Proof. unfold counters_le. lia. Qed.

Lemma counters_le_trans st1 st2 st3 :
  counters_le st1 st2 -> counters_le st2 st3 -> counters_le st1 st3.
Proof. unfold counters_le. lia. Qed.

(** What the loader may change: only [bytes_processed], upwards. *)
Definition only_bytes_grow self self' : Prop :=
  collection_name self' = collection_name self
  /\ embedder self' = embedder self
  /\ client self' = client self
  /\ documents_processed (_stats self') = documents_processed (_stats self)
  /\ chunks_created (_stats self') = chunks_created (_stats self)
  /\ embeddings_generated (_stats self') = embeddings_generated (_stats self)
  /\ (bytes_processed (_stats self) <= bytes_processed (_stats self'))%Z.

Lemma only_bytes_grow_refl self : only_bytes_grow self self.
Proof. unfold only_bytes_grow. repeat split; lia. Qed.

Lemma only_bytes_grow_trans self1 self2 self3 :
  only_bytes_grow self1 self2 -> only_bytes_grow self2 self3 ->
  only_bytes_grow self1 self3.
Proof.
  unfold only_bytes_grow.
  intros (-> & -> & -> & -> & -> & -> & ?) (-> & -> & -> & -> & -> & -> & ?).
  repeat split; lia.
Qed.

Lemma load_file_spec (file_path : Path) (acc : loaded) self :
  exists self' acc',
    load_file new_id file_path acc self = (self', Ok acc')
    /\ only_bytes_grow self self'
    /\ (documents_count acc = length (documents acc) ->
        documents_count acc' = length (documents acc')).
Proof.
  unfold load_file.
  destruct (is_file file_path && mem _ _).
  - case_bool_decide.
    + eexists _, _. split; [reflexivity|]. split; [apply only_bytes_grow_refl|auto].
    + destruct (_read_file_content file_path) as [content|e].
      * eexists _, _. split; [reflexivity|]. split.
        -- unfold only_bytes_grow. simpl. repeat split; lia.
        -- simpl. intros ->. rewrite length_app. simpl. lia.
      * eexists _, _. split; [reflexivity|]. split; [apply only_bytes_grow_refl|auto].
  - eexists _, _. split; [reflexivity|]. split; [apply only_bytes_grow_refl|auto].
Qed.

Lemma load_loop_spec (files : list Path) (acc : loaded) self :
  exists self' acc',
    Py.for_each files (load_file new_id) acc self = (self', Ok acc')
    /\ only_bytes_grow self self'
    /\ (documents_count acc = length (documents acc) ->
        documents_count acc' = length (documents acc')).
Proof.
  revert acc self. induction files as [|f files IH]; intros acc self; simpl.
  - exists self, acc. split; [reflexivity|]. split; [apply only_bytes_grow_refl|auto].
  - destruct (load_file_spec f acc self) as (self1 & acc1 & H1 & Hg1 & Hc1).
    destruct (IH acc1 self1) as (self2 & acc2 & H2 & Hg2 & Hc2).
    exists self2, acc2. unfold Py.bind. rewrite H1. split; [exact H2|].
    split; [eapply only_bytes_grow_trans; eassumption|auto].
Qed.

(** The outcome of the loader: it raises, having at most added bytes, or it
    returns a non-empty list of documents and has set [documents_processed]
    to their number. *)
Lemma load_documents_spec (data_dir : Directory) self :
  exists self' r,
    _load_documents_from_directory new_id data_dir self = (self', r)
    /\ match r with
       | Raise _ => only_bytes_grow self self'
       | Ok docs =>
           docs <> []
           /\ collection_name self' = collection_name self
           /\ embedder self' = embedder self
           /\ client self' = client self
           /\ documents_processed (_stats self') = Z.of_nat (length docs)
           /\ chunks_created (_stats self') = chunks_created (_stats self)
           /\ embeddings_generated (_stats self') = embeddings_generated (_stats self)
           /\ (bytes_processed (_stats self) <= bytes_processed (_stats self'))%Z
       end.
Proof.
  unfold _load_documents_from_directory.
  destruct (exists_ data_dir); simpl.
  2:{ eexists _, _. split; [reflexivity|]. apply only_bytes_grow_refl. }
  destruct (iterdir data_dir) as [|entry entries].
  { eexists _, _. split; [reflexivity|]. apply only_bytes_grow_refl. }
  unfold Py.bind.
  destruct (load_loop_spec (glob data_dir)
              {| documents := []; processed_files := ∅; documents_count := 0 |} self)
    as (self1 & acc1 & H1 & Hg1 & Hc1).
  rewrite H1. specialize (Hc1 eq_refl).
  destruct (documents acc1) as [|d ds] eqn:Hdocs.
  - eexists _, _. split; [reflexivity|]. exact Hg1.
  - eexists _, _. split; [reflexivity|]. simpl.
    destruct Hg1 as (? & ? & ? & ? & ? & ? & ?).
    rewrite Hc1. simpl. repeat split; auto.
Qed.

Lemma load_documents_ok (data_dir : Directory) self self1 docs :
  _load_documents_from_directory new_id data_dir self = (self1, Ok docs) ->
  docs <> []
  /\ collection_name self1 = collection_name self
  /\ embedder self1 = embedder self
  /\ client self1 = client self
  /\ documents_processed (_stats self1) = Z.of_nat (length docs)
  /\ chunks_created (_stats self1) = chunks_created (_stats self)
  /\ embeddings_generated (_stats self1) = embeddings_generated (_stats self)
  /\ (bytes_processed (_stats self) <= bytes_processed (_stats self1))%Z.
Proof.
  intros H. destruct (load_documents_spec data_dir self) as (s & r & Heq & Hr).
  rewrite H in Heq. injection Heq as <- <-. exact Hr.
Qed.

Lemma load_documents_raise (data_dir : Directory) self self1 e :
  _load_documents_from_directory new_id data_dir self = (self1, Raise e) ->
  only_bytes_grow self self1.
Proof.
  intros H. destruct (load_documents_spec data_dir self) as (s & r & Heq & Hr).
  rewrite H in Heq. injection Heq as <- <-. exact Hr.
Qed.

(** The stages of [ingest_documents] that follow a successful load. *)
Definition after_load (docs : list Document) : Py.M (t Emb) stats := fun self1 =>
  match split docs with
  | Raise e => (self1, Raise e)
  | Ok chunks =>
      let self2 :=
        set_stats (add_chunks (Z.of_nat (length chunks)) (_stats self1)) self1 in
      match _generate_embeddings embed_async_many chunks self2 with
      | (self3, Raise e) => (self3, Raise e)
      | (self3, Ok embeddings) =>
          match _store_chunks_with_embeddings chunks embeddings self3 with
          | (self4, Raise e) => (self4, Raise e)
          | (self4, Ok _) => (self4, Ok (_stats self4))
          end
      end
  end.

Lemma ingest_documents_loaded (data_dir : Directory) self self1 docs :
  _load_documents_from_directory new_id data_dir self = (self1, Ok docs) ->
  ingest_documents embed_async_many split new_id data_dir self
  = after_load docs self1.
Proof.
  intros Hload.
  destruct (load_documents_ok _ _ _ _ Hload) as (Hne & _ & _ & _ & Hdp & _).
  unfold ingest_documents, after_load, Py.bind. rewrite Hload.
  assert (Hz : (documents_processed (_stats self1) =? 0)%Z = false).
  { apply Z.eqb_neq. rewrite Hdp. destruct docs; [congruence|simpl; lia]. }
  rewrite Hz, andb_false_r. unfold Py.lift.
  destruct (split docs) as [chunks|e]; [|reflexivity].
  cbv zeta.
  destruct (_generate_embeddings _ _ _) as [self3 [embeddings|e]]; [|reflexivity].
  destruct (_store_chunks_with_embeddings _ _ _) as [self4 [[]|e]]; reflexivity.
Qed.

Lemma ingest_documents_not_loaded (data_dir : Directory) self self1 e :
  _load_documents_from_directory new_id data_dir self = (self1, Raise e) ->
  ingest_documents embed_async_many split new_id data_dir self = (self1, Raise e).
Proof.
  intros Hload. unfold ingest_documents, Py.bind. rewrite Hload. reflexivity.
Qed.

(** [_generate_embeddings] touches the embedder and [embeddings_generated]
    only, and the counter only when the embedder returned. *)
Lemma generate_embeddings_spec (chunks : list Document) self :
  exists self' r,
    _generate_embeddings embed_async_many chunks self = (self', r)
    /\ collection_name self' = collection_name self
    /\ client self' = client self
    /\ documents_processed (_stats self') = documents_processed (_stats self)
    /\ chunks_created (_stats self') = chunks_created (_stats self)
    /\ bytes_processed (_stats self') = bytes_processed (_stats self)
    /\ (embeddings_generated (_stats self) <= embeddings_generated (_stats self'))%Z.
Proof.
  unfold _generate_embeddings.
  destruct (embed_async_many _ _) as [emb' [embeddings|e]].
  - cbv zeta. destruct (doc_embeddings_from _ _ _).
    + eexists _, _. split; [reflexivity|]. simpl. repeat split; lia.
    + eexists _, _. split; [reflexivity|]. simpl. repeat split; lia.
  - eexists _, _. split; [reflexivity|]. simpl. repeat split; lia.
Qed.

Lemma store_chunks_spec (chunks : list Document) (embeddings : gmap string vec) self :
  exists c' r,
    _store_chunks_with_embeddings chunks embeddings self = (set_client c' self, r).
Proof.
  unfold _store_chunks_with_embeddings.
  destruct (QdrantClient.upsert _ _ _) as [c' r]. eauto.
Qed.

Lemma after_load_stats (docs : list Document) self1 :
  counters_le (_stats self1) (_stats (after_load docs self1).1)
  /\ documents_processed (_stats (after_load docs self1).1)
     = documents_processed (_stats self1).
Proof.
  unfold after_load.
  destruct (split docs) as [chunks|e]; [|split; [apply counters_le_refl|reflexivity]].
  cbv zeta.
  destruct (generate_embeddings_spec chunks
              (set_stats (add_chunks (Z.of_nat (length chunks)) (_stats self1)) self1))
    as (self3 & r & -> & _ & _ & Hd & Hc & Hb & He).
  simpl in Hd, Hc, Hb, He.
  destruct r as [embeddings|e].
  - destruct (store_chunks_spec chunks embeddings self3) as (c' & r & ->).
    destruct r as [[]|e]; simpl; unfold counters_le; (split; [lia|assumption]).
  - simpl. unfold counters_le. split; [lia|assumption].
Qed.

(** A sequence of ingest calls on one ingestor, whatever each call's outcome. *)
Fixpoint ingest_all (dirs : list Directory) self : t Emb :=
  match dirs with
  | [] => self
  | data_dir :: dirs' =>
      ingest_all dirs'
        (ingest_documents embed_async_many split new_id data_dir self).1
  end.

Lemma ingest_documents_stats (data_dir : Directory) self :
  counters_le (_stats self)
    (_stats (ingest_documents embed_async_many split new_id data_dir self).1)
  /\ documents_processed
       (_stats (ingest_documents embed_async_many split new_id data_dir self).1)
     = match (_load_documents_from_directory new_id data_dir self).2 with
       | Ok docs => Z.of_nat (length docs)
       | Raise _ => documents_processed (_stats self)
       end.
Proof.
  destruct (_load_documents_from_directory new_id data_dir self)
    as [self1 [docs|e]] eqn:Hload.
  - rewrite (ingest_documents_loaded _ _ _ _ Hload).
    destruct (load_documents_ok _ _ _ _ Hload) as (_ & _ & _ & _ & Hd & Hc & He & Hb).
    destruct (after_load_stats docs self1) as (Hle & Hdp).
    split.
    + eapply counters_le_trans; [|exact Hle]. unfold counters_le. lia.
    + simpl. congruence.
  - rewrite (ingest_documents_not_loaded _ _ _ _ Hload). simpl.
    destruct (load_documents_raise _ _ _ _ Hload) as (_ & _ & _ & Hd & Hc & He & Hb).
    split; [unfold counters_le; lia|exact Hd].
Qed.

(** C3, amended: [chunks_created], [embeddings_generated] and
    [bytes_processed] never decrease over any sequence of [ingest_documents]
    calls on one ingestor, whatever the outcome of each call;
    [documents_processed] is not cumulative: a call whose load succeeds leaves
    it equal to the number of documents that call loaded, and a call whose
    load fails leaves it as it was. *)
Theorem C3_counters_non_decreasing (dirs : list Directory) self :
  counters_le (_stats self) (_stats (ingest_all dirs self))
  /\ forall data_dir : Directory,
       documents_processed
         (_stats (ingest_documents embed_async_many split new_id data_dir self).1)
       = match (_load_documents_from_directory new_id data_dir self).2 with
         | Ok docs => Z.of_nat (length docs)
         | Raise _ => documents_processed (_stats self)
         end.
Proof.
  split; [|intros data_dir; apply ingest_documents_stats].
  revert self. induction dirs as [|data_dir dirs IH]; intros self; simpl.
  - apply counters_le_refl.
  - eapply counters_le_trans; [|apply IH]. apply ingest_documents_stats.
Qed.


End DocumentIngestorFacts.

(* ===================================================================== *)
(** * [DocumentIngestor] on concrete directories *)
(* ===================================================================== *)

Section DocumentIngestorExamples.

Import DocumentIngestor.

(** An embedder whose every call fails, and one that answers one
    one-dimensional vector per text. Neither keeps state. *)
Definition failing_embedder (texts : list string) : Py.M unit (list vec) :=
  Py.raise (Py.EmbeddingError "Jina embedding failed" None).

Definition constant_embedder (texts : list string) : Py.M unit (list vec) :=
  Py.ret (map (fun _ => [0.5%float]) texts).

(** A chunker that keeps every document whole. *)
Definition whole_documents (documents : list Document)
    : Py.result (list Document) := Ok documents.

Definition text_file (n : string) (size : N) : Path :=
  {| str := "data/" ++ n; name := n; suffix := ".txt"; is_file := true;
     st_size := size; read_text := Ok "hello";
     pdf_pages := Raise (Py.OSError "not a PDF");
     docx_paragraphs := Raise (Py.OSError "not a DOCX") |}.

Definition directory_of (files : list Path) : Directory :=
  {| exists_ := true; iterdir := files; glob := files |}.

Definition one_file : Directory := directory_of [text_file "a.txt" 5].

Definition three_files : Directory :=
  directory_of [text_file "a.txt" 5; text_file "b.txt" 7; text_file "c.txt" 9].

Definition docs_index : QdrantClient.t :=
  {| QdrantClient.fault := None;
     QdrantClient.collections :=
       {[ "docs" := {| QdrantClient.config :=
                         {| Rest.size := 1; Rest.distance := Rest.COSINE |};
                       QdrantClient.points := ∅ |} ]} |}.

Definition fresh_ingestor : DocumentIngestor.t unit :=
  {| collection_name := "docs";
     _stats := {| documents_processed := 0; chunks_created := 0;
                  embeddings_generated := 0; bytes_processed := 0 |};
     embedder := tt;
     client := docs_index |}.

Definition failed_call : DocumentIngestor.t unit * Py.result stats :=
  ingest_documents failing_embedder whole_documents Py.str_of_nat one_file
    fresh_ingestor.

(** Ids as a [Document] model would draw them, here one UUID per number
    below ten. *)
Definition uuid_of_nat (k : nat) : string :=
  "00000000-0000-4000-8000-00000000000" ++ Py.str_of_nat k.

Definition first_call : DocumentIngestor.t unit * Py.result stats :=
  ingest_documents constant_embedder whole_documents uuid_of_nat three_files
    fresh_ingestor.

Definition second_call : DocumentIngestor.t unit * Py.result stats :=
  ingest_documents constant_embedder whole_documents uuid_of_nat one_file
    first_call.1.



(** C3, as stated, fails for [documents_processed]: a successful call that
    loads three documents leaves it at 3, and a following successful call on
    the same ingestor that loads one document resets it to 1. *)
Lemma C3_documents_processed_reset :
  Py.is_ok first_call.2 = true
  /\ documents_processed (_stats first_call.1) = 3%Z
  /\ Py.is_ok second_call.2 = true
  /\ documents_processed (_stats second_call.1) = 1%Z.
Proof. vm_compute. repeat split; reflexivity. Qed.

End DocumentIngestorExamples.

(* ===================================================================== *)
(** * The loader of [DocumentIngestor] *)
(* ===================================================================== *)

Section DocumentIngestorLoading.

Import DocumentIngestor.

Variable Emb : Type.
Variable new_id : nat -> string.

Implicit Types (self : DocumentIngestor.t Emb) (file_path : Path).

(** A path the loop of [_load_documents_from_directory] turns into a
    document: a file with a supported extension that can be read. *)
Definition loadable file_path : bool :=
  is_file file_path
  && mem (Py.lower (suffix file_path))
       [".txt"; ".md"; ".pdf"; ".docx"; ".html"; ".json"; ".yaml"; ".yml"]
  && Py.is_ok (_read_file_content file_path).

(** The document the loop builds for a loadable path, as the [k]-th document
    of the call. *)
Definition document_of (k : nat) file_path : Document :=
  {| id := new_id k;
     text := match _read_file_content file_path with
             | Ok content => content
             | Raise _ => ""
             end;
     metadata :=
       Py.dict_display
         [("source", Py.VStr (str file_path));
          ("filename", Py.VStr (name file_path));
          ("extension", Py.VStr (Py.lower (suffix file_path)));
          ("size_bytes", Py.VInt (Z.of_N (st_size file_path)))] |}.

Fixpoint documents_from (k : nat) (files : list Path) : list Document :=
  match files with
  | [] => []
  | file_path :: files' =>
      if loadable file_path
      then document_of k file_path :: documents_from (S k) files'
      else documents_from k files'
  end.

Fixpoint total_size (files : list Path) : Z :=
  match files with
  | [] => 0
  | file_path :: files' =>
      if loadable file_path
      then Z.of_N (st_size file_path) + total_size files'
      else total_size files'
  end.

(** The ingestor [self'] is [self] with [n] more bytes processed. *)
Definition loaded_bytes self self' (n : Z) : Prop :=
  collection_name self' = collection_name self
  /\ embedder self' = embedder self
  /\ client self' = client self
  /\ documents_processed (_stats self') = documents_processed (_stats self)
  /\ chunks_created (_stats self') = chunks_created (_stats self)
  /\ embeddings_generated (_stats self') = embeddings_generated (_stats self)
  /\ bytes_processed (_stats self') = (bytes_processed (_stats self) + n)%Z.

Lemma documents_from_nil (k k' : nat) (files : list Path) :
  documents_from k files = [] -> documents_from k' files = [].
Proof.
  revert k k'. induction files as [|f files IH]; intros k k'; simpl; [auto|].
  destruct (loadable f); [discriminate|apply IH].
Qed.

Lemma load_file_run file_path (acc : loaded) self :
  str file_path ∉ processed_files acc ->
  load_file new_id file_path acc self =
    if loadable file_path
    then (set_stats (add_bytes (Z.of_N (st_size file_path)) (_stats self)) self,
          Ok {| documents :=
                  (documents acc
                     ++ [document_of (length (documents acc)) file_path])%list;
                processed_files := {[str file_path]} ∪ processed_files acc;
                documents_count := S (documents_count acc) |})
    else (self, Ok acc).
Proof.
  intros Hnew. unfold load_file, loadable, document_of.
  destruct (is_file file_path && mem _ _); simpl; [|reflexivity].
  rewrite bool_decide_eq_false_2 by assumption.
  destruct (_read_file_content file_path); reflexivity.
Qed.

Lemma load_loop_run (files : list Path) (acc : loaded) self :
  NoDup (map str files) ->
  (forall f, f ∈ files -> str f ∉ processed_files acc) ->
  documents_count acc = length (documents acc) ->
  exists self' acc',
    Py.for_each files (load_file new_id) acc self = (self', Ok acc')
    /\ documents acc'
       = (documents acc ++ documents_from (length (documents acc)) files)%list
    /\ documents_count acc' = length (documents acc')
    /\ loaded_bytes self self' (total_size files).
Proof.
  revert acc self. induction files as [|f files IH]; intros acc self Hnd Hnew Hcount.
  - exists self, acc. simpl. rewrite app_nil_r.
    split; [reflexivity|]. split; [reflexivity|]. split; [assumption|].
    unfold loaded_bytes. repeat split; lia.
  - simpl in Hnd. apply NoDup_cons in Hnd as [Hf Hnd].
    cbn [Py.for_each]. unfold Py.bind.
    rewrite load_file_run by (apply Hnew; left).
    cbn [documents_from total_size].
    destruct (loadable f).
    + edestruct (IH {| documents :=
                         (documents acc ++ [document_of (length (documents acc)) f])%list;
                       processed_files := {[str f]} ∪ processed_files acc;
                       documents_count := S (documents_count acc) |}
                   (set_stats (add_bytes (Z.of_N (st_size f)) (_stats self)) self))
        as (self' & acc' & Hrun & Hdocs & Hc & Hb).
      * assumption.
      * intros g Hg. cbn [processed_files]. rewrite elem_of_union, elem_of_singleton.
        intros [Heq|Hin].
        -- apply Hf. rewrite <- Heq. apply list_elem_of_fmap_2. exact Hg.
        -- apply (Hnew g); [now right|assumption].
      * cbn [documents documents_count]. rewrite length_app. simpl. lia.
      * exists self', acc'. split; [exact Hrun|].
        cbn [documents] in Hdocs. rewrite length_app in Hdocs. simpl in Hdocs.
        rewrite Nat.add_1_r in Hdocs. rewrite <- app_assoc in Hdocs.
        split; [exact Hdocs|]. split; [exact Hc|].
        destruct Hb as (? & ? & ? & ? & ? & ? & Hbytes).
        simpl in *. unfold loaded_bytes. repeat split; try assumption. lia.
    + apply IH; [assumption| |assumption].
      intros g Hg. apply Hnew. now right.
Qed.

(** X1: When the directory exists, has an entry, and [glob] yields no path twice,
    the loader returns the documents of the loadable paths in the order of
    [glob], numbered from 0, skipping every other path; it adds the sizes of
    the loaded files to [bytes_processed] and sets [documents_processed] to
    their number; with no loadable path it raises [ValueError]. *)
Theorem load_documents_in_glob_order (data_dir : Directory) self :
  exists_ data_dir = true ->
  iterdir data_dir <> [] ->
  NoDup (map str (glob data_dir)) ->
  exists self',
    _load_documents_from_directory new_id data_dir self
    = (self',
       match documents_from 0 (glob data_dir) with
       | [] => Raise (Py.ValueError "No valid documents loaded")
       | _ => Ok (documents_from 0 (glob data_dir))
       end)
    /\ bytes_processed (_stats self')
       = (bytes_processed (_stats self) + total_size (glob data_dir))%Z
    /\ documents_processed (_stats self')
       = match documents_from 0 (glob data_dir) with
         | [] => documents_processed (_stats self)
         | _ => Z.of_nat (length (documents_from 0 (glob data_dir)))
         end
    /\ chunks_created (_stats self') = chunks_created (_stats self)
    /\ embeddings_generated (_stats self') = embeddings_generated (_stats self)
    /\ embedder self' = embedder self
    /\ client self' = client self.
Proof.
  intros Hex Hentries Hnd.
  unfold _load_documents_from_directory. rewrite Hex.
  change (negb true) with false. cbv iota.
  destruct (iterdir data_dir) as [|entry entries]; [congruence|].
  unfold Py.bind.
  destruct (load_loop_run (glob data_dir)
              {| documents := []; processed_files := ∅; documents_count := 0 |}
              self Hnd)
    as (self1 & acc1 & Hrun & Hdocs & Hcount & Hb).
  { intros f _. cbn [processed_files]. apply not_elem_of_empty. }
  { reflexivity. }
  rewrite Hrun. cbn [documents length app] in Hdocs.
  destruct Hb as (_ & Hemb & Hcl & Hdp & Hcc & Heg & Hbytes).
  rewrite <- Hdocs.
  destruct (documents acc1) as [|d ds] eqn:Hacc.
  - exists self1. unfold Py.raise. repeat split; assumption.
  - eexists. split; [reflexivity|]. rewrite Hcount. simpl.
    repeat split; assumption.
Qed.

Lemma load_file_grows file_path (acc : loaded) self :
  exists self' acc',
    load_file new_id file_path acc self = (self', Ok acc')
    /\ ((self' = self /\ acc' = acc)
        \/ length (documents acc') = S (length (documents acc))).
Proof.
  unfold load_file.
  destruct (is_file file_path && mem _ _); [|eauto 6].
  case_bool_decide; [eauto 6|].
  destruct (_read_file_content file_path); [|eauto 6].
  eexists _, _. split; [reflexivity|]. right.
  cbn [documents]. rewrite length_app. simpl. lia.
Qed.

Lemma load_loop_grows (files : list Path) (acc : loaded) self :
  exists self' acc',
    Py.for_each files (load_file new_id) acc self = (self', Ok acc')
    /\ ((self' = self /\ acc' = acc)
        \/ length (documents acc) < length (documents acc')).
Proof.
  revert acc self. induction files as [|f files IH]; intros acc self.
  - exists self, acc. split; [reflexivity|]. now left.
  - cbn [Py.for_each]. unfold Py.bind.
    destruct (load_file_grows f acc self) as (self1 & acc1 & -> & H1).
    destruct (IH acc1 self1) as (self2 & acc2 & -> & H2).
    exists self2, acc2. split; [reflexivity|].
    destruct H1 as [[-> ->]|H1], H2 as [[-> ->]|H2]; auto; right; lia.
Qed.

(** A loader that raises has changed nothing: the three ways it raises are
    [ValueError]s, and a file adds to [bytes_processed] only when it adds a
    document, which rules out the last of them. *)
Lemma load_documents_raise_unchanged (data_dir : Directory) self self' e :
  _load_documents_from_directory new_id data_dir self = (self', Raise e) ->
  self' = self /\ exists msg, e = Py.ValueError msg.
Proof.
  unfold _load_documents_from_directory.
  destruct (exists_ data_dir); simpl.
  2:{ unfold Py.raise. intros [= <- <-]. eauto. }
  destruct (iterdir data_dir) as [|entry entries].
  { unfold Py.raise. intros [= <- <-]. eauto. }
  unfold Py.bind.
  destruct (load_loop_grows (glob data_dir)
              {| documents := []; processed_files := ∅; documents_count := 0 |} self)
    as (self1 & acc1 & -> & Hg).
  destruct (documents acc1) as [|d ds] eqn:Hacc.
  - unfold Py.raise. intros [= <- <-]. split; [|eauto].
    destruct Hg as [[-> _]|Hlt]; [reflexivity|].
    simpl in Hlt. lia.
  - discriminate.
Qed.

Variable embed_async_many : list string -> Py.M Emb (list vec).
Variable split : list Document -> Py.result (list Document).

(** X2: An [ingest_documents] call whose loading step raises (missing directory,
    directory without entries, no loadable file) raises that [ValueError] and
    leaves the ingestor exactly as it was: no statistic changes, the embedder
    is not called and nothing is sent to the vector store. *)
Theorem failed_load_changes_nothing (data_dir : Directory) self e :
  (_load_documents_from_directory new_id data_dir self).2 = Raise e ->
  ingest_documents embed_async_many split new_id data_dir self = (self, Raise e)
  /\ exists msg, e = Py.ValueError msg.
Proof.
  destruct (_load_documents_from_directory new_id data_dir self)
    as [self1 r] eqn:Hload.
  simpl. intros ->.
  destruct (load_documents_raise_unchanged _ _ _ _ Hload) as [-> Hmsg].
  split; [|exact Hmsg].
  unfold ingest_documents, Py.bind. now rewrite Hload.
Qed.

End DocumentIngestorLoading.

(* ===================================================================== *)
(** * Embedding and storing the chunks of a call *)
(* ===================================================================== *)

Section DocumentIngestorStoring.

Import DocumentIngestor.

Variable Emb : Type.
Variable embed_async_many : list string -> Py.M Emb (list vec).
Variable split : list Document -> Py.result (list Document).
Variable new_id : nat -> string.

Implicit Types (self : DocumentIngestor.t Emb) (chunk : Document).

(** The point [_store_chunks_with_embeddings] prepares for a chunk that has
    the embedding [v]. *)
Definition point_of chunk (v : vec) : Rest.PointStruct :=
  {| Rest.id := id chunk;
     Rest.vector := v;
     Rest.payload :=
       Py.dict_display (("text", Py.VStr (text chunk)) :: metadata chunk) |}.

Lemma doc_embeddings_from_surplus (chunks : list Document) (embeddings : list vec)
    (acc : gmap string vec) :
  length chunks < length embeddings ->
  doc_embeddings_from chunks embeddings acc = Raise Py.IndexError.
Proof.
  revert chunks acc. induction embeddings as [|e es IH]; intros chunks acc Hlen.
  - simpl in Hlen. lia.
  - destruct chunks as [|ch chs]; [reflexivity|].
    simpl. apply IH. simpl in Hlen. lia.
Qed.

Lemma doc_embeddings_from_ok (chunks : list Document) (embeddings : list vec)
    (acc : gmap string vec) :
  length embeddings <= length chunks ->
  NoDup (map id chunks) ->
  exists m,
    doc_embeddings_from chunks embeddings acc = Ok m
    /\ (forall i chunk e, chunks !! i = Some chunk -> embeddings !! i = Some e ->
          m !! id chunk = Some e)
    /\ (forall k, k ∉ map id (take (length embeddings) chunks) -> m !! k = acc !! k).
Proof.
  revert chunks acc. induction embeddings as [|e es IH]; intros chunks acc Hlen Hnd.
  - exists acc. split; [now destruct chunks|].
    split; [intros i ch e _ He; discriminate|auto].
  - destruct chunks as [|ch chs]; [simpl in Hlen; lia|].
    simpl in Hlen, Hnd. apply NoDup_cons in Hnd as [Hch Hnd].
    destruct (IH chs (<[id ch := e]> acc)) as (m & Hm & Hin & Hout); [lia|assumption|].
    exists m. split; [exact Hm|]. split.
    + intros [|i] chunk e' Hc He; simpl in Hc, He.
      * injection Hc as <-. injection He as <-.
        rewrite Hout; [apply lookup_insert_eq|].
        intros Hin'. apply Hch.
        apply list_elem_of_fmap in Hin' as (x & Hx & Hxin).
        apply elem_of_take in Hxin as (j & Hj & _).
        rewrite Hx. apply list_elem_of_fmap_2, list_elem_of_lookup. eauto.
      * eapply Hin; eassumption.
    + intros k Hk. simpl in Hk. apply not_elem_of_cons in Hk as [Hne Hk].
      rewrite Hout by assumption. now rewrite lookup_insert_ne.
Qed.

Lemma prepare_points_ids (chunks : list Document) (m : gmap string vec) :
  map Rest.id (prepare_points chunks m) `sublist_of` map id chunks.
Proof.
  induction chunks as [|ch chs IH]; cbn [prepare_points map]; [constructor|].
  destruct (m !! id ch); cbn [map Rest.id]; [now constructor|now constructor].
Qed.

Lemma prepare_points_elem (chunks : list Document) (m : gmap string vec) chunk v :
  chunk ∈ chunks -> m !! id chunk = Some v ->
  point_of chunk v ∈ prepare_points chunks m.
Proof.
  unfold vec in *.
  induction chunks as [|ch chs IH]; intros Hin Hv; [inversion Hin|].
  apply elem_of_cons in Hin as [->|Hin]; cbn [prepare_points]; unfold vec in *.
  - rewrite Hv. left.
  - destruct (m !! id ch); [right|]; now apply IH.
Qed.

Lemma prepare_points_skip (chunks : list Document) (m : gmap string vec) (k : string) :
  m !! k = None -> k ∉ map Rest.id (prepare_points chunks m).
Proof.
  unfold vec in *.
  intros Hk. induction chunks as [|ch chs IH]; cbn [prepare_points map];
    [apply not_elem_of_nil|]. unfold vec in *.
  destruct (m !! id ch) eqn:Hch; [|exact IH].
  cbn [map Rest.id]. apply not_elem_of_cons. split; [congruence|exact IH].
Qed.

Lemma upsert_points_lookup_elem (ps : list Rest.PointStruct)
    (m : gmap string Rest.PointStruct) (p : Rest.PointStruct) (k : string) :
  NoDup (keys (map Rest.id ps)) -> p ∈ ps ->
  QdrantClient.point_key (Rest.id p) = Some k ->
  QdrantClient.upsert_points ps m !! k = Some p.
Proof.
  intros Hnd Hin Hk. apply list_elem_of_lookup in Hin as [i Hi].
  eapply upsert_points_lookup_nodup; eassumption.
Qed.

Lemma keys_inj (ids : list string) (a b : string) :
  (forall id, id ∈ ids -> is_Some (QdrantClient.point_key id)) ->
  NoDup (keys ids) -> a ∈ ids -> b ∈ ids ->
  QdrantClient.point_key a = QdrantClient.point_key b -> a = b.
Proof.
  induction ids as [|id0 ids IH]; intros Hvalid Hnd Ha Hb Hab; [inversion Ha|].
  destruct (Hvalid id0) as [k0 Hk0]; [left|].
  cbn [keys] in Hnd. rewrite Hk0 in Hnd. apply NoDup_cons in Hnd as [Hfresh Hnd].
  apply elem_of_cons in Ha as [->|Ha]; apply elem_of_cons in Hb as [->|Hb].
  - reflexivity.
  - exfalso. apply Hfresh. apply (keys_elem ids b); [exact Hb|congruence].
  - exfalso. apply Hfresh. apply (keys_elem ids a); [exact Ha|congruence].
  - apply IH; try assumption. intros id Hin. apply Hvalid. now right.
Qed.

Lemma keys_nodup_ids (ids : list string) :
  (forall id, id ∈ ids -> is_Some (QdrantClient.point_key id)) ->
  NoDup (keys ids) -> NoDup ids.
Proof.
  induction ids as [|id0 ids IH]; intros Hvalid Hnd; [constructor|].
  destruct (Hvalid id0) as [k0 Hk0]; [left|].
  cbn [keys] in Hnd. rewrite Hk0 in Hnd. apply NoDup_cons in Hnd as [Hfresh Hnd].
  constructor.
  - intros Hin. apply Hfresh. now apply (keys_elem ids id0).
  - apply IH; [|assumption]. intros id Hin. apply Hvalid. now right.
Qed.

Lemma doc_embeddings_from_values (chunks : list Document) (embeddings : list vec)
    (acc m : gmap string vec) (k : string) (v : vec) :
  doc_embeddings_from chunks embeddings acc = Ok m ->
  m !! k = Some v -> v ∈ embeddings \/ acc !! k = Some v.
Proof.
  revert chunks acc. induction embeddings as [|e es IH]; intros chunks acc.
  - destruct chunks; intros [= <-]; auto.
  - destruct chunks as [|ch chs]; [discriminate|]. cbn [doc_embeddings_from].
    intros Hm Hv. destruct (IH _ _ Hm Hv) as [Hin|Hacc]; [left; now right|].
    destruct (decide (k = id ch)) as [->|Hne].
    + rewrite lookup_insert_eq in Hacc. injection Hacc as ->. left. left.
    + rewrite lookup_insert_ne in Hacc by congruence. now right.
Qed.

Lemma prepare_points_inv (chunks : list Document) (m : gmap string vec)
    (p : Rest.PointStruct) :
  p ∈ prepare_points chunks m ->
  exists chunk v,
    chunk ∈ chunks /\ m !! id chunk = Some v /\ p = point_of chunk v.
Proof.
  unfold vec in *.
  induction chunks as [|ch chs IH]; cbn [prepare_points]; [inversion 1|].
  unfold vec in *. destruct (m !! id ch) as [v|] eqn:Hv.
  - intros Hin. apply elem_of_cons in Hin as [->|Hin].
    + exists ch, v. split; [left|]. split; [exact Hv|reflexivity].
    + destruct (IH Hin) as (chunk & v' & Hc & Hv' & ->).
      exists chunk, v'. split; [now right|]. split; [exact Hv'|reflexivity].
  - intros Hin. destruct (IH Hin) as (chunk & v' & Hc & Hv' & ->).
    exists chunk, v'. split; [now right|]. split; [exact Hv'|reflexivity].
Qed.

(** X3: A successful ingest call, end to end. When the documents are loaded and
    split into chunks whose ids are distinct point ids, the embedder returns
    no more vectors than there are chunks, each of the dimension of the
    collection, and the index is reachable and has the collection: the call
    returns the ingestor's stats, with [chunks_created] increased by the
    number of chunks and [embeddings_generated] by the number of vectors;
    every chunk that got a vector is stored under its id with that vector and
    the payload built from its text and metadata; a chunk beyond the vectors
    returned is not stored, and the call succeeds all the same. *)
Theorem ingest_stores_embedded_chunks (data_dir : Directory) self self1
    (docs chunks : list Document) (emb' : Emb) (embeddings : list vec)
    (col : QdrantClient.Collection) :
  _load_documents_from_directory new_id data_dir self = (self1, Ok docs) ->
  split docs = Ok chunks ->
  (forall id, id ∈ map DocumentIngestor.id chunks ->
     is_Some (QdrantClient.point_key id)) ->
  NoDup (keys (map id chunks)) ->
  embed_async_many (map text chunks) (embedder self) = (emb', Ok embeddings) ->
  length embeddings <= length chunks ->
  (forall e, e ∈ embeddings ->
     Z.of_nat (length e) = Rest.size (QdrantClient.config col)) ->
  QdrantClient.fault (client self) = None ->
  QdrantClient.collections (client self) !! collection_name self = Some col ->
  exists self' col',
    ingest_documents embed_async_many split new_id data_dir self
    = (self', Ok (_stats self'))
    /\ chunks_created (_stats self')
       = (chunks_created (_stats self) + Z.of_nat (length chunks))%Z
    /\ embeddings_generated (_stats self')
       = (embeddings_generated (_stats self) + Z.of_nat (length embeddings))%Z
    /\ QdrantClient.collections (client self') !! collection_name self = Some col'
    /\ (forall i chunk e k,
          chunks !! i = Some chunk -> embeddings !! i = Some e ->
          QdrantClient.point_key (id chunk) = Some k ->
          QdrantClient.points col' !! k = Some (point_of chunk e))
    /\ (forall i chunk k,
          chunks !! i = Some chunk -> length embeddings <= i ->
          QdrantClient.point_key (id chunk) = Some k ->
          QdrantClient.points col' !! k = QdrantClient.points col !! k).
Proof.
  intros Hload Hsplit Hvalid Hkeys Hembed Hlen Hdim Hfault Hcol.
  pose proof (keys_nodup_ids _ Hvalid Hkeys) as Hnd.
  destruct (load_documents_ok _ _ _ _ _ _ Hload)
    as (_ & Hname & Hemb & Hcl & _ & Hc & He & _).
  rewrite (ingest_documents_loaded _ _ _ _ _ _ _ _ Hload).
  unfold after_load. rewrite Hsplit. cbv zeta.
  unfold _generate_embeddings. cbn [embedder set_stats]. rewrite Hemb, Hembed.
  destruct (doc_embeddings_from_ok chunks embeddings ∅ Hlen Hnd)
    as (m & Hm & Hin & Hout).
  rewrite Hm.
  assert (Haccepted :
    forallb (QdrantClient.accepts col) (prepare_points chunks m) = true).
  { apply forallb_forall. intros p Hp. apply list_elem_of_In in Hp.
    apply prepare_points_inv in Hp as (chunk & v & Hcin & Hv & ->).
    unfold QdrantClient.accepts, point_of. cbn [Rest.id Rest.vector].
    destruct (Hvalid (id chunk)) as [k ->]; [now apply list_elem_of_fmap_2|].
    apply Z.eqb_eq, Hdim.
    destruct (doc_embeddings_from_values _ _ _ _ _ _ Hm Hv) as [Hvin|Hempty];
      [exact Hvin|].
    rewrite lookup_empty in Hempty. discriminate. }
  unfold _store_chunks_with_embeddings, QdrantClient.upsert.
  cbn [client collection_name set_stats set_embedder].
  rewrite Hcl, Hname, Hfault, Hcol, Haccepted.
  eexists _, _. split; [reflexivity|].
  cbn [_stats set_client set_stats set_embedder client
       chunks_created embeddings_generated add_chunks add_embeddings_generated
       QdrantClient.collections].
  split; [congruence|]. split; [congruence|].
  split; [apply lookup_insert_eq|].
  cbn [QdrantClient.points].
  assert (Hids : NoDup (keys (map Rest.id (prepare_points chunks m)))).
  { eapply sublist_NoDup; [exact Hkeys|].
    apply keys_sublist, prepare_points_ids. }
  split.
  - intros i chunk e k Hi Hei Hk.
    apply (upsert_points_lookup_elem _ _ (point_of chunk e) k Hids);
      [|exact Hk].
    apply prepare_points_elem; [apply list_elem_of_lookup; eauto|].
    eapply Hin; eassumption.
  - intros i chunk k Hi Hge Hk.
    apply upsert_points_lookup_other.
    assert (Hnone : m !! id chunk = None).
    { rewrite Hout; [apply lookup_empty|].
      intros Hin'. apply list_elem_of_fmap in Hin' as (x & Hx & Hxin).
      apply elem_of_take in Hxin as (j & Hj & Hjlt).
      assert (i = j); [|lia].
      eapply (NoDup_lookup (map id chunks)); [exact Hnd| |].
      + rewrite list_lookup_fmap, Hi. reflexivity.
      + rewrite list_lookup_fmap, Hj. simpl. now rewrite Hx. }
    intros Hkin.
    assert (Hp : exists p, p ∈ prepare_points chunks m
                           /\ QdrantClient.point_key (Rest.id p) = Some k).
    { clear -Hkin. induction (prepare_points chunks m) as [|p ps IH];
        cbn [map keys] in Hkin; [inversion Hkin|].
      destruct (QdrantClient.point_key (Rest.id p)) as [kp|] eqn:Hkp.
      - apply elem_of_cons in Hkin as [->|Hkin].
        + exists p. split; [left|exact Hkp].
        + destruct (IH Hkin) as (q & Hq & Hkq). exists q. split; [now right|exact Hkq].
      - destruct (IH Hkin) as (q & Hq & Hkq). exists q. split; [now right|exact Hkq]. }
    destruct Hp as (p & Hp & Hkp).
    apply prepare_points_inv in Hp as (chunk' & v & Hcin & Hv & ->).
    cbn [point_of Rest.id] in Hkp.
    assert (Hsame : id chunk' = id chunk).
    { apply (keys_inj (map id chunks)); try assumption.
      - now apply list_elem_of_fmap_2.
      - apply list_elem_of_fmap_2, list_elem_of_lookup. eauto.
      - congruence. }
    rewrite Hsame in Hv. unfold vec in *. congruence.
Qed.

(** X4: An embedder that returns more vectors than there are chunks makes the
    call fail with [IndexError] while the id-to-vector mapping is built:
    nothing is sent to the vector store and [embeddings_generated] keeps its
    value, while [chunks_created] has already been increased. *)
Theorem surplus_embeddings_abort (data_dir : Directory) self self1
    (docs chunks : list Document) (emb' : Emb) (embeddings : list vec) :
  _load_documents_from_directory new_id data_dir self = (self1, Ok docs) ->
  split docs = Ok chunks ->
  embed_async_many (map text chunks) (embedder self) = (emb', Ok embeddings) ->
  length chunks < length embeddings ->
  exists self',
    ingest_documents embed_async_many split new_id data_dir self
    = (self', Raise Py.IndexError)
    /\ client self' = client self
    /\ embeddings_generated (_stats self') = embeddings_generated (_stats self)
    /\ chunks_created (_stats self')
       = (chunks_created (_stats self) + Z.of_nat (length chunks))%Z.
Proof.
  intros Hload Hsplit Hembed Hlen.
  destruct (load_documents_ok _ _ _ _ _ _ Hload)
    as (_ & _ & Hemb & Hcl & _ & Hc & He & _).
  rewrite (ingest_documents_loaded _ _ _ _ _ _ _ _ Hload).
  unfold after_load. rewrite Hsplit. cbv zeta.
  unfold _generate_embeddings. cbn [embedder set_stats]. rewrite Hemb, Hembed.
  rewrite (doc_embeddings_from_surplus _ _ _ Hlen).
  eexists. split; [reflexivity|]. simpl. repeat split; congruence.
Qed.

End DocumentIngestorStoring.

(* ===================================================================== *)
(** * Dict displays and lookups *)
(* ===================================================================== *)

Section DictFacts.

Context {V : Type}.

Implicit Types (d items : list (string * V)) (k : string) (v default : V).

Lemma dict_get_set d k v k' default :
  Py.dict_get (Py.dict_set d k v) k' default
  = if String.eqb k' k then v else Py.dict_get d k' default.
Proof.
  induction d as [|[k0 v0] d IH]; simpl; [reflexivity|].
  destruct (String.eqb k k0) eqn:Hk; simpl.
  - apply String.eqb_eq in Hk as ->. now destruct (String.eqb k' k0).
  - rewrite IH. destruct (String.eqb k' k0) eqn:Hk0; [|reflexivity].
    apply String.eqb_eq in Hk0 as ->.
    rewrite String.eqb_sym in Hk. now rewrite Hk.
Qed.

Lemma dict_get_app d d' k default :
  Py.dict_get (d ++ d') k default
  = Py.dict_get d k (Py.dict_get d' k default).
Proof.
  induction d as [|[k0 v0] d IH]; simpl; [reflexivity|].
  now destruct (String.eqb k k0).
Qed.

Lemma dict_get_fold items d k default :
  Py.dict_get
    (fold_left (fun d kv => Py.dict_set d (fst kv) (snd kv)) items d) k default
  = Py.dict_get (rev items) k (Py.dict_get d k default).
Proof.
  revert d. induction items as [|[k0 v0] items IH]; intros d; simpl; [reflexivity|].
  rewrite IH, dict_get_app, dict_get_set. simpl.
  now destruct (String.eqb k k0).
Qed.

(** In a dict display the last of several items with one key wins. *)
Lemma dict_get_display items k default :
  Py.dict_get (Py.dict_display items) k default
  = Py.dict_get (rev items) k default.
Proof. unfold Py.dict_display. now rewrite dict_get_fold. Qed.

Lemma dict_get_absent d k default :
  k ∉ map fst d -> Py.dict_get d k default = default.
Proof.
  induction d as [|[k0 v0] d IH]; simpl; [reflexivity|].
  intros Hk. apply not_elem_of_cons in Hk as [Hne Hk].
  apply String.eqb_neq in Hne. rewrite Hne. now apply IH.
Qed.

Lemma dict_get_rev d k default :
  NoDup (map fst d) ->
  Py.dict_get (rev d) k default = Py.dict_get d k default.
Proof.
  revert default. induction d as [|[k0 v0] d IH]; intros default; simpl;
    [reflexivity|].
  intros Hnd. apply NoDup_cons in Hnd as [Hk0 Hnd].
  rewrite dict_get_app, IH by assumption. simpl.
  destruct (String.eqb k k0) eqn:Hk; [|reflexivity].
  apply String.eqb_eq in Hk as ->. now apply dict_get_absent.
Qed.

End DictFacts.

(* ===================================================================== *)
(** * More properties of [QdrantStore] *)
(* ===================================================================== *)

Section QdrantStoreConstruction.

Import QdrantClient QdrantStore.

Implicit Types (self : QdrantStore.t) (c : QdrantClient.t).

Lemma startswith_app (prefix rest : string) :
  Py.startswith (prefix ++ rest) prefix = true.
Proof.
  induction prefix as [|a prefix IH]; simpl; [now destruct rest|].
  now rewrite Ascii.eqb_refl, IH.
Qed.

(** X6: The URL handed to the client: a URL of the Qdrant cloud always comes out
    as an HTTPS URL, any other URL is passed on unchanged, and the rewriting
    is idempotent. *)
Theorem cloud_url_https (resolved_url : string) :
  (Py.contains ".cloud.qdrant.io" resolved_url = true ->
   Py.startswith (cloud_url resolved_url) "https://" = true)
  /\ (Py.contains ".cloud.qdrant.io" resolved_url = false ->
      cloud_url resolved_url = resolved_url)
  /\ cloud_url (cloud_url resolved_url) = cloud_url resolved_url.
Proof.
  unfold cloud_url.
  destruct (Py.contains ".cloud.qdrant.io" resolved_url) eqn:Hcloud.
  - destruct (Py.startswith resolved_url "https://") eqn:Hs; cbn [negb].
    + rewrite Hcloud, Hs. cbn [negb]. repeat split; auto; discriminate.
    + rewrite (startswith_app "https://"). cbn [negb].
      split; [reflexivity|]. split; [discriminate|].
      match goal with |- (if ?b then _ else _) = _ => destruct b end;
        reflexivity.
  - rewrite Hcloud. repeat split; auto; discriminate.
Qed.

(** X7: What the constructor guarantees: without a URL (argument and setting both
    missing, an empty argument counting as missing) it raises [ValueError]
    before it contacts the index; and once [__post_init__] has returned, the
    index is reachable, the collection of the store exists, and a Qdrant
    cloud URL is used over HTTPS. *)
Theorem post_init_outcome self (url api_key : option string)
    (settings_qdrant_url settings_qdrant_api_key : option string) c :
  (Py.or_ url settings_qdrant_url = None ->
   __post_init__ self url api_key settings_qdrant_url settings_qdrant_api_key c
   = (c, Raise (Py.ValueError
                  "QDRANT_URL env var or 'url' argument must be provided.")))
  /\ (forall c' resolved_url resolved_key,
        __post_init__ self url api_key settings_qdrant_url
          settings_qdrant_api_key c
        = (c', Ok (resolved_url, resolved_key)) ->
        fault c' = None
        /\ is_Some (collections c' !! collection_name self)
        /\ (Py.contains ".cloud.qdrant.io" resolved_url = true ->
            Py.startswith resolved_url "https://" = true)).
Proof.
  unfold __post_init__. split.
  - intros ->. reflexivity.
  - intros c' resolved_url resolved_key.
    destruct (Py.or_ url settings_qdrant_url) as [u|]; [|discriminate].
    destruct (Py.or_ api_key settings_qdrant_api_key) as [k|]; [|discriminate].
    unfold Py.bind, Py.ret.
    destruct (_bootstrap_collection self c) as [c1 [[]|e]] eqn:Hboot; [|discriminate].
    intros [= <- <- <-].
    destruct (bootstrap_ok_inv _ _ _ Hboot) as [Hf Hsome].
    split; [exact Hf|]. split; [exact Hsome|].
    destruct (cloud_url_https u) as (Hhttps & Hsame & _).
    destruct (Py.contains ".cloud.qdrant.io" u) eqn:Hcloud; [auto|].
    rewrite (Hsame eq_refl), Hcloud. discriminate.
Qed.

End QdrantStoreConstruction.

Section QdrantStoreWrites.

Import QdrantClient QdrantStore.

Implicit Types (self : QdrantStore.t) (c : QdrantClient.t).

(** [metadatas or [{}] * len(texts_list)]: a missing and an empty list of
    metadatas both stand for one empty dict per text. *)
Definition metadatas_or_empty (metadatas : option (list Py.dict)) (n : nat)
    : list Py.dict :=
  match metadatas with
  | Some (m :: ms) => m :: ms
  | _ => replicate n []
  end.

Lemma add_embeddings_eq self (texts : list string)
    (embeddings : list (list float)) (metadatas : option (list Py.dict))
    (ids : option (list string)) :
  add_embeddings self texts embeddings metadatas ids
  = if negb (length texts =? length embeddings)%nat
    then Py.raise (Py.ValueError "Number of texts and embeddings must be the same.")
    else
      if negb (length (metadatas_or_empty metadatas (length texts))
               =? length texts)%nat
      then Py.raise (Py.ValueError "Number of texts and metadatas must be the same.")
      else
        (do upsert (collection_name self)
              (make_points self ids 0 texts embeddings
                 (metadatas_or_empty metadatas (length texts))) then
         Py.ret (map Rest.id
                   (make_points self ids 0 texts embeddings
                      (metadatas_or_empty metadatas (length texts)))))%py.
Proof. reflexivity. Qed.

(** X8: [add_embeddings] checks its arguments before it contacts the index: when
    the numbers of texts and embeddings differ, or a non-empty list of
    metadatas has another length than the texts, it raises [ValueError] and
    the index is left as it was. *)
Theorem add_embeddings_rejects_mismatch self (texts : list string)
    (embeddings : list (list float)) (metadatas : option (list Py.dict))
    (ids : option (list string)) c :
  length texts <> length embeddings
  \/ length (metadatas_or_empty metadatas (length texts)) <> length texts ->
  exists msg,
    add_embeddings self texts embeddings metadatas ids c
    = (c, Raise (Py.ValueError msg)).
Proof.
  intros Hbad. rewrite add_embeddings_eq.
  destruct (length texts =? length embeddings)%nat eqn:Hlen; cbn [negb].
  - destruct Hbad as [Hbad|Hbad];
      [apply Nat.eqb_eq in Hlen; contradiction|].
    apply Nat.eqb_neq in Hbad.
    rewrite Hbad. cbn [negb]. eexists. reflexivity.
  - eexists. reflexivity.
Qed.

Lemma explicit_ids_from (ids : list string) (k n : nat) :
  k + n <= length ids ->
  map (point_id (Some ids)) (seq k n) = take n (drop k ids).
Proof.
  revert k. induction n as [|n IH]; intros k Hlen; [reflexivity|].
  destruct (ids !! k) as [x|] eqn:Hx.
  2:{ apply lookup_ge_None_1 in Hx. lia. }
  cbn [seq map]. rewrite (drop_S _ _ _ Hx). cbn [take].
  unfold point_id at 1. rewrite Hx. f_equal. apply IH. lia.
Qed.

Lemma explicit_ids (ids : list string) (n : nat) :
  n <= length ids -> map (point_id (Some ids)) (seq 0 n) = take n ids.
Proof. intros Hlen. now rewrite explicit_ids_from by lia. Qed.

(** What an accepted request of [add_embeddings] does. *)
Lemma add_embeddings_accepted self c (col : Collection)
    (ids : option (list string)) (texts : list string)
    (embeddings : list (list float)) (metadatas : option (list Py.dict)) :
  fault c = None ->
  collections c !! collection_name self = Some col ->
  length texts = length embeddings ->
  length (metadatas_or_empty metadatas (length texts)) = length texts ->
  forallb (accepts col)
    (make_points self ids 0 texts embeddings
       (metadatas_or_empty metadatas (length texts))) = true ->
  add_embeddings self texts embeddings metadatas ids c
  = ({| fault := None;
        collections :=
          <[collection_name self :=
              {| config := config col;
                 points :=
                   upsert_points
                     (make_points self ids 0 texts embeddings
                        (metadatas_or_empty metadatas (length texts)))
                     (points col) |}]> (collections c) |},
     Ok (map (point_id ids) (seq 0 (length texts)))).
Proof.
  intros Hf Hcol Hlen Hmeta Hacc. rewrite add_embeddings_eq.
  rewrite Hmeta, Nat.eqb_refl, Hlen, Nat.eqb_refl. cbn [negb]. rewrite <- Hlen.
  unfold Py.bind, upsert. rewrite Hf, Hcol, Hacc. unfold Py.ret.
  now rewrite (make_points_ids self ids 0 texts embeddings _ Hlen Hmeta).
Qed.

Lemma make_points_accepted self (col : Collection) (ids : option (list string))
    (k : nat) (texts : list string) (embeddings : list (list float))
    (metadatas : list Py.dict) :
  (forall i, i < length texts -> is_Some (point_key (point_id ids (k + i)))) ->
  (forall e, e ∈ embeddings -> Z.of_nat (length e) = Rest.size (config col)) ->
  forallb (accepts col) (make_points self ids k texts embeddings metadatas) = true.
Proof.
  revert k embeddings metadatas.
  induction texts as [|t texts IH]; intros k [|e es] [|m ms] Hvalid Hdim;
    try reflexivity.
  cbn [make_points forallb]. apply andb_true_intro. split.
  - unfold accepts, make_point. cbn [Rest.id Rest.vector].
    destruct (Hvalid 0) as [key Hkey]; [simpl; lia|].
    rewrite Nat.add_0_r in Hkey. rewrite Hkey.
    apply Z.eqb_eq, Hdim. left.
  - apply IH.
    + intros i Hi. replace (S k + i) with (k + S i) by lia.
      apply Hvalid. simpl. lia.
    + intros e' He'. apply Hdim. now right.
Qed.

(** [add_embeddings] with an id for every text. *)
Lemma add_embeddings_explicit_ids self c (col : Collection)
    (ids : list string) (texts : list string)
    (embeddings : list (list float)) (metadatas : option (list Py.dict)) :
  fault c = None ->
  collections c !! collection_name self = Some col ->
  length texts = length embeddings ->
  length (metadatas_or_empty metadatas (length texts)) = length texts ->
  length texts <= length ids ->
  (forall id, id ∈ take (length texts) ids -> is_Some (point_key id)) ->
  NoDup (keys (take (length texts) ids)) ->
  (forall e, e ∈ embeddings -> Z.of_nat (length e) = Rest.size (config col)) ->
  exists c' col',
    add_embeddings self texts embeddings metadatas (Some ids) c
    = (c', Ok (take (length texts) ids))
    /\ collections c' !! collection_name self = Some col'
    /\ config col' = config col
    /\ (forall i t e m id k,
          texts !! i = Some t -> embeddings !! i = Some e ->
          metadatas_or_empty metadatas (length texts) !! i = Some m ->
          ids !! i = Some id -> point_key id = Some k ->
          points col' !! k
          = Some {| Rest.id := id;
                    Rest.vector := e;
                    Rest.payload :=
                      Py.dict_display
                        [(content_payload_key self, Py.VStr t);
                         (metadata_payload_key self, Py.VDict m)] |})
    /\ (forall k, k ∉ keys (take (length texts) ids) ->
          points col' !! k = points col !! k)
    /\ (forall n, n <> collection_name self ->
          collections c' !! n = collections c !! n).
Proof.
  intros Hf Hcol Hlen Hmeta Hids Hvalid Hnd Hdim.
  pose proof (make_points_ids self (Some ids) 0 texts embeddings
                (metadatas_or_empty metadatas (length texts)) Hlen Hmeta) as Hpids.
  rewrite (explicit_ids ids (length texts) Hids) in Hpids.
  rewrite (add_embeddings_accepted self c col (Some ids) texts embeddings
             metadatas Hf Hcol Hlen Hmeta).
  2:{ apply make_points_accepted; [|exact Hdim].
      intros i Hi. cbn [Nat.add]. apply Hvalid.
      rewrite <- (explicit_ids ids (length texts) Hids).
      apply (list_elem_of_fmap_2 (point_id (Some ids))).
      apply elem_of_seq. lia. }
  rewrite (explicit_ids ids (length texts) Hids).
  eexists _, _. split; [reflexivity|].
  cbn [collections]. split; [apply lookup_insert_eq|].
  cbn [config points]. split; [reflexivity|].
  split; [|split].
  - intros i t e m id k Ht He Hm Hid Hk.
    pose proof (make_points_lookup self (Some ids) 0 i texts embeddings _ t e m
                  Ht He Hm) as Hp.
    cbn [Nat.add] in Hp. unfold make_point in Hp.
    unfold point_id in Hp. rewrite Hid in Hp.
    eapply (upsert_points_lookup_nodup _ (points col)) in Hp;
      [exact Hp|now rewrite Hpids|exact Hk].
  - intros k Hk. apply upsert_points_lookup_other. now rewrite Hpids.
  - intros n Hn. now rewrite lookup_insert_ne.
Qed.

(** X9: [add_embeddings] with explicit ids and at least one text on a
    reachable index that has the collection, when there is an id for every
    text, the ids used are distinct point ids and every vector has the
    dimension of the collection:
    the call returns the first [len(texts)] of the given ids; the text at
    position [i] can be read back under the id [ids[i]], as a point that
    carries this id, the text's vector and the payload of the text and its
    metadata; every other point of the collection, the collection's
    configuration and every other collection are left as they were. *)
Theorem add_embeddings_stores_points self c (col : Collection)
    (ids : list string) (texts : list string)
    (embeddings : list (list float)) (metadatas : option (list Py.dict)) :
  fault c = None ->
  collections c !! collection_name self = Some col ->
  texts <> [] ->
  length texts = length embeddings ->
  length (metadatas_or_empty metadatas (length texts)) = length texts ->
  length texts <= length ids ->
  (forall id, id ∈ take (length texts) ids -> is_Some (point_key id)) ->
  NoDup (keys (take (length texts) ids)) ->
  (forall e, e ∈ embeddings -> Z.of_nat (length e) = Rest.size (config col)) ->
  exists c' col',
    add_embeddings self texts embeddings metadatas (Some ids) c
    = (c', Ok (take (length texts) ids))
    /\ collections c' !! collection_name self = Some col'
    /\ config col' = config col
    /\ (forall i t e m id k,
          texts !! i = Some t -> embeddings !! i = Some e ->
          metadatas_or_empty metadatas (length texts) !! i = Some m ->
          ids !! i = Some id -> point_key id = Some k ->
          points col' !! k
          = Some {| Rest.id := id;
                    Rest.vector := e;
                    Rest.payload :=
                      Py.dict_display
                        [(content_payload_key self, Py.VStr t);
                         (metadata_payload_key self, Py.VDict m)] |})
    /\ (forall k, k ∉ keys (take (length texts) ids) ->
          points col' !! k = points col !! k)
    /\ (forall n, n <> collection_name self ->
          collections c' !! n = collections c !! n).
Proof.
  intros Hf Hcol _. now apply add_embeddings_explicit_ids.
Qed.

(** The index after two calls of [add_embeddings]. *)
Definition after_two_calls self (texts1 texts2 : list string)
    (embs1 embs2 : list (list float)) (ids : option (list string))
    (c : QdrantClient.t) : QdrantClient.t :=
  (add_embeddings self texts2 embs2 None ids
     (add_embeddings self texts1 embs1 None ids c).1).1.


Definition notes_store : QdrantStore.t :=
  {| collection_name := "notes"; vector_size := 2; distance := "Cosine";
     content_payload_key := "content"; metadata_payload_key := "metadata" |}.

Definition notes_collection : Collection :=
  {| config := {| Rest.size := 2; Rest.distance := Rest.COSINE |};
     points := ∅ |}.

Definition notes_index : QdrantClient.t :=
  {| fault := None; collections := {[ "notes" := notes_collection ]} |}.



(** X10: Reading back a point written by [add_embeddings]: from the point's
    payload [similarity_search_with_score] builds the document with the text
    as content and the text's metadata, unless the store is configured with
    one key for content and metadata: then the payload holds the metadata
    under that key, the content read from it is a dict, and building the
    document raises [ValidationError]. *)
Theorem stored_point_decodes self (ids : option (list string)) (i : nat)
    (text : string) (embedding : list float) (metadata : Py.dict) (s : float) :
  scored_document self
    {| hit_payload := Rest.payload (make_point self ids i text embedding metadata);
       score := s |}
  = if String.eqb (content_payload_key self) (metadata_payload_key self)
    then Raise (Py.ValidationError "Document.page_content")
    else Ok ({| page_content := text; QdrantStore.metadata := metadata |}, s).
Proof.
  unfold scored_document, make_point. cbn [hit_payload score Rest.payload].
  rewrite !dict_get_display. cbn [rev app Py.dict_get].
  rewrite !String.eqb_refl.
  now destruct (String.eqb (content_payload_key self) (metadata_payload_key self)).
Qed.

(** X11: [add_texts] leaves the index untouched whenever the texts cannot be
    embedded one to one: without an embedder it raises [ValueError], an
    exception of [embed_documents] is passed on, and a number of vectors
    other than the number of texts is a [ValueError]. *)
Theorem add_texts_failure_leaves_index self (embedding : option Embeddings)
    (texts : list string) (metadatas : option (list Py.dict))
    (ids : option (list string)) c :
  (embedding = None ->
   add_texts self embedding texts metadatas ids c
   = (c, Raise (Py.ValueError "Embeddings must be provided for adding texts.")))
  /\ (forall e exc,
        embedding = Some e -> embed_documents e texts = Raise exc ->
        add_texts self embedding texts metadatas ids c = (c, Raise exc))
  /\ (forall e embeddings,
        embedding = Some e -> embed_documents e texts = Ok embeddings ->
        length embeddings <> length texts ->
        add_texts self embedding texts metadatas ids c
        = (c, Raise (Py.ValueError
                       "Number of texts and embeddings must be the same."))).
Proof.
  split; [|split].
  - intros ->. reflexivity.
  - intros e exc -> Hexc. unfold add_texts, Py.bind, Py.lift. now rewrite Hexc.
  - intros e embeddings -> Hemb Hlen.
    unfold add_texts, Py.bind, Py.lift. rewrite Hemb. unfold add_embeddings.
    assert (Hne : (length texts =? length embeddings)%nat = false)
      by (apply Nat.eqb_neq; congruence).
    now rewrite Hne.
Qed.

End QdrantStoreWrites.

(* ===================================================================== *)
(** * The payload of a stored chunk *)
(* ===================================================================== *)

Section StoredPayload.

Import DocumentIngestor.

(** X5: The payload stored for a chunk is the dict display
    [{"text": chunk.text, **chunk.metadata}]: every key of the metadata is
    found in it with the metadata's value, and ["text"] holds the chunk's
    text unless the metadata has a key ["text"] of its own, whose value then
    replaces the text. *)
Theorem stored_payload_of_chunk (chunk : Document) (v : vec) (default : Py.value) :
  NoDup (map fst (metadata chunk)) ->
  Py.dict_get (Rest.payload (point_of chunk v)) "text" default
  = Py.dict_get (metadata chunk) "text" (Py.VStr (text chunk))
  /\ forall k, k <> "text" ->
       Py.dict_get (Rest.payload (point_of chunk v)) k default
       = Py.dict_get (metadata chunk) k default.
Proof.
  intros Hnd. unfold point_of. cbn [Rest.payload].
  split; [|intros k Hk]; rewrite dict_get_display; cbn [rev];
    rewrite dict_get_app, dict_get_rev by assumption.
  - reflexivity.
  - cbn [Py.dict_get]. apply String.eqb_neq in Hk. now rewrite Hk.
Qed.

End StoredPayload.

(* ===================================================================== *)
(** * The ingestion theorems on concrete directories *)
(* ===================================================================== *)

Section IngestionExamples.

Import DocumentIngestor.

(** A directory with a text file, an image, a PDF that cannot be read and a
    second text file. *)
Definition image_file : Path :=
  {| str := "data/logo.png"; name := "logo.png"; suffix := ".png";
     is_file := true; st_size := 100; read_text := Ok "";
     pdf_pages := Raise (Py.OSError "not a PDF");
     docx_paragraphs := Raise (Py.OSError "not a DOCX") |}.

Definition broken_pdf : Path :=
  {| str := "data/scan.PDF"; name := "scan.PDF"; suffix := ".PDF";
     is_file := true; st_size := 50; read_text := Ok "";
     pdf_pages := Raise (Py.OSError "file is encrypted");
     docx_paragraphs := Raise (Py.OSError "not a DOCX") |}.

Definition mixed_files : Directory :=
  directory_of [text_file "a.txt" 5; image_file; broken_pdf; text_file "b.md" 7].

Definition only_unreadable : Directory := directory_of [image_file; broken_pdf].

(** An embedder that returns one vector more than it was given texts, and
    one that returns a vector for the first text only. *)
Definition surplus_embedder (texts : list string) : Py.M unit (list vec) :=
  Py.ret ([0.25%float] :: map (fun _ => [0.5%float]) texts).

Definition first_only_embedder (texts : list string) : Py.M unit (list vec) :=
  Py.ret (take 1 (map (fun _ => [0.5%float]) texts)).

Lemma load_documents_in_glob_order_witness :
  exists self',
    _load_documents_from_directory Py.str_of_nat mixed_files fresh_ingestor
    = (self',
       match documents_from Py.str_of_nat 0 (glob mixed_files) with
       | [] => Raise (Py.ValueError "No valid documents loaded")
       | _ => Ok (documents_from Py.str_of_nat 0 (glob mixed_files))
       end)
    /\ bytes_processed (_stats self')
       = (bytes_processed (_stats fresh_ingestor) + total_size (glob mixed_files))%Z
    /\ documents_processed (_stats self')
       = match documents_from Py.str_of_nat 0 (glob mixed_files) with
         | [] => documents_processed (_stats fresh_ingestor)
         | _ => Z.of_nat (length (documents_from Py.str_of_nat 0 (glob mixed_files)))
         end
    /\ chunks_created (_stats self') = chunks_created (_stats fresh_ingestor)
    /\ embeddings_generated (_stats self')
       = embeddings_generated (_stats fresh_ingestor)
    /\ embedder self' = embedder fresh_ingestor
    /\ client self' = client fresh_ingestor.
Proof.
  apply (load_documents_in_glob_order unit Py.str_of_nat mixed_files fresh_ingestor).
  - reflexivity.
  - discriminate.
  - refine (bool_decide_unpack _ _). vm_compute. exact I.
Defined.

Lemma failed_load_changes_nothing_witness :
  ingest_documents constant_embedder whole_documents Py.str_of_nat
    only_unreadable fresh_ingestor
  = (fresh_ingestor, Raise (Py.ValueError "No valid documents loaded"))
  /\ exists msg, Py.ValueError "No valid documents loaded" = Py.ValueError msg.
Proof.
  apply (failed_load_changes_nothing unit Py.str_of_nat constant_embedder
           whole_documents only_unreadable fresh_ingestor).
  vm_compute. reflexivity.
Defined.

Definition loaded_three : DocumentIngestor.t unit * Py.result (list Document) :=
  _load_documents_from_directory Py.str_of_nat three_files fresh_ingestor.

Definition three_documents : list Document :=
  match loaded_three.2 with Ok docs => docs | Raise _ => [] end.

Definition docs_collection : QdrantClient.Collection :=
  {| QdrantClient.config := {| Rest.size := 1; Rest.distance := Rest.COSINE |};
     QdrantClient.points := ∅ |}.

Definition stored_three : DocumentIngestor.t unit * Py.result (list Document) :=
  _load_documents_from_directory uuid_of_nat three_files fresh_ingestor.

Definition stored_documents : list Document :=
  match stored_three.2 with Ok docs => docs | Raise _ => [] end.

Lemma ingest_stores_embedded_chunks_witness :
  exists self' col',
    ingest_documents first_only_embedder whole_documents uuid_of_nat
      three_files fresh_ingestor
    = (self', Ok (_stats self'))
    /\ chunks_created (_stats self')
       = (chunks_created (_stats fresh_ingestor)
          + Z.of_nat (length stored_documents))%Z
    /\ embeddings_generated (_stats self')
       = (embeddings_generated (_stats fresh_ingestor)
          + Z.of_nat (length [[0.5%float]]))%Z
    /\ QdrantClient.collections (client self') !! collection_name fresh_ingestor
       = Some col'
    /\ (forall i chunk e k,
          stored_documents !! i = Some chunk -> [[0.5%float]] !! i = Some e ->
          QdrantClient.point_key (id chunk) = Some k ->
          QdrantClient.points col' !! k = Some (point_of chunk e))
    /\ (forall i chunk k,
          stored_documents !! i = Some chunk -> length [[0.5%float]] <= i ->
          QdrantClient.point_key (id chunk) = Some k ->
          QdrantClient.points col' !! k
          = QdrantClient.points docs_collection !! k).
Proof.
  apply (ingest_stores_embedded_chunks unit first_only_embedder whole_documents
           uuid_of_nat three_files fresh_ingestor stored_three.1
           stored_documents stored_documents tt [[0.5%float]] docs_collection).
  - vm_compute. reflexivity.
  - reflexivity.
  - intros id Hid. vm_compute in Hid.
    repeat (apply elem_of_cons in Hid as [->|Hid]; [vm_compute; eauto|]).
    now apply elem_of_nil in Hid.
  - refine (bool_decide_unpack _ _). vm_compute. exact I.
  - reflexivity.
  - vm_compute. lia.
  - intros e He. apply list_elem_of_singleton in He as ->. reflexivity.
  - reflexivity.
  - apply lookup_singleton_eq.
Defined.

Lemma surplus_embeddings_abort_witness :
  exists self',
    ingest_documents surplus_embedder whole_documents Py.str_of_nat
      three_files fresh_ingestor
    = (self', Raise Py.IndexError)
    /\ client self' = client fresh_ingestor
    /\ embeddings_generated (_stats self')
       = embeddings_generated (_stats fresh_ingestor)
    /\ chunks_created (_stats self')
       = (chunks_created (_stats fresh_ingestor)
          + Z.of_nat (length three_documents))%Z.
Proof.
  apply (surplus_embeddings_abort unit surplus_embedder whole_documents
           Py.str_of_nat three_files fresh_ingestor loaded_three.1
           three_documents three_documents tt
           ([0.25%float]
              :: map (fun _ => [0.5%float]) (map text three_documents))).
  - vm_compute. reflexivity.
  - reflexivity.
  - reflexivity.
  - vm_compute. lia.
Defined.

Definition shadowed_chunk : Document :=
  {| id := "c0"; text := "the chunk";
     metadata := [("source", Py.VStr "a.txt"); ("text", Py.VStr "shadow")] |}.

Lemma stored_payload_of_chunk_witness :
  Py.dict_get (Rest.payload (point_of shadowed_chunk [0.5%float])) "text" Py.VNone
  = Py.dict_get (metadata shadowed_chunk) "text" (Py.VStr (text shadowed_chunk))
  /\ forall k, k <> "text" ->
       Py.dict_get (Rest.payload (point_of shadowed_chunk [0.5%float])) k Py.VNone
       = Py.dict_get (metadata shadowed_chunk) k Py.VNone.
Proof.
  apply (stored_payload_of_chunk shadowed_chunk [0.5%float] Py.VNone).
  refine (bool_decide_unpack _ _). vm_compute. exact I.
Defined.

End IngestionExamples.

Section QdrantStoreExamples.

Import QdrantClient QdrantStore.

Lemma add_embeddings_rejects_mismatch_witness :
  exists msg,
    add_embeddings store_1024 ["alpha"; "beta"] [[0.5%float]] None None
      created_index
    = (created_index, Raise (Py.ValueError msg)).
Proof.
  apply (add_embeddings_rejects_mismatch store_1024 ["alpha"; "beta"]
           [[0.5%float]] None None created_index).
  left. simpl. lia.
Defined.

Definition tagged : list Py.dict :=
  [[("lang", Py.VStr "en")]; [("lang", Py.VStr "de")]].

Definition note_ids : list string :=
  ["00000000-0000-4000-8000-000000000001";
   "0000000000004000800000000000000A";
   "urn:uuid:00000000-0000-4000-8000-000000000003"].

Definition note_vectors : list (list float) :=
  [[0.5%float; 0.25%float]; [0.25%float; 0.5%float]].

Lemma add_embeddings_stores_points_witness :
  exists c' col',
    add_embeddings notes_store ["alpha"; "beta"] note_vectors (Some tagged)
      (Some note_ids) notes_index
    = (c', Ok (take (length ["alpha"; "beta"]) note_ids))
    /\ collections c' !! collection_name notes_store = Some col'
    /\ config col' = config notes_collection
    /\ (forall i t e m id k,
          ["alpha"; "beta"] !! i = Some t ->
          note_vectors !! i = Some e ->
          metadatas_or_empty (Some tagged) (length ["alpha"; "beta"]) !! i = Some m ->
          note_ids !! i = Some id -> point_key id = Some k ->
          points col' !! k
          = Some {| Rest.id := id;
                    Rest.vector := e;
                    Rest.payload :=
                      Py.dict_display
                        [(content_payload_key notes_store, Py.VStr t);
                         (metadata_payload_key notes_store, Py.VDict m)] |})
    /\ (forall k,
          k ∉ keys (take (length ["alpha"; "beta"]) note_ids) ->
          points col' !! k = points notes_collection !! k)
    /\ (forall n, n <> collection_name notes_store ->
          collections c' !! n = collections notes_index !! n).
Proof.
  apply (add_embeddings_stores_points notes_store notes_index notes_collection
           note_ids ["alpha"; "beta"] note_vectors (Some tagged)).
  - reflexivity.
  - apply lookup_singleton_eq.
  - discriminate.
  - reflexivity.
  - reflexivity.
  - simpl. lia.
  - intros id Hid. vm_compute in Hid.
    repeat (apply elem_of_cons in Hid as [->|Hid]; [vm_compute; eauto|]).
    now apply elem_of_nil in Hid.
  - refine (bool_decide_unpack _ _). vm_compute. exact I.
  - intros e He. unfold note_vectors in He.
    repeat (apply elem_of_cons in He as [->|He]; [reflexivity|]).
    now apply elem_of_nil in He.
Defined.

End QdrantStoreExamples.

(* ===================================================================== *)
(** * Properties of [JinaEmbedder] *)
(* ===================================================================== *)

Section JinaTraffic.

Import JinaEmbedder.

Variable E : env.
Variable self : JinaEmbedder.t.

Implicit Types (s : state) (p q : payload) (texts : list string).

(** Between [s] and [s'] the requests [new] were POSTed, each satisfying [P]. *)
Definition requests_since s s' (P : payload -> Prop) : Prop :=
  exists new, sent s' = (sent s ++ new)%list /\ Forall P new.

Lemma requests_since_refl s P : requests_since s s P.
Proof. exists []. split; [now rewrite app_nil_r|constructor]. Qed.

Lemma requests_since_trans s1 s2 s3 P :
  requests_since s1 s2 P -> requests_since s2 s3 P -> requests_since s1 s3 P.
Proof.
  intros (n1 & H1 & F1) (n2 & H2 & F2). exists (n1 ++ n2)%list.
  split; [now rewrite H2, H1, app_assoc|now apply Forall_app].
Qed.

Lemma requests_since_impl s s' (P Q : payload -> Prop) :
  (forall q, P q -> Q q) -> requests_since s s' P -> requests_since s s' Q.
Proof.
  intros HPQ (new & H & F). exists new. split; [exact H|].
  eapply Forall_impl; eassumption.
Qed.

Lemma once_traffic p s s' (r : Py.result (list item)) :
  _execute_async_request_once E self p s = (s', r) ->
  cache s' = cache s /\ requests_since s s' (fun q => q = p).
Proof.
  unfold _execute_async_request_once.
  destruct (no_api_key self && negb (allow_empty_api_key self)).
  { intros [= <- <-]. split; [reflexivity|apply requests_since_refl]. }
  destruct (no_api_key self && allow_empty_api_key self).
  { intros [= <- <-]. split; [reflexivity|apply requests_since_refl]. }
  intros [= <- <-]. split; [reflexivity|].
  exists [p]. split; [reflexivity|]. now constructor.
Qed.

Lemma retry_from_traffic p (k attempts : nat) s s' (r : Py.result (list item)) :
  _retry_from k attempts (_execute_async_request_once E self p) s = (s', r) ->
  cache s' = cache s /\ requests_since s s' (fun q => q = p).
Proof.
  revert k s. induction attempts as [|attempts IH]; intros k s; cbn [_retry_from].
  { intros [= <- <-]. split; [reflexivity|apply requests_since_refl]. }
  destruct (_execute_async_request_once E self p s) as [s1 r1] eqn:H1.
  apply once_traffic in H1 as [Hc1 Hr1].
  destruct r1 as [a|e]; [intros [= <- <-]; auto|].
  destruct (transient e); [|intros [= <- <-]; auto].
  destruct attempts as [|attempts']; [intros [= <- <-]; auto|].
  intros Hrec. apply IH in Hrec as [Hc2 Hr2]. cbn [cache set_slept] in Hc2.
  split; [congruence|].
  eapply requests_since_trans; [exact Hr1|].
  destruct Hr2 as (new & Hs & F). exists new. split; [exact Hs|exact F].
Qed.

Lemma get_embeddings_traffic texts s s' (r : Py.result (list vec)) :
  _get_embeddings E self texts s = (s', r) ->
  cache s' = cache s
  /\ requests_since s s'
       (fun q => q = {| input := texts; model := model_name self |} /\ texts <> []).
Proof.
  unfold _get_embeddings. destruct texts as [|t texts].
  { intros [= <- <-]. split; [reflexivity|apply requests_since_refl]. }
  unfold _execute_async_request, _retry.
  destruct (_retry_from _ _ _ _) as [s1 r1] eqn:H1.
  apply retry_from_traffic in H1 as [Hc Hr].
  intros Heq.
  assert (s' = s1) as ->.
  { destruct r1 as [results|e]; [destruct (embeddings_of results)|];
      now injection Heq. }
  split; [exact Hc|].
  eapply requests_since_impl; [|exact Hr]. intros q ->. split; [reflexivity|discriminate].
Qed.

(** A request that carries one of the slices
    [uncached_texts[i : i + batch_size]], and is not empty. *)
Definition batch_request (uncached_texts : list string) (q : payload) : Prop :=
  model q = model_name self
  /\ input q <> []
  /\ exists i, input q = firstn (Z.to_nat (batch_size self)) (skipn i uncached_texts).

Lemma batches_traffic (uncached_texts : list string) (starts : list nat)
    (acc : list vec) s s' (r : Py.result (list vec)) :
  Py.for_each starts
    (fun i acc =>
       let batch := firstn (Z.to_nat (batch_size self)) (skipn i uncached_texts) in
       (let* fresh := _get_embeddings E self batch in
        Py.ret (acc ++ fresh)%list)%py) acc s = (s', r) ->
  cache s' = cache s /\ requests_since s s' (batch_request uncached_texts).
Proof.
  revert acc s. induction starts as [|i starts IH]; intros acc s; cbn [Py.for_each].
  { intros [= <- <-]. split; [reflexivity|apply requests_since_refl]. }
  unfold Py.bind at 1. cbv zeta. unfold Py.bind at 1.
  destruct (_get_embeddings E self _ s) as [s1 r1] eqn:H1.
  apply get_embeddings_traffic in H1 as [Hc1 Hr1].
  assert (Hr1' : requests_since s s1 (batch_request uncached_texts)).
  { eapply requests_since_impl; [|exact Hr1].
    intros q [-> Hne]. unfold batch_request. cbn [model input]. eauto. }
  destruct r1 as [fresh|e].
  - unfold Py.ret at 1. intros Hrec. apply IH in Hrec as [Hc2 Hr2].
    split; [congruence|]. eapply requests_since_trans; eassumption.
  - intros [= <- <-]. auto.
Qed.

Lemma merge_sent (items : list (string * option vec)) (batched : list vec)
    (fresh_idx : nat) (result : list vec) s s' (r : Py.result (list vec)) :
  merge E self items batched fresh_idx result s = (s', r) ->
  sent s' = sent s.
Proof.
  revert fresh_idx result s.
  induction items as [|[text [cached|]] items IH]; intros fresh_idx result s;
    cbn [merge].
  - now intros [= <- <-].
  - apply IH.
  - destruct (batched !! fresh_idx) as [emb|]; [|now intros [= <- <-]].
    unfold Py.bind, _store_cache. intros Hrec. apply IH in Hrec. exact Hrec.
Qed.

End JinaTraffic.

Section JinaBatches.

Import JinaEmbedder.

Variable E : env.
Variable self : JinaEmbedder.t.

Implicit Types (s : state) (p q : payload) (texts : list string).

(** The texts of the items that have no cached vector, in order. *)
Fixpoint uncached_of (items : list (string * option vec)) : list string :=
  match items with
  | [] => []
  | (text, None) :: items' => text :: uncached_of items'
  | (_, Some _) :: items' => uncached_of items'
  end.

Definition is_cached (c : option vec) : bool :=
  match c with Some _ => true | None => false end.

Lemma uncached_texts_eq (pre texts : list string) (cached : list (option vec)) :
  length cached = length texts ->
  map (fun i => nth i (pre ++ texts)%list "")
    (uncached_indices_from (length pre) cached)
  = uncached_of (combine texts cached).
Proof.
  revert pre cached. induction texts as [|t texts IH]; intros pre [|c cached] Hlen;
    simpl in Hlen; try discriminate; [reflexivity|].
  assert (Hrest :
    map (fun i => nth i (pre ++ t :: texts)%list "")
      (uncached_indices_from (S (length pre)) cached)
    = uncached_of (combine texts cached)).
  { specialize (IH (pre ++ [t])%list cached).
    rewrite length_app, Nat.add_1_r, <- app_assoc in IH. apply IH. lia. }
  destruct c as [v|]; cbn [uncached_indices_from combine uncached_of map].
  - exact Hrest.
  - rewrite Hrest. f_equal. apply nth_middle.
Qed.

Lemma uncached_of_elem (check : string -> option vec) texts (t : string) :
  t ∈ uncached_of (combine texts (map check texts)) ->
  t ∈ texts /\ check t = None.
Proof.
  induction texts as [|t0 texts IH]; cbn [map combine uncached_of].
  - intros H. inversion H.
  - destruct (check t0) eqn:Hc.
    + intros H. apply IH in H as [Hin Hnone]. split; [now right|exact Hnone].
    + intros H. apply elem_of_cons in H as [->|H].
      * split; [left|exact Hc].
      * apply IH in H as [Hin Hnone]. split; [now right|exact Hnone].
Qed.

Lemma uncached_of_nil (check : string -> option vec) texts :
  forallb is_cached (map check texts) = true ->
  uncached_of (combine texts (map check texts)) = [].
Proof.
  induction texts as [|t0 texts IH]; cbn [map combine uncached_of forallb];
    [reflexivity|].
  destruct (check t0); cbn [is_cached andb]; [exact IH|discriminate].
Qed.

Lemma merge_raises_index (items : list (string * option vec)) (batched : list vec)
    (fresh_idx : nat) (result : list vec) s s' e :
  merge E self items batched fresh_idx result s = (s', Raise e) ->
  e = Py.IndexError.
Proof.
  revert fresh_idx result s.
  induction items as [|[text [cached|]] items IH]; intros fresh_idx result s;
    cbn [merge].
  - discriminate.
  - apply IH.
  - destruct (batched !! fresh_idx) as [emb|]; [|now intros [= <- <-]].
    unfold Py.bind, _store_cache. apply IH.
Qed.

Lemma merge_without_vectors (items : list (string * option vec))
    (fresh_idx : nat) (result : list vec) s :
  uncached_of items <> [] ->
  merge E self items [] fresh_idx result s = (s, Raise Py.IndexError).
Proof.
  revert result. induction items as [|[text [cached|]] items IH]; intros result;
    cbn [merge uncached_of].
  - congruence.
  - intros H. now apply IH.
  - intros _. reflexivity.
Qed.

(** The unfolding of [embed_async_many] on a list with an uncached text. *)
Lemma embed_async_many_uncached texts s :
  texts <> [] ->
  forallb is_cached (map (fun text => _check_cache E self text s) texts) = false ->
  embed_async_many E self texts s
  = match range_from_zero
            (length (uncached_of
                       (combine texts
                          (map (fun text => _check_cache E self text s) texts))))
            (batch_size self) with
    | Raise e => (s, Raise e)
    | Ok starts =>
        match send_batches E self
                (uncached_of
                   (combine texts
                      (map (fun text => _check_cache E self text s) texts)))
                starts s with
        | (s1, Raise e) => (s1, Raise e)
        | (s1, Ok batched_embeddings) =>
            match merge E self
                    (combine texts
                       (map (fun text => _check_cache E self text s) texts))
                    batched_embeddings 0 [] s1 with
            | (s2, Raise e) => (s2, Raise e)
            | (s2, Ok result) =>
                (set_stats (stats s2 ++ [{| hit := false; error := false |}]) s2,
                 Ok result)
            end
        end
    end.
Proof.
  intros Hne Hmiss. unfold embed_async_many.
  destruct texts as [|t texts]; [congruence|].
  fold (is_cached). cbv zeta.
  change (forallb _ (map (fun text => _check_cache E self text s) (t :: texts)))
    with (forallb is_cached
            (map (fun text => _check_cache E self text s) (t :: texts))).
  rewrite Hmiss.
  pose proof (uncached_texts_eq [] (t :: texts)
                (map (fun text => _check_cache E self text s) (t :: texts))) as Hu.
  cbn [length app] in Hu. rewrite length_map in Hu. specialize (Hu eq_refl).
  cbn [length] in Hu |- *. rewrite Hu.
  unfold Py.bind, Py.lift.
  destruct (range_from_zero _ _) as [starts|e]; [|reflexivity].
  destruct (send_batches E self _ starts s) as [s1 [batched|e]]; [|reflexivity].
  destruct (merge E self _ batched 0 [] s1) as [s2 [result|e]]; reflexivity.
Qed.

(** [embed_async_many] on a list whose texts are all cached. *)
Lemma all_cached_run texts s :
  texts <> [] ->
  forallb is_cached (map (fun text => _check_cache E self text s) texts) = true ->
  embed_async_many E self texts s
  = (set_stats (stats s ++ [{| hit := true; error := false |}]) s,
     Ok (omap id (map (fun text => _check_cache E self text s) texts))).
Proof.
  intros Hne Hall. unfold embed_async_many.
  destruct texts as [|t texts]; [congruence|].
  change (forallb _ (map (fun text => _check_cache E self text s) (t :: texts)))
    with (forallb is_cached
            (map (fun text => _check_cache E self text s) (t :: texts))).
  rewrite Hall. reflexivity.
Qed.

Lemma all_cached_values texts s :
  (forall t, t ∈ texts -> is_Some (_check_cache E self t s)) ->
  forallb is_cached (map (fun text => _check_cache E self text s) texts) = true
  /\ Forall2 (fun t v => _check_cache E self t s = Some v) texts
       (omap id (map (fun text => _check_cache E self text s) texts)).
Proof.
  intros Hall.
  induction texts as [|t texts IH]; [split; [reflexivity|constructor]|].
  destruct IH as [IH1 IH2]; [intros t' Ht'; apply Hall; now right|].
  destruct (Hall t) as [v Hv]; [left|].
  cbn [map forallb omap]. rewrite Hv. cbn [is_cached andb id].
  split; [exact IH1|]. cbn. constructor; assumption.
Qed.

Lemma all_cached_elem texts s :
  forallb is_cached (map (fun text => _check_cache E self text s) texts) = true ->
  forall t, t ∈ texts -> is_Some (_check_cache E self t s).
Proof.
  induction texts as [|t texts IH]; intros Hall t' Ht'; [inversion Ht'|].
  cbn [map forallb] in Hall. apply andb_prop in Hall as [Ht Hall].
  apply elem_of_cons in Ht' as [->|Ht']; [|now apply IH].
  destruct (_check_cache E self t s); [eauto|discriminate].
Qed.

(** The requests of a call of [embed_async_many]. *)
Lemma requests_are_uncached_batches texts s :
  requests_since s (embed_async_many E self texts s).1
    (fun q =>
       model q = model_name self
       /\ input q <> []
       /\ (Z.of_nat (length (input q)) <= batch_size self)%Z
       /\ forall t, t ∈ input q ->
            t ∈ texts /\ _check_cache E self t s = None).
Proof.
  destruct texts as [|t0 texts0] eqn:Htexts; [apply requests_since_refl|].
  rewrite <- Htexts.
  destruct (forallb is_cached (map (fun text => _check_cache E self text s) texts))
    eqn:Hall.
  { rewrite all_cached_run; [|rewrite Htexts; discriminate|exact Hall].
    cbn [fst]. exists []. cbn [sent set_stats].
    split; [now rewrite app_nil_r|constructor]. }
  rewrite embed_async_many_uncached; [|rewrite Htexts; discriminate|exact Hall].
  destruct (range_from_zero _ _) as [starts|e]; [|apply requests_since_refl].
  unfold send_batches.
  destruct (Py.for_each starts _ [] s) as [s1 r1] eqn:Hsend.
  apply batches_traffic in Hsend as [_ Hreq].
  assert (Hreq' : requests_since s s1
            (fun q =>
               model q = model_name self
               /\ input q <> []
               /\ (Z.of_nat (length (input q)) <= batch_size self)%Z
               /\ forall t, t ∈ input q ->
                    t ∈ texts /\ _check_cache E self t s = None)).
  { eapply requests_since_impl; [|exact Hreq].
    intros q (Hm & Hne & i & Hi). split; [exact Hm|]. split; [exact Hne|]. split.
    - assert (Hlen : length (input q) <= Z.to_nat (batch_size self)).
      { rewrite Hi. apply firstn_le_length. }
      destruct (input q) as [|x xs] eqn:Hq; [congruence|]. simpl in Hlen |- *. lia.
    - intros t Ht. apply (uncached_of_elem (fun text => _check_cache E self text s)).
      rewrite Hi in Ht.
      eapply elem_of_sublist; [exact Ht|].
      etransitivity; [apply sublist_take|apply sublist_drop]. }
  destruct r1 as [batched|e]; [|exact Hreq'].
  destruct (merge E self _ batched 0 [] s1) as [s2 [r2|e2]] eqn:Hmerge;
    apply merge_sent in Hmerge;
    destruct Hreq' as (new & Hs & F); exists new;
    (split; [cbn; congruence|exact F]).
Qed.

(** X14: What a call may send: every request that [embed_async_many] POSTs, on
    whatever outcome and whatever the service answers, names the embedder's
    model and carries a non-empty batch of at most [batch_size] texts, each
    of them a text of the input list that had no cached vector when the call
    began. *)
Theorem embed_async_many_batches texts s :
  requests_since s (embed_async_many E self texts s).1
    (fun q =>
       model q = model_name self
       /\ input q <> []
       /\ (Z.of_nat (length (input q)) <= batch_size self)%Z
       /\ forall t, t ∈ input q ->
            t ∈ texts /\ _check_cache E self t s = None).
Proof. apply requests_are_uncached_batches. Qed.

(** X15: A list of texts that are all cached is answered from the cache:
    the result holds, position by position, the cached vector of the text;
    no request is sent, nothing waits, nothing is written to the cache, and
    the one thing the call does to the embedder is to report a hit to
    [_update_stats] (not even that when the list is empty). *)
Theorem embed_async_many_all_cached texts s :
  (forall t, t ∈ texts -> is_Some (_check_cache E self t s)) ->
  exists result,
    embed_async_many E self texts s
    = (match texts with
       | [] => s
       | _ => {| cache := cache s; sent := sent s; slept := slept s;
                 stats := stats s ++ [{| hit := true; error := false |}] |}
       end, Ok result)
    /\ Forall2 (fun t v => _check_cache E self t s = Some v) texts result.
Proof.
  intros Hall. destruct (all_cached_values texts s Hall) as [Hmap1 Hmap2].
  eexists. split; [|exact Hmap2].
  destruct texts as [|t texts]; [reflexivity|].
  now rewrite all_cached_run.
Qed.

(** X16: A call that fails with [EmbeddingError], that is, at one of its
    requests, has written nothing into the cache: vectors are stored only
    once every batch has been answered. *)
Theorem request_failure_leaves_cache texts s s' (msg : string)
    (cause : option Py.exn) :
  embed_async_many E self texts s = (s', Raise (Py.EmbeddingError msg cause)) ->
  cache s' = cache s.
Proof.
  destruct texts as [|t0 texts0] eqn:Htexts; [discriminate|].
  rewrite <- Htexts.
  destruct (forallb is_cached (map (fun text => _check_cache E self text s) texts))
    eqn:Hall.
  { rewrite all_cached_run; [|rewrite Htexts; discriminate|exact Hall].
    discriminate. }
  rewrite embed_async_many_uncached; [|rewrite Htexts; discriminate|exact Hall].
  unfold range_from_zero.
  destruct (batch_size self =? 0)%Z; [discriminate|].
  match goal with |- context [if ?b then Ok [] else Ok ?l] =>
    set (starts := if b then Ok [] else Ok l);
    assert (Hstarts : exists l', starts = Ok l') by (unfold starts; destruct b; eauto)
  end.
  destruct Hstarts as [l' ->].
  unfold send_batches.
  destruct (Py.for_each l' _ [] s) as [s1 r1] eqn:Hsend.
  apply batches_traffic in Hsend as [Hc _].
  destruct r1 as [batched|e]; [|now intros [= <- _]].
  destruct (merge E self _ batched 0 [] s1) as [s2 [r2|e2]] eqn:Hmerge;
    [discriminate|].
  intros [= <- ->]. apply merge_raises_index in Hmerge. discriminate.
Qed.

(** X17: A batch size that is not positive makes every call with an uncached text
    fail before anything is sent or stored: [range] rejects the step 0 with
    [ValueError], and a negative step yields no batch at all, so that the
    merge finds no vector and raises [IndexError]. *)
Theorem nonpositive_batch_size texts s :
  (batch_size self <= 0)%Z ->
  (exists t, t ∈ texts /\ _check_cache E self t s = None) ->
  embed_async_many E self texts s
  = (s, Raise (if (batch_size self =? 0)%Z
               then Py.ValueError "range() arg 3 must not be zero"
               else Py.IndexError)).
Proof.
  intros Hbs (t & Ht & Hnone).
  assert (Hmiss : uncached_of
                    (combine texts
                       (map (fun text => _check_cache E self text s) texts)) <> []).
  { clear Hbs. induction texts as [|t0 texts IH]; [inversion Ht|].
    cbn [map combine uncached_of].
    apply elem_of_cons in Ht as [<-|Ht]; [rewrite Hnone; discriminate|].
    destruct (_check_cache E self t0 s); [now apply IH|discriminate]. }
  assert (Hall : forallb is_cached
                   (map (fun text => _check_cache E self text s) texts) = false).
  { destruct (forallb _ _) eqn:Hall; [|reflexivity].
    apply uncached_of_nil in Hall. contradiction. }
  rewrite embed_async_many_uncached; [|intros ->; inversion Ht|exact Hall].
  unfold range_from_zero.
  destruct (batch_size self =? 0)%Z eqn:Hz; [reflexivity|].
  assert (Hneg : (batch_size self <? 0)%Z = true).
  { apply Z.ltb_lt. apply Z.eqb_neq in Hz. lia. }
  rewrite Hneg. unfold send_batches. cbn [Py.for_each]. unfold Py.ret.
  now rewrite merge_without_vectors.
Qed.

End JinaBatches.

Section Slices.

Context {A : Type}.

Lemma firstn_add (n m : nat) (l : list A) :
  firstn (n + m) l = (firstn n l ++ firstn m (skipn n l))%list.
Proof.
  revert l. induction n as [|n IH]; intros l; [reflexivity|].
  destruct l as [|x l]; simpl; [now destruct m|]. now rewrite IH.
Qed.

(** Consecutive slices of width [step] put together again. *)
Lemma slices_from (step : nat) (l : list A) (a cnt : nat) :
  concat (map (fun i => firstn step (skipn i l))
            (map (fun k => k * step) (seq a cnt)))
  = firstn (cnt * step) (skipn (a * step) l).
Proof.
  revert a. induction cnt as [|cnt IH]; intros a; [reflexivity|].
  cbn [seq map concat]. rewrite IH.
  replace (S cnt * step) with (step + cnt * step) by lia.
  rewrite firstn_add. f_equal. f_equal.
  rewrite drop_drop. f_equal. lia.
Qed.

Lemma slices_cover (step : nat) (l : list A) :
  0 < step ->
  concat (map (fun i => firstn step (skipn i l))
            (map (fun k => k * step) (seq 0 ((length l + step - 1) / step))))
  = l.
Proof.
  intros Hstep. rewrite slices_from. cbn [Nat.mul skipn].
  apply firstn_all2.
  pose proof (Nat.div_mod_eq (length l + step - 1) step) as Hdiv.
  pose proof (Nat.mod_upper_bound (length l + step - 1) step) as Hmod.
  nia.
Qed.

End Slices.

Section JinaAnswers.

Import JinaEmbedder.

Variable E : env.
Variable self : JinaEmbedder.t.

(** The vector of a text: the mock vector without an API key, otherwise the
    vector [f text] of the service. *)
Definition embedding_of (f : string -> vec) (text : string) : vec :=
  if no_api_key self then mock_vector E self text else f text.

(** The service answers every request with one item for each of its texts,
    in order, which carries the vector of the text. *)
Definition answers_with (f : string -> vec) : Prop :=
  forall earlier p, post E earlier p = Ok (map (fun t => Some (f t)) (input p)).

(** The embedder has an API key or is allowed to work without one, which
    [__init__] checks before anything else. *)
Definition usable : Prop :=
  no_api_key self && negb (allow_empty_api_key self) = false.

Variable f : string -> vec.
Hypothesis Husable : usable.
Hypothesis Hanswers : answers_with f.

Implicit Types (s : state) (p : payload) (texts : list string).

Lemma embeddings_of_some {A} (g : A -> vec) (l : list A) :
  embeddings_of (map (fun a => Some (g a)) l) = Ok (map g l).
Proof.
  induction l as [|a l IH]; [reflexivity|].
  cbn [map embeddings_of item_embedding]. now rewrite IH.
Qed.

Lemma once_answers p s :
  exists s1,
    _execute_async_request_once E self p s
    = (s1, Ok (map (fun t => Some (embedding_of f t)) (input p)))
    /\ cache s1 = cache s
    /\ (no_api_key self = true -> s1 = s).
Proof.
  unfold _execute_async_request_once, embedding_of. rewrite Husable.
  destruct (no_api_key self) eqn:Hk; cbn [andb].
  - unfold usable in Husable. rewrite Hk in Husable. cbn [andb] in Husable.
    apply negb_false_iff in Husable. rewrite Husable.
    exists s. auto.
  - eexists. rewrite Hanswers. split; [reflexivity|].
    split; [reflexivity|discriminate].
Qed.

Lemma get_embeddings_answers texts s :
  exists s1,
    _get_embeddings E self texts s = (s1, Ok (map (embedding_of f) texts))
    /\ cache s1 = cache s
    /\ (no_api_key self = true -> s1 = s).
Proof.
  unfold _get_embeddings. destruct texts as [|t texts]; [exists s; auto|].
  unfold _execute_async_request, _retry. cbn [_retry_from].
  destruct (once_answers {| input := t :: texts; model := model_name self |} s)
    as (s1 & -> & Hc & Hs).
  cbn [input]. rewrite embeddings_of_some.
  exists s1. auto.
Qed.

Lemma batches_answers (uncached_texts : list string) (starts : list nat)
    (acc : list vec) s :
  exists s1,
    Py.for_each starts
      (fun i acc =>
         let batch := firstn (Z.to_nat (batch_size self)) (skipn i uncached_texts) in
         (let* fresh := _get_embeddings E self batch in
          Py.ret (acc ++ fresh)%list)%py) acc s
    = (s1, Ok (acc ++ map (embedding_of f)
                        (concat (map (fun i => firstn (Z.to_nat (batch_size self))
                                                 (skipn i uncached_texts))
                                   starts)))%list)
    /\ cache s1 = cache s
    /\ (no_api_key self = true -> s1 = s).
Proof.
  revert acc s. induction starts as [|i starts IH]; intros acc s; cbn [Py.for_each].
  { exists s. cbn. rewrite app_nil_r. auto. }
  unfold Py.bind at 1. cbv zeta. unfold Py.bind at 1.
  destruct (get_embeddings_answers
              (firstn (Z.to_nat (batch_size self)) (skipn i uncached_texts)) s)
    as (s1 & -> & Hc1 & Hs1).
  unfold Py.ret at 1.
  destruct (IH (acc ++ map (embedding_of f)
                        (firstn (Z.to_nat (batch_size self))
                           (skipn i uncached_texts)))%list s1)
    as (s2 & Hrun & Hc2 & Hs2).
  exists s2. cbn [map concat]. rewrite map_app, app_assoc.
  split; [exact Hrun|]. split; [congruence|].
  intros Hk. rewrite (Hs2 Hk). now apply Hs1.
Qed.

(** The vector the call returns for an item. *)
Definition resolve (item : string * option vec) : vec :=
  match item.2 with
  | Some cached => cached
  | None => embedding_of f item.1
  end.

Lemma merge_answers (items : list (string * option vec)) (pre : list vec)
    (result : list vec) s :
  exists s',
    merge E self items (pre ++ map (embedding_of f) (uncached_of items))%list
      (length pre) result s
    = (s', Ok (result ++ map resolve items)%list)
    /\ sent s' = sent s.
Proof.
  revert pre result s.
  induction items as [|[text [cached|]] items IH]; intros pre result s;
    cbn [merge uncached_of map].
  - exists s. rewrite app_nil_r. auto.
  - destruct (IH pre (result ++ [cached])%list s) as (s' & -> & Hs).
    exists s'. rewrite <- app_assoc. auto.
  - rewrite lookup_app_r by lia. rewrite Nat.sub_diag. cbn [lookup list_lookup].
    unfold Py.bind, _store_cache.
    destruct (IH (pre ++ [embedding_of f text])%list
                (result ++ [embedding_of f text])%list
                (set_cache (<[cache_key E self text := embedding_of f text]>
                              (cache s)) s))
      as (s' & Hrun & Hs).
    rewrite length_app, Nat.add_1_r, <- app_assoc in Hrun. cbn [app] in Hrun.
    exists s'. rewrite Hrun, <- app_assoc. auto.
Qed.

Lemma resolve_combine (check : string -> option vec) texts :
  map resolve (combine texts (map check texts))
  = map (fun t => match check t with
                  | Some cached => cached
                  | None => embedding_of f t
                  end) texts.
Proof.
  induction texts as [|t texts IH]; [reflexivity|].
  cbn [map combine]. now rewrite IH.
Qed.

(** The result of a call when every request is answered. *)
Lemma embed_async_many_resolves texts s :
  (0 < batch_size self)%Z ->
  exists s',
    embed_async_many E self texts s
    = (s', Ok (map (fun t => match _check_cache E self t s with
                             | Some cached => cached
                             | None => embedding_of f t
                             end) texts))
    /\ (no_api_key self = true -> sent s' = sent s).
Proof.
  intros Hbs.
  destruct texts as [|t0 texts0] eqn:Htexts; [exists s; auto|].
  rewrite <- Htexts.
  destruct (forallb is_cached (map (fun text => _check_cache E self text s) texts))
    eqn:Hall.
  { rewrite all_cached_run; [|rewrite Htexts; discriminate|exact Hall].
    assert (Hvalues :
      omap id (map (fun text => _check_cache E self text s) texts)
      = map (fun t => match _check_cache E self t s with
                      | Some cached => cached
                      | None => embedding_of f t
                      end) texts).
    { clear Htexts. induction texts as [|t texts IH]; [reflexivity|].
      cbn [map forallb] in Hall. apply andb_prop in Hall as [Ht Hall].
      cbn [map omap]. destruct (_check_cache E self t s); [|discriminate].
      cbn. f_equal. now apply IH. }
    rewrite Hvalues. eexists. split; [reflexivity|intros _; reflexivity]. }
  rewrite embed_async_many_uncached; [|rewrite Htexts; discriminate|exact Hall].
  unfold range_from_zero.
  assert (Hz : (batch_size self =? 0)%Z = false) by (apply Z.eqb_neq; lia).
  assert (Hn : (batch_size self <? 0)%Z = false) by (apply Z.ltb_ge; lia).
  rewrite Hz, Hn. unfold send_batches.
  match goal with |- context [Py.for_each ?starts ?body [] s] =>
    destruct (batches_answers
                (uncached_of
                   (combine texts
                      (map (fun text => _check_cache E self text s) texts)))
                starts [] s) as (s1 & Hrun & Hc1 & Hs1);
    set (run := Py.for_each starts body [] s)
  end.
  rewrite slices_cover in Hrun by lia. cbn [app] in Hrun.
  match type of Hrun with _ = ?rhs =>
    assert (Hrun' : run = rhs) by exact Hrun
  end.
  rewrite Hrun'.
  destruct (merge_answers
              (combine texts (map (fun text => _check_cache E self text s) texts))
              [] [] s1) as (s2 & Hmerge & Hsent).
  cbn [app length] in Hmerge. rewrite Hmerge, resolve_combine.
  eexists. split; [reflexivity|].
  intros Hk. cbn [sent set_stats]. rewrite Hsent. now rewrite (Hs1 Hk).
Qed.

(** X18: Length and order are preserved. With a positive batch size, an embedder
    that [__init__] could have returned and a service that answers every
    request with the vectors of its texts in order, [embed_async_many]
    succeeds on every list of texts, and its result holds at each position
    the vector of the text at that position: the vector cached when the call
    began, or else the service's (without an API key, the mock) vector of the
    text. Without an API key no request is sent. *)
Theorem embed_async_many_answers texts s :
  (0 < batch_size self)%Z ->
  exists s',
    embed_async_many E self texts s
    = (s', Ok (map (fun t => match _check_cache E self t s with
                             | Some cached => cached
                             | None => embedding_of f t
                             end) texts))
    /\ (no_api_key self = true -> sent s' = sent s).
Proof. apply embed_async_many_resolves. Qed.

(** Every vector in the cache is the vector of its text. *)
Definition cache_sound (s : state) : Prop :=
  forall t v, _check_cache E self t s = Some v -> v = embedding_of f t.

End JinaAnswers.

Section JinaSingle.

Import JinaEmbedder.

Variable E : env.
Variable self : JinaEmbedder.t.

Implicit Types (s : state) (text : string).

Lemma range_single (step : Z) :
  (0 < step)%Z -> range_from_zero 1 step = Ok [0].
Proof.
  intros Hstep. unfold range_from_zero.
  assert (Hz : (step =? 0)%Z = false) by (apply Z.eqb_neq; lia).
  assert (Hn : (step <? 0)%Z = false) by (apply Z.ltb_ge; lia).
  rewrite Hz, Hn. cbv zeta.
  replace (1 + Z.to_nat step - 1) with (Z.to_nat step) by lia.
  rewrite Nat.div_same by lia. reflexivity.
Qed.

(** [embed_async_many] on a one-element list whose text is not cached. *)
Lemma embed_async_many_one text s :
  (0 < batch_size self)%Z ->
  _check_cache E self text s = None ->
  embed_async_many E self [text] s
  = match _execute_async_request E self
            {| input := [text]; model := model_name self |} s with
    | (s1, Raise e) =>
        (s1, Raise (Py.EmbeddingError "Jina embedding failed" (Some e)))
    | (s1, Ok result) =>
        match embeddings_of result with
        | Raise e =>
            (s1, Raise (Py.EmbeddingError "Jina embedding failed" (Some e)))
        | Ok [] => (s1, Raise Py.IndexError)
        | Ok (embedding :: _) =>
            ({| cache := <[cache_key E self text := embedding]> (cache s1);
                sent := sent s1; slept := slept s1;
                stats := stats s1 ++ [{| hit := false; error := false |}] |},
             Ok [embedding])
        end
    end.
Proof.
  intros Hbs Hc.
  rewrite embed_async_many_uncached;
    [|discriminate|cbn [map forallb]; now rewrite Hc].
  cbn [map combine]. rewrite Hc. cbn [uncached_of length].
  rewrite range_single by assumption.
  unfold send_batches. cbn [Py.for_each]. unfold Py.bind at 1. cbv zeta.
  assert (Hbatch : firstn (Z.to_nat (batch_size self)) (skipn 0 [text]) = [text]).
  { destruct (Z.to_nat (batch_size self)) as [|n] eqn:Hn; [lia|].
    cbn. now destruct n. }
  rewrite Hbatch. unfold Py.bind at 1. unfold _get_embeddings.
  destruct (_execute_async_request E self _ s) as [s1 [result|e]];
    [|reflexivity].
  destruct (embeddings_of result) as [[|embedding embeddings]|e];
    reflexivity.
Qed.

(** X19: With a positive batch size, [embed_async_many] on a one-element
    list and [embed_async_single] on its element send the same requests and
    wait alike, and they agree in everything (the write to the cache, the
    call of [_update_stats], the vector, the exception) when the text is
    cached or the request is answered with items that all carry an
    embedding. They differ when the request fails: both raise the same
    [EmbeddingError], but only [embed_async_single] reports an error to
    [_update_stats]; and when the first item of the answer carries no
    embedding: [embed_async_many] raises [EmbeddingError], and
    [embed_async_single] a bare [KeyError]. *)
Theorem embed_async_many_singleton text s s1 (r : Py.result (list item)) :
  (0 < batch_size self)%Z ->
  _execute_async_request E self {| input := [text]; model := model_name self |} s
  = (s1, r) ->
  (is_Some (_check_cache E self text s)
   \/ (exists result embeddings,
         r = Ok result /\ embeddings_of result = Ok embeddings) ->
   embed_async_many E self [text] s
   = match embed_async_single E self text s with
     | (s', Ok embedding) => (s', Ok [embedding])
     | (s', Raise e) => (s', Raise e)
     end)
  /\ (forall e,
        _check_cache E self text s = None -> r = Raise e ->
        embed_async_many E self [text] s
        = (s1, Raise (Py.EmbeddingError "Jina embedding failed" (Some e)))
        /\ embed_async_single E self text s
           = ({| cache := cache s1; sent := sent s1; slept := slept s1;
                 stats := stats s1 ++ [{| hit := false; error := true |}] |},
              Raise (Py.EmbeddingError "Jina embedding failed" (Some e))))
  /\ (forall rest,
        _check_cache E self text s = None -> r = Ok (None :: rest) ->
        embed_async_many E self [text] s
        = (s1, Raise (Py.EmbeddingError "Jina embedding failed"
                        (Some (Py.KeyError "embedding"))))
        /\ embed_async_single E self text s
           = (s1, Raise (Py.KeyError "embedding"))).
Proof.
  intros Hbs Hrequest. split; [|split].
  - intros Hfull. unfold embed_async_single.
    destruct (_check_cache E self text s) as [cached|] eqn:Hc.
    + unfold embed_async_many. cbn [map forallb]. rewrite Hc. reflexivity.
    + destruct Hfull as [[? [=]]|(result & embeddings & -> & Hall)].
      rewrite (embed_async_many_one text s Hbs Hc), Hrequest, Hall.
      destruct result as [|[v|] result]; cbn [embeddings_of item_embedding] in Hall.
      * injection Hall as <-. reflexivity.
      * destruct (embeddings_of result); [|discriminate].
        injection Hall as <-. reflexivity.
      * discriminate.
  - intros e Hc ->. rewrite (embed_async_many_one text s Hbs Hc).
    unfold embed_async_single. rewrite Hc, Hrequest. split; reflexivity.
  - intros rest Hc ->. rewrite (embed_async_many_one text s Hbs Hc).
    unfold embed_async_single. rewrite Hc, Hrequest. split; reflexivity.
Qed.

(** X20: [embed_sync] and [embed_async_single] agree on a cached text, without an
    API key (the mock vector), and whenever the first POST is answered with
    at least one item and the first item carries a vector: the same vector,
    the same request, the same write to the cache and the same call of
    [_update_stats]. *)
Theorem embed_sync_agrees text s :
  usable self ->
  (_check_cache E self text s = None -> no_api_key self = false ->
   exists embedding rest,
     post E (sent s) {| input := [text]; model := model_name self |}
     = Ok (Some embedding :: rest)) ->
  embed_sync E self text s = embed_async_single E self text s.
Proof.
  intros Husable Hpost. unfold embed_sync, embed_async_single.
  destruct (_check_cache E self text s) as [cached|]; [reflexivity|].
  unfold _execute_async_request, _retry. cbn [_retry_from].
  unfold _execute_async_request_once. unfold usable in Husable. rewrite Husable.
  destruct (no_api_key self) eqn:Hk; cbn [andb] in *.
  - apply negb_false_iff in Husable. rewrite Husable. reflexivity.
  - destruct (Hpost eq_refl eq_refl) as (embedding & rest & ->). reflexivity.
Qed.

(** X21: [embed_sync] never sends more than one request, and none for a cached
    text; a POST that fails makes it raise [EmbeddingError] at once, without
    a second attempt and without writing to the cache: the request is sent
    and an error is reported to [_update_stats], nothing else. *)
Theorem embed_sync_one_request text s :
  (exists new,
     sent (embed_sync E self text s).1 = (sent s ++ new)%list
     /\ length new <= 1
     /\ (is_Some (_check_cache E self text s) -> new = []))
  /\ (forall e,
        _check_cache E self text s = None ->
        no_api_key self && allow_empty_api_key self = false ->
        post E (sent s) {| input := [text]; model := model_name self |} = Raise e ->
        embed_sync E self text s
        = ({| cache := cache s;
              sent := sent s ++ [{| input := [text]; model := model_name self |}];
              slept := slept s;
              stats := stats s ++ [{| hit := false; error := true |}] |},
           Raise (Py.EmbeddingError "Failed to embed text" (Some e)))).
Proof.
  split.
  - unfold embed_sync.
    destruct (_check_cache E self text s) as [cached|] eqn:Hc.
    + exists []. cbn. rewrite app_nil_r. auto.
    + destruct (no_api_key self && allow_empty_api_key self).
      * exists []. cbn. rewrite app_nil_r.
        split; [reflexivity|]. split; [lia|]. intros [? ?]; discriminate.
      * exists [{| input := [text]; model := model_name self |}].
        cbv zeta.
        destruct (post E (sent s) _) as [[|[embedding|] rest]|e]; cbn;
          (split; [reflexivity|]; split; [lia|]; intros [? ?]; discriminate).
  - intros e Hc Hmode Hpost. unfold embed_sync. rewrite Hc, Hmode. cbv zeta.
    now rewrite Hpost.
Qed.

End JinaSingle.

Section JinaConstruction.

Import JinaEmbedder.

(** X22: What [__init__] does before it hands over to
    [BaseEmbedder.__init__]. When neither the argument nor the setting gives
    a non-empty key and working without one is not allowed, it raises
    [EmbeddingError], and [BaseEmbedder.__init__] is not run. In every other
    case its outcome is that of [BaseEmbedder.__init__] on the model name and
    an object that has the timeout, the number of retries, the batch size and
    the flag as given, and as its key the argument when that is a non-empty
    string, and the setting otherwise. *)
Theorem init_outcome (model_name : string) (api_key : option string)
    (max_retries timeout batch_size : Z) (allow_empty_api_key : bool)
    (settings_key : option string)
    (super_init : assigned -> string -> Py.result t) :
  ((forall k, api_key = Some k -> k = "") ->
   (forall k, settings_key = Some k -> k = "") ->
   allow_empty_api_key = false ->
   __init__ model_name api_key max_retries timeout batch_size
     allow_empty_api_key settings_key super_init
   = Raise (Py.EmbeddingError "Jina API key not provided" None))
  /\ ((exists k, (api_key = Some k \/ settings_key = Some k) /\ k <> "")
      \/ allow_empty_api_key = true ->
      exists key,
        __init__ model_name api_key max_retries timeout batch_size
          allow_empty_api_key settings_key super_init
        = super_init
            {| assigned_api_key := key;
               assigned_timeout := timeout;
               assigned_max_retries := max_retries;
               assigned_batch_size := batch_size;
               assigned_allow_empty_api_key := allow_empty_api_key |}
            model_name
        /\ (forall k, api_key = Some k -> k <> "" -> key = Some k)
        /\ (api_key = None \/ api_key = Some "" -> key = settings_key)).
Proof.
  unfold __init__. cbv zeta. split.
  - intros Harg Hset ->. unfold Py.or_.
    destruct api_key as [k|].
    + rewrite (Harg k eq_refl). cbn [String.eqb].
      destruct settings_key as [k'|]; [|reflexivity].
      now rewrite (Hset k' eq_refl).
    + destruct settings_key as [k'|]; [|reflexivity].
      now rewrite (Hset k' eq_refl).
  - intros Hkey. exists (Py.or_ api_key settings_key).
    assert (Hguard :
      match Py.or_ api_key settings_key with
      | Some k => String.eqb k ""
      | None => true
      end && negb allow_empty_api_key = false).
    { destruct Hkey as [(k & Hk & Hne)| ->]; [|apply andb_false_r].
      apply String.eqb_neq in Hne. unfold Py.or_.
      destruct Hk as [-> | ->].
      - now rewrite Hne, Hne.
      - destruct api_key as [k'|]; [|now rewrite Hne].
        destruct (String.eqb k' "") eqn:Hk'; [now rewrite Hne|now rewrite Hk']. }
    rewrite Hguard. split; [reflexivity|]. split.
    + intros k -> Hne. apply String.eqb_neq in Hne. unfold Py.or_.
      now rewrite Hne.
    + intros [-> | ->]; reflexivity.
Qed.

(** X23: The dimension table has one key, whose last value 1024 is the one that
    counts: whatever the model name, a mock vector is drawn with 1024
    components, and the dimension of the model of the table is 1024, found
    without any request. *)
Theorem dimension_is_1024 (E : env) (self : JinaEmbedder.t) :
  (forall text,
     mock_vector E self text
     = uniform_vector E (Z.abs (hash E text) mod 10000)%Z 1024)
  /\ (forall s,
        model_name self = "jina-embeddings-v3" ->
        _get_embedding_dimension E self s = (s, Ok 1024)).
Proof.
  split.
  - intros text. unfold mock_vector. cbv zeta. f_equal.
    cbn. now destruct (String.eqb (model_name self) "jina-embeddings-v3").
  - intros s Hm. unfold _get_embedding_dimension. rewrite Hm. reflexivity.
Qed.

End JinaConstruction.

(* ===================================================================== *)
(** * The embedder against concrete services *)
(* ===================================================================== *)

Section JinaExamples.

Import JinaEmbedder.

Definition vector_of (text : string) : vec :=
  if String.eqb text "a" then [0.5%float] else [0.25%float].

(** A service that answers every request, and one that rejects the key. *)
Definition answering : env :=
  {| hash := fun _ => 7%Z;
     uniform_vector := fun _ n => replicate n 0.125%float;
     post := fun _ p => Ok (map (fun text => Some (vector_of text)) (input p));
     normalize := fun text => text |}.

Definition rejecting : env :=
  {| hash := fun _ => 7%Z;
     uniform_vector := fun _ n => replicate n 0.125%float;
     post := fun _ _ => Raise (Py.HTTPError (Py.Status 401));
     normalize := fun text => text |}.

Definition with_batch_size (n : Z) : JinaEmbedder.t :=
  {| model_name := "jina-embeddings-v3"; api_key := Some "secret";
     max_retries := 3; timeout := 30; batch_size := n;
     allow_empty_api_key := true |}.

Definition cold : state :=
  {| cache := ∅; sent := []; slept := []; stats := [] |}.

Definition warm : state :=
  {| cache := {[ cache_key answering (with_batch_size 2) "a" := [0.5%float] ]};
     sent := []; slept := []; stats := [] |}.

Lemma embed_async_many_all_cached_witness :
  exists result,
    embed_async_many answering (with_batch_size 2) ["a"; "a"] warm
    = ({| cache := cache warm; sent := sent warm; slept := slept warm;
          stats := stats warm ++ [{| hit := true; error := false |}] |},
       Ok result)
    /\ Forall2 (fun t v => _check_cache answering (with_batch_size 2) t warm = Some v)
         ["a"; "a"] result.
Proof.
  apply (embed_async_many_all_cached answering (with_batch_size 2) ["a"; "a"] warm).
  intros t Ht. exists [0.5%float].
  apply elem_of_cons in Ht as [->|Ht]; [vm_compute; reflexivity|].
  apply elem_of_cons in Ht as [->|Ht]; [vm_compute; reflexivity|].
  inversion Ht.
Defined.

Lemma request_failure_leaves_cache_witness :
  cache {| cache := ∅;
           sent := [{| input := ["a"]; model := "jina-embeddings-v3" |}];
           slept := []; stats := [] |}
  = cache cold.
Proof.
  apply (request_failure_leaves_cache rejecting (with_batch_size 2) ["a"] cold
           _ "Jina embedding failed" (Some (Py.HTTPError (Py.Status 401)))).
  vm_compute. reflexivity.
Defined.

Lemma nonpositive_batch_size_witness :
  embed_async_many answering (with_batch_size 0) ["a"] cold
  = (cold, Raise (if (batch_size (with_batch_size 0) =? 0)%Z
                  then Py.ValueError "range() arg 3 must not be zero"
                  else Py.IndexError)).
Proof.
  apply (nonpositive_batch_size answering (with_batch_size 0) ["a"] cold).
  - simpl. lia.
  - exists "a". split; [left|]. vm_compute. reflexivity.
Defined.

Lemma embed_async_many_answers_witness :
  exists s',
    embed_async_many answering (with_batch_size 2) ["a"; "b"; "a"] cold
    = (s', Ok (map (fun t =>
                      match _check_cache answering (with_batch_size 2) t cold with
                      | Some cached => cached
                      | None =>
                          embedding_of answering (with_batch_size 2) vector_of t
                      end) ["a"; "b"; "a"]))
    /\ (no_api_key (with_batch_size 2) = true -> sent s' = sent cold).
Proof.
  apply (embed_async_many_answers answering (with_batch_size 2) vector_of).
  - reflexivity.
  - intros earlier p. reflexivity.
  - simpl. lia.
Defined.

Definition asked : state * Py.result (list item) :=
  _execute_async_request answering (with_batch_size 2)
    {| input := ["b"]; model := model_name (with_batch_size 2) |} cold.

Lemma embed_async_many_singleton_witness :
  (is_Some (_check_cache answering (with_batch_size 2) "b" cold)
   \/ (exists result embeddings,
         asked.2 = Ok result /\ embeddings_of result = Ok embeddings) ->
   embed_async_many answering (with_batch_size 2) ["b"] cold
   = match embed_async_single answering (with_batch_size 2) "b" cold with
     | (s', Ok embedding) => (s', Ok [embedding])
     | (s', Raise e) => (s', Raise e)
     end)
  /\ (forall e,
        _check_cache answering (with_batch_size 2) "b" cold = None ->
        asked.2 = Raise e ->
        embed_async_many answering (with_batch_size 2) ["b"] cold
        = (asked.1, Raise (Py.EmbeddingError "Jina embedding failed" (Some e)))
        /\ embed_async_single answering (with_batch_size 2) "b" cold
           = ({| cache := cache asked.1; sent := sent asked.1;
                 slept := slept asked.1;
                 stats := stats asked.1 ++ [{| hit := false; error := true |}] |},
              Raise (Py.EmbeddingError "Jina embedding failed" (Some e))))
  /\ (forall rest,
        _check_cache answering (with_batch_size 2) "b" cold = None ->
        asked.2 = Ok (None :: rest) ->
        embed_async_many answering (with_batch_size 2) ["b"] cold
        = (asked.1, Raise (Py.EmbeddingError "Jina embedding failed"
                             (Some (Py.KeyError "embedding"))))
        /\ embed_async_single answering (with_batch_size 2) "b" cold
           = (asked.1, Raise (Py.KeyError "embedding"))).
Proof.
  apply (embed_async_many_singleton answering (with_batch_size 2) "b" cold
           asked.1 asked.2).
  - simpl. lia.
  - reflexivity.
Defined.

Lemma embed_sync_agrees_witness :
  embed_sync answering (with_batch_size 2) "b" cold
  = embed_async_single answering (with_batch_size 2) "b" cold.
Proof.
  apply (embed_sync_agrees answering (with_batch_size 2) "b" cold).
  - reflexivity.
  - intros _ _. eexists _, _. reflexivity.
Defined.

End JinaExamples.

Section JinaShape.

Import JinaEmbedder.

Variable E : env.
Variable self : JinaEmbedder.t.

Implicit Types (s : state) (texts : list string).

Lemma merge_shape (items : list (string * option vec)) (batched : list vec)
    (fresh_idx : nat) (acc : list vec) s s' (result : list vec) :
  merge E self items batched fresh_idx acc s = (s', Ok result) ->
  exists tail,
    result = (acc ++ tail)%list
    /\ length tail = length items
    /\ forall i t v, items !! i = Some (t, Some v) -> tail !! i = Some v.
Proof.
  revert fresh_idx acc s.
  induction items as [|[text [cached|]] items IH]; intros fresh_idx acc s;
    cbn [merge].
  - intros [= <- <-]. exists []. rewrite app_nil_r.
    split; [reflexivity|]. split; [reflexivity|]. intros i t v Hi. discriminate.
  - intros Hrun. apply IH in Hrun as (tail & -> & Hlen & Hpos).
    exists (cached :: tail). rewrite <- app_assoc.
    split; [reflexivity|]. split; [simpl; lia|].
    intros [|i] t v Hi; simpl in Hi |- *; [congruence|eauto].
  - destruct (batched !! fresh_idx) as [emb|]; [|discriminate].
    unfold Py.bind, _store_cache. intros Hrun.
    apply IH in Hrun as (tail & -> & Hlen & Hpos).
    exists (emb :: tail). rewrite <- app_assoc.
    split; [reflexivity|]. split; [simpl; lia|].
    intros [|i] t v Hi; simpl in Hi |- *; [discriminate|eauto].
Qed.

Lemma lookup_combine_checked (check : string -> option vec) texts (i : nat) :
  combine texts (map check texts) !! i
  = (fun t => (t, check t)) <$> texts !! i.
Proof.
  revert i. induction texts as [|t texts IH]; intros [|i]; try reflexivity.
  cbn [map combine]. apply IH.
Qed.

(** The shape of the result of a call that returns. *)
Lemma call_shape texts s s' (result : list vec) :
  embed_async_many E self texts s = (s', Ok result) ->
  length result = length texts
  /\ forall i t v,
       texts !! i = Some t -> _check_cache E self t s = Some v ->
       result !! i = Some v.
Proof.
  destruct texts as [|t0 texts0] eqn:Htexts.
  { intros [= <- <-]. split; [reflexivity|]. intros i t v Hi; discriminate. }
  rewrite <- Htexts.
  destruct (forallb is_cached (map (fun text => _check_cache E self text s) texts))
    eqn:Hall.
  - pose proof (all_cached_elem E self texts s Hall) as Hcached.
    destruct (all_cached_values E self texts s Hcached) as [_ Hr].
    rewrite all_cached_run; [|rewrite Htexts; discriminate|exact Hall].
    intros [= <- <-]. split; [symmetry; eapply Forall2_length; eassumption|].
    intros i t v Hi Hv.
    destruct (Forall2_lookup_l _ _ _ _ _ Hr Hi) as (v' & Hv' & Hc). congruence.
  - rewrite embed_async_many_uncached; [|rewrite Htexts; discriminate|exact Hall].
    destruct (range_from_zero _ _) as [starts|e]; [|discriminate].
    destruct (send_batches E self _ starts s) as [s1 [batched|e]]; [|discriminate].
    destruct (merge E self _ batched 0 [] s1) as [s2 [merged|e]] eqn:Hmerge;
      [|discriminate].
    intros [= <- <-]. apply merge_shape in Hmerge as (tail & -> & Hlen & Hpos).
    cbn [app]. rewrite length_combine, length_map, Nat.min_id in Hlen.
    split; [exact Hlen|].
    intros i t v Hi Hv. apply (Hpos i t).
    rewrite lookup_combine_checked, Hi.
    change (Some (t, _check_cache E self t s) = Some (t, Some v)).
    now rewrite Hv.
Qed.

(** X24: Whatever the service answers, a call that returns has a result of the
    length of its input, and at every position of a text that was cached
    when the call began the result holds the cached vector. *)
Theorem embed_async_many_shape texts s s' (result : list vec) :
  embed_async_many E self texts s = (s', Ok result) ->
  length result = length texts
  /\ forall i t v,
       texts !! i = Some t -> _check_cache E self t s = Some v ->
       result !! i = Some v.
Proof. apply call_shape. Qed.

End JinaShape.

(* ===================================================================== *)
(** * The cache and the batches of [embed_async_many] *)
(* ===================================================================== *)

Section JinaRequests.

Import JinaEmbedder.

Variable E : env.
Variable self : JinaEmbedder.t.

Implicit Types (s : state) (p q : payload) (texts : list string).

(** With an API key every attempt POSTs its request. *)
Lemma once_sends p s :
  no_api_key self = false ->
  sent (_execute_async_request_once E self p s).1 = (sent s ++ [p])%list.
Proof.
  intros Hk. unfold _execute_async_request_once. rewrite Hk. reflexivity.
Qed.

Lemma retry_from_sends p (k attempts : nat) s :
  no_api_key self = false ->
  exists new,
    sent (_retry_from k (S attempts) (_execute_async_request_once E self p) s).1
    = (sent s ++ p :: new)%list.
Proof.
  intros Hk. cbn [_retry_from].
  pose proof (once_sends p s Hk) as Hsent.
  destruct (_execute_async_request_once E self p s) as [s1 [a|e]];
    cbn [fst] in Hsent.
  - exists []. exact Hsent.
  - destruct (transient e); [|exists []; exact Hsent].
    destruct attempts as [|attempts']; [exists []; exact Hsent|].
    destruct (_retry_from _ _ _ _) as [s2 r2] eqn:Hrec.
    apply retry_from_traffic in Hrec as [_ (new & Hnew & _)].
    cbn [sent set_slept] in Hnew. exists new. cbn [fst].
    now rewrite Hnew, Hsent, <- app_assoc.
Qed.

Lemma get_embeddings_sends texts s :
  no_api_key self = false -> texts <> [] ->
  exists new,
    sent (_get_embeddings E self texts s).1
    = (sent s ++ {| input := texts; model := model_name self |} :: new)%list.
Proof.
  intros Hk Hne. unfold _get_embeddings.
  destruct texts as [|t texts]; [congruence|].
  unfold _execute_async_request, _retry.
  destruct (retry_from_sends {| input := t :: texts; model := model_name self |}
              0 2 s Hk) as (new & Hnew).
  exists new.
  destruct (_retry_from _ _ _ _) as [s1 [results|e]]; cbn [fst] in Hnew |- *;
    [destruct (embeddings_of results)|]; exact Hnew.
Qed.

(** A successful run of the batches has sent every batch that holds a
    text. *)
Lemma batches_sent (uncached_texts : list string) (starts : list nat)
    (acc : list vec) s s' (r : list vec) :
  no_api_key self = false ->
  Py.for_each starts
    (fun i acc =>
       let batch := firstn (Z.to_nat (batch_size self)) (skipn i uncached_texts) in
       (let* fresh := _get_embeddings E self batch in
        Py.ret (acc ++ fresh)%list)%py) acc s = (s', Ok r) ->
  forall i,
    i ∈ starts ->
    firstn (Z.to_nat (batch_size self)) (skipn i uncached_texts) <> [] ->
    exists before q after,
      sent s' = (sent s ++ before ++ q :: after)%list
      /\ input q = firstn (Z.to_nat (batch_size self)) (skipn i uncached_texts).
Proof.
  intros Hk. revert acc s.
  induction starts as [|i0 starts IH]; intros acc s Hrun i Hi Hne;
    [inversion Hi|].
  cbn [Py.for_each] in Hrun. unfold Py.bind at 1 in Hrun. cbv zeta in Hrun.
  unfold Py.bind at 1 in Hrun.
  destruct (_get_embeddings E self
              (firstn (Z.to_nat (batch_size self)) (skipn i0 uncached_texts)) s)
    as [s1 [fresh|e]] eqn:Hfirst; [|discriminate].
  unfold Py.ret at 1 in Hrun.
  apply elem_of_cons in Hi as [->|Hi].
  - destruct (get_embeddings_sends _ s Hk Hne) as (new1 & Hnew1).
    rewrite Hfirst in Hnew1. cbn [fst] in Hnew1.
    apply batches_traffic in Hrun as [_ (new2 & Hnew2 & _)].
    exists [], {| input := firstn (Z.to_nat (batch_size self))
                             (skipn i0 uncached_texts);
                  model := model_name self |}, (new1 ++ new2)%list.
    split; [|reflexivity].
    rewrite Hnew2, Hnew1. cbn [app]. now rewrite <- app_assoc.
  - apply get_embeddings_traffic in Hfirst as [_ (new1 & Hnew1 & _)].
    destruct (IH _ _ Hrun i Hi Hne) as (before & q & after & Hsent & Hq).
    exists (new1 ++ before)%list, q, after. split; [|exact Hq].
    rewrite Hsent, Hnew1. now rewrite <- !app_assoc.
Qed.

Lemma uncached_of_intro (check : string -> option vec) texts (t : string) :
  t ∈ texts -> check t = None ->
  t ∈ uncached_of (combine texts (map check texts)).
Proof.
  induction texts as [|t0 texts IH]; intros Hin Hnone; [inversion Hin|].
  cbn [map combine uncached_of].
  apply elem_of_cons in Hin as [<-|Hin].
  - rewrite Hnone. left.
  - destruct (check t0); [now apply IH|right; now apply IH].
Qed.


(** What the merge loop writes: nothing under a key that is not the key of
    an uncached text, and under the key of an uncached text the vector of the
    result at the last position of a text with that key. *)
Lemma merge_caches (items : list (string * option vec)) (batched : list vec)
    (fresh_idx : nat) (acc : list vec) s s' (result : list vec) :
  merge E self items batched fresh_idx acc s = (s', Ok result) ->
  (forall k,
     (forall t, (t, None) ∈ items -> cache_key E self t <> k) ->
     cache s' !! k = cache s !! k)
  /\ (forall i t v,
        items !! i = Some (t, None) ->
        result !! (length acc + i) = Some v ->
        (forall j t', i < j -> items !! j = Some (t', None) ->
                      cache_key E self t' <> cache_key E self t) ->
        cache s' !! cache_key E self t = Some v).
Proof.
  revert fresh_idx acc s.
  induction items as [|[text [cached|]] items IH]; intros fresh_idx acc s;
    cbn [merge].
  - intros [= <- <-]. split; [reflexivity|]. intros i t v Hi. discriminate.
  - intros Hrun. destruct (IH _ _ _ Hrun) as [Hother Hstored]. split.
    + intros k Hk. apply Hother. intros t Ht. apply Hk. now right.
    + intros [|i] t v Hi Hv Hlast; [discriminate|].
      apply (Hstored i t v Hi).
      * rewrite length_app. cbn [length].
        now replace (length acc + 1 + i) with (length acc + S i) by lia.
      * intros j t' Hj Ht'. apply (Hlast (S j) t'); [lia|exact Ht'].
  - destruct (batched !! fresh_idx) as [emb|]; [|discriminate].
    unfold Py.bind, _store_cache. intros Hrun.
    pose proof (merge_shape E self _ _ _ _ _ _ _ Hrun) as (tail & Hres & _).
    destruct (IH _ _ _ Hrun) as [Hother Hstored]. cbn [cache set_cache] in Hother.
    split.
    + intros k Hk. rewrite Hother.
      * apply lookup_insert_ne. apply Hk. left.
      * intros t Ht. apply Hk. now right.
    + intros [|i] t v Hi Hv Hlast.
      * injection Hi as <-. rewrite Nat.add_0_r in Hv.
        rewrite Hres, <- app_assoc, lookup_app_r, Nat.sub_diag in Hv by lia.
        injection Hv as <-.
        rewrite Hother; [apply lookup_insert_eq|].
        intros t' Ht'. apply list_elem_of_lookup in Ht' as [j Hj].
        apply (Hlast (S j) t'); [lia|exact Hj].
      * apply (Hstored i t v Hi).
        -- rewrite length_app. cbn [length].
           now replace (length acc + 1 + i) with (length acc + S i) by lia.
        -- intros j t' Hj Ht'. apply (Hlast (S j) t'); [lia|exact Ht'].
Qed.

(** The cache after a call of [embed_async_many] that returns. *)
Lemma cache_after_call texts s s' (result : list vec) :
  embed_async_many E self texts s = (s', Ok result) ->
  (forall i t v,
     texts !! i = Some t -> result !! i = Some v ->
     is_Some (_check_cache E self t s)
     \/ (forall j t', i < j -> texts !! j = Some t' ->
                      cache_key E self t' <> cache_key E self t) ->
     _check_cache E self t s' = Some v)
  /\ (forall k,
        (forall t, t ∈ texts -> _check_cache E self t s = None ->
                   cache_key E self t <> k) ->
        cache s' !! k = cache s !! k).
Proof.
  intros Hrun.
  pose proof (call_shape E self texts s s' result Hrun) as [_ Hcached].
  assert (Hcache :
    (forall k,
       (forall t, t ∈ texts -> _check_cache E self t s = None ->
                  cache_key E self t <> k) ->
       cache s' !! k = cache s !! k)
    /\ (forall i t v,
          texts !! i = Some t -> result !! i = Some v ->
          _check_cache E self t s = None ->
          (forall j t', i < j -> texts !! j = Some t' ->
                        cache_key E self t' <> cache_key E self t) ->
          cache s' !! cache_key E self t = Some v)).
  { destruct texts as [|t0 texts0] eqn:Htexts.
    { injection Hrun as <- <-. split; [reflexivity|]. intros i t v Hi. discriminate. }
    rewrite <- Htexts in *.
    destruct (forallb is_cached
                (map (fun text => _check_cache E self text s) texts)) eqn:Hall.
    - rewrite all_cached_run in Hrun; [|rewrite Htexts; discriminate|exact Hall].
      injection Hrun as <- <-. split; [reflexivity|].
      intros i t v Hi _ Hnone.
      destruct (all_cached_elem E self texts s Hall t) as [c Hc];
        [eapply list_elem_of_lookup_2; exact Hi|congruence].
    - rewrite embed_async_many_uncached in Hrun;
        [|rewrite Htexts; discriminate|exact Hall].
      destruct (range_from_zero _ _) as [starts|e]; [|discriminate].
      destruct (send_batches E self _ starts s) as [s1 [batched|e]] eqn:Hsend;
        [|discriminate].
      destruct (merge E self _ batched 0 [] s1) as [s2 [merged|e]] eqn:Hmerge;
        [|discriminate].
      injection Hrun as <- <-.
      unfold send_batches in Hsend. apply batches_traffic in Hsend as [Hc1 _].
      destruct (merge_caches _ _ _ _ _ _ _ Hmerge) as [Hother Hstored].
      cbn [cache set_stats]. rewrite <- Hc1. split.
      + intros k Hk. apply Hother. intros t Ht.
        apply list_elem_of_lookup in Ht as [j Hj].
        rewrite lookup_combine_checked in Hj.
        destruct (texts !! j) as [t'|] eqn:Hj'; [|discriminate].
        cbn in Hj. injection Hj as -> Hnone.
        apply Hk; [eapply list_elem_of_lookup_2; exact Hj'|exact Hnone].
      + intros i t v Hi Hv Hnone Hlast.
        apply (Hstored i t v).
        * rewrite lookup_combine_checked, Hi.
          change (Some (t, _check_cache E self t s) = Some (t, None)).
          now rewrite Hnone.
        * exact Hv.
        * intros j t' Hj Ht'. rewrite lookup_combine_checked in Ht'.
          destruct (texts !! j) as [t''|] eqn:Hj'; [|discriminate].
          cbn in Ht'. injection Ht' as -> _. now apply (Hlast j). }
  destruct Hcache as [Hother Hstored]. split; [|exact Hother].
  intros i t v Hi Hv Hcond.
  destruct (_check_cache E self t s) as [c|] eqn:Hc.
  - rewrite (Hcached i t c Hi Hc) in Hv. injection Hv as <-.
    unfold _check_cache. rewrite Hother; [exact Hc|].
    intros t' _ Hnone Hkey. unfold _check_cache in Hc, Hnone.
    rewrite Hkey in Hnone. congruence.
  - destruct Hcond as [[c Hc']|Hlast]; [congruence|].
    now apply (Hstored i t v).
Qed.

(** The last position of a list whose text has a property that the text at
    position [i] has. *)
Lemma last_position_with (P : string -> Prop) `{!forall t, Decision (P t)}
    (texts : list string) (i : nat) (t : string) :
  texts !! i = Some t -> P t ->
  exists j t',
    i <= j /\ texts !! j = Some t' /\ P t'
    /\ forall k t'', j < k -> texts !! k = Some t'' -> ~ P t''.
Proof.
  revert i t. induction texts as [|x l IH] using rev_ind; intros i t Hi Ht;
    [discriminate|].
  destruct (decide (P x)) as [Hx|Hx].
  - exists (length l), x. split.
    + apply lookup_lt_Some in Hi. rewrite length_app in Hi. cbn in Hi. lia.
    + split; [now rewrite lookup_app_r, Nat.sub_diag by lia|].
      split; [exact Hx|].
      intros k t'' Hk Hk'. apply lookup_lt_Some in Hk'.
      rewrite length_app in Hk'. cbn in Hk'. lia.
  - assert (Hil : i < length l).
    { destruct (Nat.lt_ge_cases i (length l)) as [Hlt|Hge]; [exact Hlt|].
      exfalso. pose proof (lookup_lt_Some _ _ _ Hi) as Hlen.
      rewrite length_app in Hlen. cbn in Hlen.
      assert (i = length l) as -> by lia.
      rewrite lookup_app_r, Nat.sub_diag in Hi by lia.
      injection Hi as <-. contradiction. }
    rewrite lookup_app_l in Hi by exact Hil.
    destruct (IH i t Hi Ht) as (j & t' & Hij & Hj & Ht' & Hlast).
    exists j, t'. split; [exact Hij|].
    pose proof (lookup_lt_Some _ _ _ Hj) as Hjl.
    split; [now rewrite lookup_app_l by exact Hjl|]. split; [exact Ht'|].
    intros k t'' Hk Hk'.
    destruct (Nat.lt_ge_cases k (length l)) as [Hlt|Hge].
    + rewrite lookup_app_l in Hk' by exact Hlt. now apply (Hlast k).
    + pose proof (lookup_lt_Some _ _ _ Hk') as Hlen.
      rewrite length_app in Hlen. cbn in Hlen.
      assert (k = length l) as -> by lia.
      rewrite lookup_app_r, Nat.sub_diag in Hk' by lia.
      injection Hk' as <-. exact Hx.
Qed.

(** C7, amended: after a call of [embed_async_many] that returns, every text
    of the list is cached, with the vector that the result holds at the last
    position of a text with the same cache key (at its own position when the
    text was cached as the call began). So the text at a position is cached
    with the vector at that position if it was cached when the call began,
    or if no later text of the list has its cache key; of several uncached
    texts with one cache key (the same text twice, say) the cache keeps the
    vector of the last. Nothing else is written: an entry whose key is not
    the key of an uncached text of the list is as it was. *)
Theorem C7_fresh_vectors_cached texts s s' (result : list vec) :
  embed_async_many E self texts s = (s', Ok result) ->
  (forall i t,
     texts !! i = Some t ->
     exists j t' v,
       i <= j /\ texts !! j = Some t'
       /\ cache_key E self t' = cache_key E self t
       /\ result !! j = Some v
       /\ _check_cache E self t s' = Some v
       /\ (is_Some (_check_cache E self t s) -> j = i))
  /\ (forall i t v,
        texts !! i = Some t -> result !! i = Some v ->
        is_Some (_check_cache E self t s)
        \/ (forall j t', i < j -> texts !! j = Some t' ->
                         cache_key E self t' <> cache_key E self t) ->
        _check_cache E self t s' = Some v)
  /\ (forall k,
        (forall t, t ∈ texts -> _check_cache E self t s = None ->
                   cache_key E self t <> k) ->
        cache s' !! k = cache s !! k).
Proof.
  intros Hrun.
  destruct (cache_after_call texts s s' result Hrun) as [Hstored Hother].
  pose proof (call_shape E self texts s s' result Hrun) as [Hlen _].
  split; [|split; [exact Hstored|exact Hother]].
  intros i t Hi.
  destruct (_check_cache E self t s) as [c|] eqn:Hc.
  - destruct (lookup_lt_is_Some_2 result i) as [v Hv].
    { rewrite Hlen. now apply lookup_lt_Some in Hi. }
    exists i, t, v. split; [lia|]. split; [exact Hi|]. split; [reflexivity|].
    split; [exact Hv|]. split; [|reflexivity].
    apply (Hstored i t v Hi Hv). left. rewrite Hc. eauto.
  - destruct (last_position_with
                (fun t' => cache_key E self t' = cache_key E self t) texts i t
                Hi eq_refl)
      as (j & t' & Hij & Hj & Hkey & Hlast).
    destruct (lookup_lt_is_Some_2 result j) as [v Hv].
    { rewrite Hlen. now apply lookup_lt_Some in Hj. }
    exists j, t', v. split; [exact Hij|]. split; [exact Hj|].
    split; [exact Hkey|]. split; [exact Hv|]. split.
    + assert (Hcached : _check_cache E self t' s' = Some v).
      { apply (Hstored j t' v Hj Hv). right.
        intros k t'' Hk Hk' Hsame. apply (Hlast k t'' Hk Hk'). congruence. }
      unfold _check_cache in *. now rewrite <- Hkey.
    + intros [c Hc']. discriminate Hc'.
Qed.

End JinaRequests.

Section JinaPositions.

Import JinaEmbedder.

Variable E : env.
Variable self : JinaEmbedder.t.
Variable f : string -> vec.


End JinaPositions.

(* ===================================================================== *)
(** * The retries of a request *)
(* ===================================================================== *)

Section JinaRetries.

Import JinaEmbedder.

Variable E : env.

Implicit Types (self : JinaEmbedder.t) (s : state) (p : payload).

(** The embedder with another [max_retries]. *)
Definition with_max_retries (n : Z) self : JinaEmbedder.t :=
  {| model_name := model_name self; api_key := api_key self;
     max_retries := n; timeout := timeout self;
     batch_size := batch_size self;
     allow_empty_api_key := allow_empty_api_key self |}.

Lemma once_sends_at_most_one self p s :
  exists new,
    sent (_execute_async_request_once E self p s).1 = (sent s ++ new)%list
    /\ Forall (fun q => q = p) new /\ length new <= 1.
Proof.
  unfold _execute_async_request_once.
  destruct (no_api_key self && negb (allow_empty_api_key self)).
  { exists []. cbn. rewrite app_nil_r. auto. }
  destruct (no_api_key self && allow_empty_api_key self).
  { exists []. cbn. rewrite app_nil_r. auto. }
  exists [p]. cbn. auto.
Qed.

Lemma retry_from_bound self p (k attempts : nat) s :
  exists new,
    sent (_retry_from k attempts (_execute_async_request_once E self p) s).1
    = (sent s ++ new)%list
    /\ Forall (fun q => q = p) new /\ length new <= attempts.
Proof.
  revert k s. induction attempts as [|attempts IH]; intros k s; cbn [_retry_from].
  { exists []. cbn. rewrite app_nil_r. auto. }
  destruct (once_sends_at_most_one self p s) as (new1 & Hs1 & F1 & L1).
  destruct (_execute_async_request_once E self p s) as [s1 [a|e]];
    cbn [fst] in Hs1.
  { exists new1. cbn [fst]. split; [exact Hs1|]. split; [exact F1|lia]. }
  destruct (transient e);
    [|exists new1; cbn [fst]; split; [exact Hs1|]; split; [exact F1|lia]].
  destruct attempts as [|attempts'];
    [exists new1; cbn [fst]; split; [exact Hs1|]; split; [exact F1|lia]|].
  destruct (IH (S k) (set_slept (slept s1 ++ [k]) s1)) as (new2 & Hs2 & F2 & L2).
  exists (new1 ++ new2)%list. rewrite Hs2. cbn [sent set_slept].
  rewrite Hs1, <- app_assoc. split; [reflexivity|].
  split; [now apply Forall_app|]. rewrite length_app. lia.
Qed.


End JinaRetries.

Section JinaClaimExamples.

Import JinaEmbedder.

(** A service that is overloaded for the first four requests it gets and
    answers from the fifth on, and an embedder set up for five retries. *)
Definition flaky : env :=
  {| hash := fun _ => 7%Z;
     uniform_vector := fun _ n => replicate n 0.125%float;
     post := fun earlier p =>
       if (length earlier <? 4)%nat
       then Raise (Py.HTTPError (Py.Status 503))
       else Ok (map (fun text => Some (vector_of text)) (input p));
     normalize := fun text => text |}.

Definition patient : JinaEmbedder.t :=
  {| model_name := "jina-embeddings-v3"; api_key := Some "secret";
     max_retries := 5; timeout := 30; batch_size := 2;
     allow_empty_api_key := true |}.

Definition request_a : payload :=
  {| input := ["a"]; model := "jina-embeddings-v3" |}.


(** A service whose answer to a request of two texts holds two different
    vectors, whatever the texts. *)
Definition wavering : env :=
  {| hash := fun _ => 7%Z;
     uniform_vector := fun _ n => replicate n 0.125%float;
     post := fun _ _ => Ok [Some [0.5%float]; Some [0.25%float]];
     normalize := fun text => text |}.

Definition twice : state * Py.result (list vec) :=
  embed_async_many wavering (with_batch_size 2) ["a"; "a"] cold.

(** C7, as stated, fails: the call for the same text twice returns the two
    vectors of the answer, and the cache holds the second for the text, not
    the one at the first position of the result. *)
Lemma C7_duplicate_text_keeps_last_vector :
  twice.2 = Ok [[0.5%float]; [0.25%float]]
  /\ _check_cache wavering (with_batch_size 2) "a" twice.1 = Some [0.25%float]
  /\ [0.25%float] <> [0.5%float].
Proof.
  split; [vm_compute; reflexivity|]. split; [vm_compute; reflexivity|].
  intros Heq.
  assert (Hb : PrimFloat.eqb (hd 0%float [0.25%float]) 0.5%float = true)
    by (rewrite Heq; reflexivity).
  vm_compute in Hb. discriminate Hb.
Qed.

Definition two_texts : state * Py.result (list vec) :=
  embed_async_many answering (with_batch_size 2) ["a"; "b"] cold.

Lemma C7_fresh_vectors_cached_witness :
  (forall i t,
     ["a"; "b"] !! i = Some t ->
     exists j t' v,
       i <= j /\ ["a"; "b"] !! j = Some t'
       /\ cache_key answering (with_batch_size 2) t'
          = cache_key answering (with_batch_size 2) t
       /\ [[0.5%float]; [0.25%float]] !! j = Some v
       /\ _check_cache answering (with_batch_size 2) t two_texts.1 = Some v
       /\ (is_Some (_check_cache answering (with_batch_size 2) t cold) -> j = i))
  /\ (forall i t v,
        ["a"; "b"] !! i = Some t -> [[0.5%float]; [0.25%float]] !! i = Some v ->
        is_Some (_check_cache answering (with_batch_size 2) t cold)
        \/ (forall j t', i < j -> ["a"; "b"] !! j = Some t' ->
                         cache_key answering (with_batch_size 2) t'
                         <> cache_key answering (with_batch_size 2) t) ->
        _check_cache answering (with_batch_size 2) t two_texts.1 = Some v)
  /\ (forall k,
        (forall t, t ∈ ["a"; "b"] ->
                   _check_cache answering (with_batch_size 2) t cold = None ->
                   cache_key answering (with_batch_size 2) t <> k) ->
        cache two_texts.1 !! k = cache cold !! k).
Proof.
  apply (C7_fresh_vectors_cached answering (with_batch_size 2) ["a"; "b"] cold
           two_texts.1 [[0.5%float]; [0.25%float]]).
  vm_compute. reflexivity.
Defined.


End JinaClaimExamples.

(* ===================================================================== *)
(** * Where the loaded documents come from *)
(* ===================================================================== *)

Section DocumentIngestorSources.

Import DocumentIngestor.

Variable Emb : Type.
Variable new_id : nat -> string.

Implicit Types (self : DocumentIngestor.t Emb) (file_path : Path).

(** [doc.metadata["source"]] *)
Definition source_of (doc : Document) : Py.value :=
  Py.dict_get (metadata doc) "source" Py.VNone.

(** The document was read from the path [file_path]. *)
Definition read_from (files : list Path) (doc : Document) : Prop :=
  exists file_path,
    file_path ∈ files
    /\ loadable file_path = true
    /\ source_of doc = Py.VStr (str file_path)
    /\ _read_file_content file_path = Ok (text doc).

(** The invariant of the loading loop: every document was read from one of
    the paths, its source is among the processed files, and no two documents
    have the same source. *)
Definition sources_ok (files : list Path) (acc : loaded) : Prop :=
  Forall (read_from files) (documents acc)
  /\ Forall (fun doc => exists p, source_of doc = Py.VStr p
                                  /\ p ∈ processed_files acc) (documents acc)
  /\ NoDup (map source_of (documents acc)).

Lemma load_file_sources (files : list Path) file_path (acc : loaded) self :
  file_path ∈ files ->
  sources_ok files acc ->
  exists self' acc',
    load_file new_id file_path acc self = (self', Ok acc')
    /\ sources_ok files acc'.
Proof.
  intros Hin (Hread & Hproc & Hnd). unfold load_file.
  destruct (is_file file_path && mem _ _) eqn:Hsup.
  2:{ eexists _, _. split; [reflexivity|]. repeat split; assumption. }
  case_bool_decide as Hseen.
  { eexists _, _. split; [reflexivity|]. repeat split; assumption. }
  destruct (_read_file_content file_path) as [content|e] eqn:Hcontent.
  2:{ eexists _, _. split; [reflexivity|]. repeat split; assumption. }
  eexists _, _. split; [reflexivity|].
  unfold sources_ok. cbn [documents processed_files].
  split; [|split].
  - apply Forall_app. split; [exact Hread|]. constructor; [|constructor].
    exists file_path. split; [exact Hin|].
    split; [unfold loadable; now rewrite Hsup, Hcontent|].
    split; [reflexivity|exact Hcontent].
  - apply Forall_app. split.
    + eapply Forall_impl; [exact Hproc|].
      intros doc (p & Hp & Hpin). exists p. split; [exact Hp|].
      apply elem_of_union. now right.
    + constructor; [|constructor].
      exists (str file_path). split; [reflexivity|].
      apply elem_of_union. left. now apply elem_of_singleton.
  - rewrite map_app. apply NoDup_app. split; [exact Hnd|]. split.
    + intros v Hv Hv'. cbn in Hv'. apply list_elem_of_singleton in Hv'. subst v.
      apply list_elem_of_fmap in Hv as (doc & Hdoc & Hdin).
      rewrite Forall_forall in Hproc.
      destruct (Hproc doc Hdin) as (p & Hp & Hpin).
      apply Hseen. rewrite <- Hdoc in Hp.
      change (source_of _) with (Py.VStr (str file_path)) in Hp.
      injection Hp as ->. exact Hpin.
    + cbn. apply NoDup_singleton.
Qed.

Lemma load_loop_sources (files rest : list Path) (acc : loaded) self :
  (forall f, f ∈ rest -> f ∈ files) ->
  sources_ok files acc ->
  exists self' acc',
    Py.for_each rest (load_file new_id) acc self = (self', Ok acc')
    /\ sources_ok files acc'.
Proof.
  revert acc self. induction rest as [|f rest IH]; intros acc self Hsub Hok.
  - exists self, acc. split; [reflexivity|exact Hok].
  - cbn [Py.for_each]. unfold Py.bind.
    destruct (load_file_sources files f acc self) as (self1 & acc1 & -> & Hok1);
      [apply Hsub; left|exact Hok|].
    apply IH; [|exact Hok1]. intros g Hg. apply Hsub. now right.
Qed.

(** X25: Whatever [glob] yields, every document the loader returns was read from
    a loadable path of [glob], carries that path as its source and the
    content of that file as its text, and no two of the documents have the
    same source: a path that [glob] yields again is not loaded again. *)
Theorem loaded_sources_distinct (data_dir : Directory) self self'
    (docs : list Document) :
  _load_documents_from_directory new_id data_dir self = (self', Ok docs) ->
  Forall (read_from (glob data_dir)) docs
  /\ NoDup (map source_of docs).
Proof.
  unfold _load_documents_from_directory.
  destruct (negb (exists_ data_dir)); [discriminate|].
  destruct (iterdir data_dir) as [|entry entries]; [discriminate|].
  unfold Py.bind.
  destruct (load_loop_sources (glob data_dir) (glob data_dir)
              {| documents := []; processed_files := ∅; documents_count := 0 |} self)
    as (self1 & acc1 & -> & Hread & _ & Hnd); [auto| |].
  { repeat split; constructor. }
  destruct (documents acc1) as [|d ds]; [discriminate|].
  intros [= <- <-]. split; assumption.
Qed.

End DocumentIngestorSources.

(* ===================================================================== *)
(** * Properties of the [/embed] endpoint *)
(* ===================================================================== *)

Section EmbedEndpoint.

Import DocumentIngestor.

Variable Emb : Type.
Variable embed_async_many : list string -> Py.M Emb (list vec).
Variable split : list Document -> Py.result (list Document).

Lemma doc_embeddings_from_size (chunks : list Document) (embeddings : list vec)
    (acc m : gmap string vec) :
  doc_embeddings_from chunks embeddings acc = Ok m ->
  size m <= size acc + length chunks.
Proof.
  revert chunks acc. induction embeddings as [|e es IH]; intros chunks acc.
  - destruct chunks; intros [= <-]; lia.
  - destruct chunks as [|ch chs]; [discriminate|]. cbn [doc_embeddings_from].
    intros Hm. apply IH in Hm. cbn [length].
    destruct (acc !! id ch) eqn:Hch.
    + rewrite map_size_insert_Some in Hm by eauto. lia.
    + rewrite map_size_insert_None in Hm by assumption. lia.
Qed.

(** X26: The [/embed] endpoint and the statistics of the shared ingestor: a
    request, whatever its outcome, leaves [documents_processed],
    [chunks_created] and [bytes_processed] as they were and never lowers
    [embeddings_generated]; a success reports the id of the request (a fresh
    one when the request has none, or an empty or zero one) and never more
    embeddings than chunks. *)
Theorem embed_document_stats (request_id : option App.identifier)
    (content : string) (request_metadata : option Py.dict) (uuid4 : string)
    (timestamp : float) (ingestor : DocumentIngestor.t Emb) :
  let outcome :=
    App.embed_document embed_async_many split request_id content
      request_metadata uuid4 timestamp ingestor in
  documents_processed (_stats outcome.1) = documents_processed (_stats ingestor)
  /\ chunks_created (_stats outcome.1) = chunks_created (_stats ingestor)
  /\ bytes_processed (_stats outcome.1) = bytes_processed (_stats ingestor)
  /\ (embeddings_generated (_stats ingestor)
      <= embeddings_generated (_stats outcome.1))%Z
  /\ forall doc_id (chunks_created embeddings_generated : nat),
       outcome.2 = App.Success doc_id chunks_created embeddings_generated ->
       embeddings_generated <= chunks_created
       /\ doc_id
          = match request_id with
            | Some (App.IntId n) =>
                if (n =? 0)%Z then App.StrId uuid4 else App.IntId n
            | Some (App.StrId s) =>
                if String.eqb s "" then App.StrId uuid4 else App.StrId s
            | None => App.StrId uuid4
            end.
Proof.
  cbv zeta. unfold App.embed_document.
  destruct (split _) as [chunks|e].
  2:{ cbn. split; [|split; [|split; [|split]]]; try reflexivity; try lia.
      intros doc_id c g Hout. discriminate Hout. }
  destruct (generate_embeddings_spec Emb embed_async_many chunks ingestor)
    as (self1 & r1 & Hgen & _ & _ & Hd & Hc & Hb & He).
  rewrite Hgen.
  destruct r1 as [doc_embeddings|e].
  2:{ cbn. split; [|split; [|split; [|split]]]; try assumption.
      intros doc_id c g Hout. discriminate Hout. }
  destruct (store_chunks_spec Emb chunks doc_embeddings self1) as (c' & r2 & ->).
  assert (Hsize : size doc_embeddings <= length chunks).
  { unfold _generate_embeddings in Hgen.
    destruct (embed_async_many _ _) as [emb' [embeddings|e]]; [|discriminate].
    destruct (doc_embeddings_from chunks embeddings ∅) as [m|e] eqn:Hm;
      [|discriminate].
    injection Hgen as _ <-. apply doc_embeddings_from_size in Hm.
    rewrite map_size_empty in Hm. lia. }
  destruct r2 as [[]|e]; cbn;
    (split; [|split; [|split; [|split]]]; try assumption);
    intros doc_id c g Hout; [|discriminate Hout].
  injection Hout as <- <- <-. split; [exact Hsize|reflexivity].
Qed.

End EmbedEndpoint.

(* ===================================================================== *)
(** * A store built from texts *)
(* ===================================================================== *)

Section QdrantStoreFromTexts.

Import QdrantClient QdrantStore.

(** X27: [from_texts] on a reachable index that does not have the collection
    yet, with a URL and a key, a known distance, no [vector_size], no
    metadatas and an id for every text, the ids used being distinct point
    ids: the collection is created with the length of the query embedding of
    the first text as its dimension, and, when every vector that
    [embed_documents] gives has that length, every text is stored under its
    id with its vector and the store is returned. *)
Theorem from_texts_creates_and_stores (text : string) (texts : list string)
    (embedding : Embeddings) (ids : list string)
    (collection_name distance : string)
    (content_payload_key metadata_payload_key : string)
    (url api_key settings_qdrant_url settings_qdrant_api_key : option string)
    (c : QdrantClient.t) (d : Rest.Distance) (v : list float)
    (embeddings : list (list float)) :
  fault c = None ->
  collections c !! collection_name = None ->
  is_Some (Py.or_ url settings_qdrant_url) ->
  is_Some (Py.or_ api_key settings_qdrant_api_key) ->
  Rest.Distance_getitem (Py.upper distance) = Ok d ->
  embed_query embedding text = Ok v ->
  embed_documents embedding (text :: texts) = Ok embeddings ->
  length embeddings = length (text :: texts) ->
  (forall e, e ∈ embeddings -> length e = length v) ->
  length (text :: texts) <= length ids ->
  (forall id, id ∈ take (length (text :: texts)) ids -> is_Some (point_key id)) ->
  NoDup (keys (take (length (text :: texts)) ids)) ->
  exists c' col',
    from_texts (text :: texts) embedding None (Some ids) collection_name None
      distance content_payload_key metadata_payload_key
      url api_key settings_qdrant_url settings_qdrant_api_key c
    = (c', Ok {| QdrantStore.collection_name := collection_name;
                 vector_size := Z.of_nat (length v);
                 QdrantStore.distance := distance;
                 QdrantStore.content_payload_key := content_payload_key;
                 QdrantStore.metadata_payload_key := metadata_payload_key |})
    /\ collections c' !! collection_name = Some col'
    /\ config col' = {| Rest.size := Z.of_nat (length v); Rest.distance := d |}
    /\ forall i t e id k,
         (text :: texts) !! i = Some t -> embeddings !! i = Some e ->
         ids !! i = Some id -> point_key id = Some k ->
         points col' !! k
         = Some {| Rest.id := id; Rest.vector := e;
                   Rest.payload :=
                     Py.dict_display
                       [(content_payload_key, Py.VStr t);
                        (metadata_payload_key, Py.VDict [])] |}.
Proof.
  intros Hf Hnone [u Hu] [k Hk] Hd Hv Hembs Hlen Hdim Hids Hvalid Hnd.
  set (instance :=
         {| QdrantStore.collection_name := collection_name;
            vector_size := Z.of_nat (length v);
            QdrantStore.distance := distance;
            QdrantStore.content_payload_key := content_payload_key;
            QdrantStore.metadata_payload_key := metadata_payload_key |}).
  pose proof (bootstrap_absent instance c d Hf Hnone Hd) as Hboot.
  match type of Hboot with _ = (?c1, _) => set (c1' := c1) in * end.
  assert (Hcol1 : collections c1' !! QdrantStore.collection_name instance
                  = Some {| config := {| Rest.size := Z.of_nat (length v);
                                         Rest.distance := d |};
                            points := ∅ |}).
  { unfold c1'. cbn [collections]. apply lookup_insert_eq. }
  destruct (add_embeddings_explicit_ids instance c1' _ ids (text :: texts)
              embeddings None eq_refl Hcol1)
    as (c2 & col2 & Hadd & Hcol2 & Hcfg & Hpts & _).
  { now rewrite Hlen. }
  { unfold metadatas_or_empty. apply length_replicate. }
  { exact Hids. }
  { exact Hvalid. }
  { exact Hnd. }
  { intros e He. cbn [config Rest.size]. f_equal. now apply Hdim. }
  exists c2, col2. split; [|split; [exact Hcol2|split; [exact Hcfg|]]].
  - unfold from_texts, Py.bind, Py.lift. rewrite Hv. fold instance.
    unfold __post_init__. rewrite Hu, Hk. unfold Py.bind.
    rewrite Hboot. unfold Py.ret at 1.
    unfold add_texts, Py.bind, Py.lift. rewrite Hembs, Hadd. reflexivity.
  - intros i t e id key Ht He Hid Hkey.
    assert (Hm : metadatas_or_empty None (length (text :: texts)) !! i = Some []).
    { unfold metadatas_or_empty. apply lookup_replicate_2.
      now apply lookup_lt_Some in Ht. }
    exact (Hpts i t e [] id key Ht He Hm Hid Hkey).
Qed.

Definition two_vectors : Embeddings :=
  {| embed_query := fun _ => Ok [0.5%float; 0.25%float];
     embed_documents := fun texts => Ok (map (fun _ => [0.5%float; 0.25%float]) texts) |}.

Lemma from_texts_creates_and_stores_witness :
  exists c' col',
    from_texts ["alpha"; "beta"] two_vectors None (Some note_ids) "notes" None
      "Cosine" "content" "metadata"
      (Some "db.cloud.qdrant.io") (Some "secret") None None empty_index
    = (c', Ok {| QdrantStore.collection_name := "notes";
                 vector_size := Z.of_nat (length [0.5%float; 0.25%float]);
                 QdrantStore.distance := "Cosine";
                 QdrantStore.content_payload_key := "content";
                 QdrantStore.metadata_payload_key := "metadata" |})
    /\ collections c' !! "notes" = Some col'
    /\ config col'
       = {| Rest.size := Z.of_nat (length [0.5%float; 0.25%float]);
            Rest.distance := Rest.COSINE |}
    /\ forall i t e id k,
         ["alpha"; "beta"] !! i = Some t ->
         map (fun _ => [0.5%float; 0.25%float]) ["alpha"; "beta"] !! i = Some e ->
         note_ids !! i = Some id -> point_key id = Some k ->
         points col' !! k
         = Some {| Rest.id := id; Rest.vector := e;
                   Rest.payload :=
                     Py.dict_display
                       [("content", Py.VStr t); ("metadata", Py.VDict [])] |}.
Proof.
  apply (from_texts_creates_and_stores "alpha" ["beta"] two_vectors note_ids
           "notes" "Cosine" "content" "metadata"
           (Some "db.cloud.qdrant.io") (Some "secret") None None empty_index
           Rest.COSINE [0.5%float; 0.25%float]
           (map (fun _ => [0.5%float; 0.25%float]) ["alpha"; "beta"])).
  - reflexivity.
  - apply lookup_empty.
  - eexists. reflexivity.
  - eexists. reflexivity.
  - reflexivity.
  - reflexivity.
  - reflexivity.
  - reflexivity.
  - intros e He. cbn [map] in He.
    repeat (apply elem_of_cons in He as [->|He]; [reflexivity|]).
    now apply elem_of_nil in He.
  - simpl. lia.
  - intros id Hid. vm_compute in Hid.
    repeat (apply elem_of_cons in Hid as [->|Hid]; [vm_compute; eauto|]).
    now apply elem_of_nil in Hid.
  - refine (bool_decide_unpack _ _). vm_compute. exact I.
Defined.

End QdrantStoreFromTexts.

Section MoreExamples.

Import JinaEmbedder.

Definition answered : state * Py.result (list vec) :=
  embed_async_many answering (with_batch_size 2) ["a"; "b"; "c"] warm.

Definition answered_vectors : list vec :=
  match answered.2 with Ok result => result | Raise _ => [] end.

Lemma embed_async_many_shape_witness :
  length answered_vectors = length ["a"; "b"; "c"]
  /\ forall i t v,
       ["a"; "b"; "c"] !! i = Some t ->
       _check_cache answering (with_batch_size 2) t warm = Some v ->
       answered_vectors !! i = Some v.
Proof.
  apply (embed_async_many_shape answering (with_batch_size 2) ["a"; "b"; "c"]
           warm answered.1 answered_vectors).
  vm_compute. reflexivity.
Defined.

Definition loaded_mixed
    : DocumentIngestor.t unit * Py.result (list DocumentIngestor.Document) :=
  DocumentIngestor._load_documents_from_directory Py.str_of_nat mixed_files
    fresh_ingestor.

Definition mixed_documents : list DocumentIngestor.Document :=
  match loaded_mixed.2 with Ok docs => docs | Raise _ => [] end.

Lemma loaded_sources_distinct_witness :
  Forall (read_from (DocumentIngestor.glob mixed_files)) mixed_documents
  /\ NoDup (map source_of mixed_documents).
Proof.
  apply (loaded_sources_distinct unit Py.str_of_nat mixed_files fresh_ingestor
           loaded_mixed.1 mixed_documents).
  vm_compute. reflexivity.
Defined.

End MoreExamples.
